(** * Verification model of the claude-speaks TTS hooks

    Shallow embedding of [src/utils/tts/cached_tts.py] (cache key, cache
    write, backend selection, [speak_with_cache], the CLI entry point), of
    [main], [get_tts_script_path] and [announce_notification] in
    [src/notification.py], of [src/utils/messages.py], of [speak] in
    [system_voice_tts.py] and [elevenlabs_tts.py], and of the scripts
    [generate_cache.py] and [check_and_play_cache.py].  Python strings are
    modelled as Rocq [string]s whose characters are the code points 0..255 of
    the text. *)

From Stdlib Require Import String Ascii List ZArith Lia Bool Finite Permutation.
Import ListNotations.
Open Scope Z_scope.

(* ------------------------------------------------------------------ *)
(** ** hashlib.md5 (RFC 1321) and text.encode('utf-8') *)

Module MD5.

Definition mask32 (x : Z) : Z := Z.land x (Z.ones 32).
Definition add32 (x y : Z) : Z := mask32 (x + y).
Definition not32 (x : Z) : Z := Z.lxor x (Z.ones 32).
Definition rotl32 (x : Z) (s : Z) : Z :=
  mask32 (Z.lor (Z.shiftl x s) (Z.shiftr x (32 - s))).

Definition K : list Z :=
  [0xd76aa478; 0xe8c7b756; 0x242070db; 0xc1bdceee;
   0xf57c0faf; 0x4787c62a; 0xa8304613; 0xfd469501;
   0x698098d8; 0x8b44f7af; 0xffff5bb1; 0x895cd7be;
   0x6b901122; 0xfd987193; 0xa679438e; 0x49b40821;
   0xf61e2562; 0xc040b340; 0x265e5a51; 0xe9b6c7aa;
   0xd62f105d; 0x02441453; 0xd8a1e681; 0xe7d3fbc8;
   0x21e1cde6; 0xc33707d6; 0xf4d50d87; 0x455a14ed;
   0xa9e3e905; 0xfcefa3f8; 0x676f02d9; 0x8d2a4c8a;
   0xfffa3942; 0x8771f681; 0x6d9d6122; 0xfde5380c;
   0xa4beea44; 0x4bdecfa9; 0xf6bb4b60; 0xbebfbc70;
   0x289b7ec6; 0xeaa127fa; 0xd4ef3085; 0x04881d05;
   0xd9d4d039; 0xe6db99e5; 0x1fa27cf8; 0xc4ac5665;
   0xf4292244; 0x432aff97; 0xab9423a7; 0xfc93a039;
   0x655b59c3; 0x8f0ccc92; 0xffeff47d; 0x85845dd1;
   0x6fa87e4f; 0xfe2ce6e0; 0xa3014314; 0x4e0811a1;
   0xf7537e82; 0xbd3af235; 0x2ad7d2bb; 0xeb86d391].

Definition Shifts : list Z :=
  [7; 12; 17; 22; 7; 12; 17; 22; 7; 12; 17; 22; 7; 12; 17; 22;
   5; 9; 14; 20; 5; 9; 14; 20; 5; 9; 14; 20; 5; 9; 14; 20;
   4; 11; 16; 23; 4; 11; 16; 23; 4; 11; 16; 23; 4; 11; 16; 23;
   6; 10; 15; 21; 6; 10; 15; 21; 6; 10; 15; 21; 6; 10; 15; 21].

(** Little-endian bytes of a word and back. *)
Definition word_bytes (w : Z) : list Z :=
  [Z.land w 255; Z.land (Z.shiftr w 8) 255;
   Z.land (Z.shiftr w 16) 255; Z.land (Z.shiftr w 24) 255].

Definition bytes_word (b0 b1 b2 b3 : Z) : Z :=
  Z.lor b0 (Z.lor (Z.shiftl b1 8) (Z.lor (Z.shiftl b2 16) (Z.shiftl b3 24))).

Fixpoint block_words (blk : list Z) : list Z :=
  match blk with
  | b0 :: b1 :: b2 :: b3 :: rest => bytes_word b0 b1 b2 b3 :: block_words rest
  | _ => []
  end.

(** Message padding: 0x80, zeros up to 56 mod 64, 64-bit bit length. *)
Definition pad (msg : list Z) : list Z :=
  let len := Z.of_nat (length msg) in
  let zeros := Z.to_nat ((55 - len) mod 64) in
  msg ++ [128] ++ repeat 0 zeros
      ++ word_bytes (mask32 (len * 8)) ++ word_bytes (Z.shiftr (len * 8) 32).

Record st4 := mk4 { A : Z; B : Z; C : Z; D : Z }.

Definition init : st4 := mk4 0x67452301 0xefcdab89 0x98badcfe 0x10325476.

Definition round (M : list Z) (s : st4) (i : nat) : st4 :=
  let '(mk4 a b c d) := s in
  let (f, g) :=
    if (i <? 16)%nat then (Z.lor (Z.land b c) (Z.land (not32 b) d), i)
    else if (i <? 32)%nat then (Z.lor (Z.land d b) (Z.land (not32 d) c), (5 * i + 1) mod 16)%nat
    else if (i <? 48)%nat then (Z.lxor b (Z.lxor c d), (3 * i + 5) mod 16)%nat
    else (Z.lxor c (Z.lor b (not32 d)), (7 * i) mod 16)%nat in
  let f := add32 (add32 (add32 f a) (nth i K 0)) (nth g M 0) in
  mk4 d (add32 b (rotl32 f (nth i Shifts 0))) b c.

Definition compress (s : st4) (blk : list Z) : st4 :=
  let M := block_words blk in
  let '(mk4 a b c d) := fold_left (round M) (seq 0 64) s in
  mk4 (add32 (A s) a) (add32 (B s) b) (add32 (C s) c) (add32 (D s) d).

Fixpoint blocks (fuel : nat) (l : list Z) : list (list Z) :=
  match fuel with
  | O => []
  | S fuel' =>
      match l with
      | [] => []
      | _ => firstn 64 l :: blocks fuel' (skipn 64 l)
      end
  end.

Definition digest (msg : list Z) : list Z :=
  let p := pad msg in
  let '(mk4 a b c d) := fold_left compress (blocks (length p) p) init in
  word_bytes a ++ word_bytes b ++ word_bytes c ++ word_bytes d.

Definition hex_char (n : Z) : ascii :=
  ascii_of_nat (Z.to_nat (if n <? 10 then 48 + n else 87 + n)).

Fixpoint hexdigest (bs : list Z) : string :=
  match bs with
  | [] => EmptyString
  | b :: rest =>
      String (hex_char (Z.shiftr b 4)) (String (hex_char (Z.land b 15)) (hexdigest rest))
  end.

End MD5.

Open Scope string_scope.
Open Scope list_scope.

(** [str.encode('utf-8')] on code points 0..255. *)
Fixpoint encode_utf8 (s : string) : list Z :=
  match s with
  | EmptyString => []
  | String c rest =>
      let n := Z.of_nat (nat_of_ascii c) in
      (if Z.ltb n 128 then [n]
       else [Z.lor 192 (Z.shiftr n 6); Z.lor 128 (Z.land n 63)]) ++ encode_utf8 rest
  end.

(** [get_cache_key]: [hashlib.md5(text.encode('utf-8')).hexdigest()]. *)
Definition get_cache_key (text : string) : string :=
  MD5.hexdigest (MD5.digest (encode_utf8 text)).

(* ------------------------------------------------------------------ *)
(** ** Python exceptions, the outside world, and the effect monad *)

(** The exception classes raised on the modelled paths; all derive from
    [Exception]. *)
Inductive exc :=
| FileNotFoundError | PermissionError | OSError
| CalledProcessError | TimeoutExpired | SubprocessError
| ValueError | UnicodeDecodeError | JSONDecodeError
| TypeError | AttributeError | RequestException.

(** A raised exception: an [Exception], or [SystemExit] from [sys.exit]. *)
Inductive exn :=
| Exc (e : exc)
| SystemExit (code : Z).

(** [isinstance(e, (FileNotFoundError, subprocess.SubprocessError))]. *)
Definition is_fnf_or_subprocess (e : exc) : bool :=
  match e with
  | FileNotFoundError | CalledProcessError | TimeoutExpired | SubprocessError => true
  | _ => false
  end.

(** [isinstance(e, (subprocess.TimeoutExpired, subprocess.SubprocessError))]. *)
Definition is_subprocess_error (e : exc) : bool :=
  match e with
  | CalledProcessError | TimeoutExpired | SubprocessError => true
  | _ => false
  end.

(** [isinstance(e, (json.JSONDecodeError, ValueError))]. *)
Definition is_value_error (e : exc) : bool :=
  match e with
  | ValueError | UnicodeDecodeError | JSONDecodeError => true
  | _ => false
  end.

(** A pathlib path as its list of components; a leading [""] is the root. *)
Definition path := list string.

Fixpoint split_slash (cur : string) (s : string) : list string :=
  match s with
  | EmptyString => [cur]
  | String c rest =>
      if Ascii.eqb c "/"%char then cur :: split_slash EmptyString rest
      else split_slash (cur ++ String c EmptyString)%string rest
  end.

Definition components (s : string) : list string :=
  filter (fun c => negb (String.eqb c ""%string) && negb (String.eqb c "."%string)) (split_slash ""%string s).

(** [p / s]: an absolute [s] replaces [p]. *)
Definition path_div (p : path) (s : string) : path :=
  match s with
  | String c _ => if Ascii.eqb c "/"%char then ""%string :: components s else p ++ components s
  | EmptyString => p
  end.

(** [str(p)]. *)
Definition path_str (p : path) : string :=
  match p with
  | [""%string] => "/"%string
  | _ => String.concat "/"%string p
  end.

Definition path_name (p : path) : string := last p ""%string.

(** [p.parent.name]. *)
Definition parent_name (p : path) : string := path_name (removelast p).

(** [Path(s).stem]: the name without its last suffix. *)
Fixpoint last_dot_aux (i : nat) (s : string) (acc : option nat) : option nat :=
  match s with
  | EmptyString => acc
  | String c rest =>
      last_dot_aux (S i) rest (if Ascii.eqb c "."%char then Some i else acc)
  end.

Definition stem (p : path) : string :=
  let n := path_name p in
  match last_dot_aux 0 n None with
  | Some (S k) => if Nat.eqb (S k) (String.length n - 1) then n else substring 0 (S k) n
  | _ => n
  end.

Definition path_eqb (p q : path) : bool :=
  if list_eq_dec string_dec p q then true else false.

(** Files on disk: path to bytes. *)
Definition fsys := path -> option (list Z).

Definition fs_upd (fs : fsys) (p : path) (v : option (list Z)) : fsys :=
  fun q => if path_eqb q p then v else fs q.

(** Outcome of an external process launched by [subprocess.run]. *)
Inductive proc :=
| PExit (code : Z)        (* ran to completion with this exit status *)
| PRaise (e : exc).       (* launching or waiting raised, e.g. FileNotFoundError, TimeoutExpired *)

(** Outcome of [requests.post]. *)
Inductive http :=
| HResp (status : Z) (content : list Z)
| HRaise (e : exc).

(** The environment of one process: configuration and the behaviour of
    everything outside the Python code.  An external process's outcome may
    depend on its argument vector and on the files on disk.  An audio player
    leaves the files as they are; a TTS script run by [speak_with_cache]'s
    fallback may change them, as given by [w_run_fs] ([elevenlabs_tts.py]
    leaves its temporary file behind when writing it fails; the scripts
    are outside this model). *)
Record world := {
  w_script_dir : path;                               (* Path(__file__).parent *)
  w_env : string -> option string;                   (* os.getenv *)
  w_mkdir : path -> option exc;                      (* mkdir(parents=True, exist_ok=True) *)
  w_run : list string -> fsys -> proc;               (* subprocess.run *)
  w_run_fs : list string -> fsys -> fsys;            (* the files after a TTS script's run *)
  w_post : string -> string -> string -> http;       (* requests.post(url, key, text) *)
  w_open_w : path -> option exc;                     (* open(p, 'wb') *)
  w_write : path -> list Z -> option (nat * exc)     (* f.write: Some (k, e) = k bytes, then e *)
}.

#[local] Set Warnings "-register-all".
(** Values produced by [json.loads] (numbers restricted to integers). *)
Inductive json :=
| JNull
| JBool (b : bool)
| JNum (n : Z)
| JStr (s : string)
| JArr (l : list json)
| JObj (l : list (string * json)).

Inductive event :=
| EvMkdir (p : path)
| EvRun (argv : list string)
| EvPost (url text : string)
| EvOpenW (p : path)
| EvWrite (p : path) (data : list Z)
| EvPrint (line : string)
| EvDump (p : path) (j : json).

Record st := mkst { st_fs : fsys; st_trace : list event }.

Definition log_ev (s : st) (e : event) : st := mkst (st_fs s) (st_trace s ++ [e]).
Definition set_file (s : st) (p : path) (v : option (list Z)) : st :=
  mkst (fs_upd (st_fs s) p v) (st_trace s).

Inductive outcome (A : Type) :=
| Ok (a : A)
| Err (e : exn).
Arguments Ok {A} a.
Arguments Err {A} e.

Definition MW (W A : Type) := W -> st -> outcome A * st.
Abbreviation M := (MW world).

Definition ret {W A} (a : A) : MW W A := fun _ s => (Ok a, s).
Definition bind {W A B} (m : MW W A) (f : A -> MW W B) : MW W B :=
  fun w s => match m w s with
             | (Ok a, s') => f a w s'
             | (Err e, s') => (Err e, s')
             end.
Definition raise {W A} (e : exn) : MW W A := fun _ s => (Err e, s).

(** [try: m except <classes selected by sel>: h]; [SystemExit] is not an
    [Exception] and is never caught. *)
Definition try_except {W A} (m : MW W A) (sel : exc -> bool) (h : MW W A) : MW W A :=
  fun w s => match m w s with
             | (Err (Exc e), s') => if sel e then h w s' else (Err (Exc e), s')
             | r => r
             end.

Notation "x <- m ;; k" := (bind m (fun x => k)) (at level 61, m at next level, right associativity).
Notation "m ;; k" := (bind m (fun _ => k)) (at level 61, right associativity).

(** [try: m except <sel1>: h1 except <sel2>: h2]. *)
Definition try_except2 {W A} (m : MW W A) (sel1 : exc -> bool) (h1 : MW W A)
           (sel2 : exc -> bool) (h2 : MW W A) : MW W A :=
  fun w s => match m w s with
             | (Err (Exc e), s') =>
                 if sel1 e then h1 w s' else if sel2 e then h2 w s' else (Err (Exc e), s')
             | r => r
             end.

Definition any_exception (_ : exc) : bool := true.

(** Primitive effects. *)
Definition getenv (k : string) : M (option string) := fun w s => (Ok (w_env w k), s).

(** [os.getenv(k, d)]. *)
Definition getenv_default (k d : string) : M string :=
  fun w s => (Ok (match w_env w k with Some v => v | None => d end), s).

(** Truth value of an [os.getenv] result: set and non-empty. *)
Definition truthy (o : option string) : bool :=
  match o with Some v => negb (String.eqb v ""%string) | None => false end.
Arguments truthy : simpl never.

Definition script_dir : M path := fun w s => (Ok (w_script_dir w), s).

Definition mkdir (p : path) : M unit :=
  fun w s => match w_mkdir w p with
             | None => (Ok tt, log_ev s (EvMkdir p))
             | Some e => (Err (Exc e), s)
             end.

(** [Path.exists()]. *)
Definition path_exists (p : path) : M bool :=
  fun _ s => (Ok (match st_fs s p with Some _ => true | None => false end), s).

(** [subprocess.run(argv, check=True, ...)]. *)
Definition run_check (argv : list string) : M unit :=
  fun w s => let s' := log_ev s (EvRun argv) in
             match w_run w argv (st_fs s) with
             | PExit 0 => (Ok tt, s')
             | PExit _ => (Err (Exc CalledProcessError), s')
             | PRaise e => (Err (Exc e), s')
             end.

(** [subprocess.run(argv, ...)] without [check]: the exit status is ignored. *)
Definition run (argv : list string) : M unit :=
  fun w s => let s' := mkst (w_run_fs w argv (st_fs s)) (st_trace s ++ [EvRun argv]) in
             match w_run w argv (st_fs s) with
             | PExit _ => (Ok tt, s')
             | PRaise e => (Err (Exc e), s')
             end.

(** [requests.post(url, ...)] with the API key header and the text. *)
Definition post (url key text : string) : M (Z * list Z) :=
  fun w s => let s' := log_ev s (EvPost url text) in
             match w_post w url key text with
             | HResp st c => (Ok (st, c), s')
             | HRaise e => (Err (Exc e), s')
             end.

(** [open(p, 'wb')]: creates or truncates the file. *)
Definition open_wb (p : path) : M unit :=
  fun w s => match w_open_w w p with
             | None => (Ok tt, set_file (log_ev s (EvOpenW p)) p (Some []))
             | Some e => (Err (Exc e), s)
             end.

(** [f.write(data)] on a file opened with [open_wb]; a failure after [k]
    bytes leaves those [k] bytes in the file. *)
Definition write_bytes (p : path) (data : list Z) : M unit :=
  fun w s => match w_write w p data with
             | None => (Ok tt, set_file (log_ev s (EvWrite p data)) p (Some data))
             | Some (k, e) =>
                 (Err (Exc e), set_file (log_ev s (EvWrite p (firstn k data))) p (Some (firstn k data)))
             end.

Definition print {W} (line : string) : MW W unit := fun _ s => (Ok tt, log_ev s (EvPrint line)).

Definition sys_exit {W A} (code : Z) : MW W A := raise (SystemExit code).

(** Process exit status after the script's top level finishes. *)
Definition exit_status {A} (o : outcome A) : Z :=
  match o with
  | Ok _ => 0
  | Err (SystemExit n) => n
  | Err (Exc _) => 1
  end.

(* ------------------------------------------------------------------ *)
(** ** cached_tts.py *)

Definition default_voice : string := "21m00Tcm4TlvDq8ikWAM".

Definition get_cache_dir : M path :=
  sd <- script_dir ;;
  let base_cache_dir := path_div sd "cache" in
  voice_id <- getenv_default "ELEVENLABS_VOICE_ID" default_voice ;;
  let voice_cache_dir := path_div base_cache_dir voice_id in
  mkdir voice_cache_dir ;;
  ret voice_cache_dir.

Definition get_cached_audio_path (text : string) : M path :=
  cache_dir <- get_cache_dir ;;
  let cache_key := get_cache_key text in
  ret (path_div cache_dir (cache_key ++ ".mp3")%string).

Definition play_audio (audio_file : path) : M bool :=
  try_except (run_check ["afplay"; path_str audio_file] ;; ret true) is_fnf_or_subprocess
    (try_except (run_check ["mpg123"; "-q"; path_str audio_file] ;; ret true) is_fnf_or_subprocess
       (try_except
          (run_check ["ffplay"; "-nodisp"; "-autoexit"; "-loglevel"; "quiet"; path_str audio_file] ;;
           ret true)
          is_fnf_or_subprocess
          (ret false)))%string.

Definition get_tts_script_path : M (option path) :=
  sd <- script_dir ;;
  k <- getenv "ELEVENLABS_API_KEY" ;;
  e1 <- (if truthy k then path_exists (path_div sd "elevenlabs_tts.py") else ret false) ;;
  if e1 then ret (Some (path_div sd "elevenlabs_tts.py")) else
  o <- getenv "OPENAI_API_KEY" ;;
  e2 <- (if truthy o then path_exists (path_div sd "openai_tts.py") else ret false) ;;
  if e2 then ret (Some (path_div sd "openai_tts.py")) else
  e3 <- path_exists (path_div sd "system_voice_tts.py") ;;
  if e3 then ret (Some (path_div sd "system_voice_tts.py")) else ret None.

Definition elevenlabs_url (voice_id : string) : string :=
  ("https://api.elevenlabs.io/v1/text-to-speech/" ++ voice_id)%string.

Definition generate_and_cache_audio (text : string) (audio_path : path) : M bool :=
  api_key <- getenv "ELEVENLABS_API_KEY" ;;
  match api_key with
  | Some key =>
      if truthy api_key then
        try_except
          (voice_id <- getenv_default "ELEVENLABS_VOICE_ID" default_voice ;;
           response <- post (elevenlabs_url voice_id) key text ;;
           let '(status_code, content) := response in
           if Z.eqb status_code 200 then
             open_wb audio_path ;;
             write_bytes audio_path content ;;
             ret true
           else ret false)
          any_exception
          (ret false)
      else ret false
  | None => ret false
  end.

(** The metadata dict returned by [speak_with_cache]. *)
Record dispatch := mkdispatch {
  cache_hit : bool;
  cache_file : option string;
  tts_backend : option string;
  voice_id : option string;
  fallback_used : bool
}.

Definition set_tts_backend (r : dispatch) (b : option string) : dispatch :=
  mkdispatch (cache_hit r) (cache_file r) b (voice_id r) (fallback_used r).
Definition set_voice_id (r : dispatch) (v : option string) : dispatch :=
  mkdispatch (cache_hit r) (cache_file r) (tts_backend r) v (fallback_used r).
Definition set_fallback_used (r : dispatch) (b : bool) : dispatch :=
  mkdispatch (cache_hit r) (cache_file r) (tts_backend r) (voice_id r) b.
Definition set_cache_hit (r : dispatch) (b : bool) : dispatch :=
  mkdispatch b (cache_file r) (tts_backend r) (voice_id r) (fallback_used r).

(** Lines 188-203: fall back to regular TTS. *)
Definition speak_fallback (text : string) (result : dispatch) : M dispatch :=
  let result := set_fallback_used result true in
  tts_script <- get_tts_script_path ;;
  match tts_script with
  | Some script =>
      let result := set_tts_backend result (Some (stem script)) in
      try_except (run ["python3"; path_str script; text]%string ;; ret result)
                 is_subprocess_error
                 (ret result)
  | None => ret result
  end.

(** Lines 178-203: generate with ElevenLabs, else fall back. *)
Definition speak_regenerate (text : string) (cached_audio : path) (result : dispatch) : M dispatch :=
  k <- getenv "ELEVENLABS_API_KEY" ;;
  if truthy k then
    vid <- getenv_default "ELEVENLABS_VOICE_ID" default_voice ;;
    let result := set_voice_id (set_tts_backend result (Some "elevenlabs"%string)) (Some vid) in
    generated <- generate_and_cache_audio text cached_audio ;;
    if generated then
      played <- play_audio cached_audio ;;
      if played then ret result else speak_fallback text result
    else speak_fallback text result
  else speak_fallback text result.

Definition speak_with_cache (text : string) : M dispatch :=
  let result0 := mkdispatch false None None None false in
  cached_audio <- get_cached_audio_path text ;;
  let result := mkdispatch (cache_hit result0) (Some (path_str cached_audio))
                           (tts_backend result0) (voice_id result0) (fallback_used result0) in
  ex <- path_exists cached_audio ;;
  if ex then
    let result := set_tts_backend (set_cache_hit (set_voice_id result (Some (parent_name cached_audio))) true)
                                  (Some "cache"%string) in
    played <- play_audio cached_audio ;;
    if played then ret result else speak_regenerate text cached_audio result
  else speak_regenerate text cached_audio result.

(* ------------------------------------------------------------------ *)
(** ** [json.dumps] (default separators, [ensure_ascii=True]) *)

Definition dquote : ascii := ascii_of_nat 34.
Definition bslash : ascii := ascii_of_nat 92.

Definition json_escape_char (c : ascii) : string :=
  let n := nat_of_ascii c in
  let esc (x : ascii) := String bslash (String x EmptyString) in
  if Nat.eqb n 34 then esc dquote
  else if Nat.eqb n 92 then esc bslash
  else if Nat.eqb n 10 then esc "n"%char
  else if Nat.eqb n 13 then esc "r"%char
  else if Nat.eqb n 9 then esc "t"%char
  else if Nat.eqb n 8 then esc "b"%char
  else if Nat.eqb n 12 then esc "f"%char
  else if (n <? 32)%nat || (126 <? n)%nat then
    String bslash ("u00" ++ MD5.hexdigest [Z.of_nat n])%string
  else String c EmptyString.

Fixpoint json_escape (s : string) : string :=
  match s with
  | EmptyString => EmptyString
  | String c rest => (json_escape_char c ++ json_escape rest)%string
  end.

Definition json_string (s : string) : string :=
  String dquote (json_escape s ++ String dquote EmptyString)%string.

Fixpoint decimal_aux (fuel : nat) (n : Z) (acc : string) : string :=
  match fuel with
  | O => acc
  | S f =>
      let acc := String (ascii_of_nat (Z.to_nat (48 + n mod 10))) acc in
      if Z.ltb n 10 then acc else decimal_aux f (n / 10) acc
  end.

Definition decimal (n : Z) : string :=
  if Z.ltb n 0 then ("-" ++ decimal_aux (Z.to_nat (Z.log2 (- n)) + 1) (- n) "")%string
  else decimal_aux (Z.to_nat (Z.log2 n) + 1) n "".

Fixpoint json_dumps (j : json) : string :=
  match j with
  | JNull => "null"
  | JBool true => "true"
  | JBool false => "false"
  | JNum n => decimal n
  | JStr s => json_string s
  | JArr l =>
      let fix items (l : list json) : string :=
        match l with
        | [] => ""
        | [x] => json_dumps x
        | x :: rest => (json_dumps x ++ ", " ++ items rest)%string
        end in
      ("[" ++ items l ++ "]")%string
  | JObj l =>
      let fix members (l : list (string * json)) : string :=
        match l with
        | [] => ""
        | [(k, v)] => (json_string k ++ ": " ++ json_dumps v)%string
        | (k, v) :: rest => (json_string k ++ ": " ++ json_dumps v ++ ", " ++ members rest)%string
        end in
      ("{" ++ members l ++ "}")%string
  end.

Definition json_opt_str (o : option string) : json :=
  match o with Some v => JStr v | None => JNull end.

(** The result dict, keys in insertion order. *)
Definition dispatch_json (r : dispatch) : json :=
  JObj [("cache_hit", JBool (cache_hit r));
        ("cache_file", json_opt_str (cache_file r));
        ("tts_backend", json_opt_str (tts_backend r));
        ("voice_id", json_opt_str (voice_id r));
        ("fallback_used", JBool (fallback_used r))].

(** Lines 206-223: the [__main__] block; [argv] is [sys.argv]. *)
Definition cached_tts_main (argv : list string) : M unit :=
  match argv with
  | _ :: ((_ :: _) as args) =>
      let output_json := existsb (String.eqb "--json") argv in
      let message_args := filter (fun arg => negb (String.eqb arg "--json")) args in
      let message := String.concat " " message_args in
      result <- speak_with_cache message ;;
      (if output_json then print (json_dumps (dispatch_json result)) else ret tt) ;;
      sys_exit (if truthy (tts_backend result) then 0 else 1)
  | _ => sys_exit 1
  end.

(* ------------------------------------------------------------------ *)
(** ** notification.py: [main] *)

Module Notification.

(** The environment of one hook invocation.  [announce_notification]
    (which catches every [Exception] itself) is left arbitrary: its result
    is any dict, or any [Exception]. *)
Record nworld := {
  n_script_dir : path;                      (* Path(__file__).parent *)
  n_notify : bool;                          (* --notify given *)
  n_stdin : exc + string;                   (* sys.stdin.read() *)
  n_loads : string -> exc + json;           (* json.loads *)
  n_mkdir : path -> option exc;             (* mkdir(parents=True, exist_ok=True) *)
  n_open_r : path -> option exc;            (* open(p, 'r') *)
  n_load : list Z -> exc + json;            (* json.load on the file's bytes *)
  n_now : string;                           (* datetime.now().isoformat() *)
  n_announce : exc + json;                  (* announce_notification() *)
  n_open_w : path -> option exc;            (* open(p, 'w') *)
  n_dump : json -> list Z * option exc      (* json.dump: bytes written, failure *)
}.

Abbreviation NM := (MW nworld).

Definition of_sum {A} (r : exc + A) : NM A :=
  fun _ s => match r with inl e => (Err (Exc e), s) | inr a => (Ok a, s) end.

Definition parse_args : NM bool := fun w s => (Ok (n_notify w), s).
Definition read_stdin : NM string := fun w s => of_sum (n_stdin w) w s.
Definition json_loads (txt : string) : NM json := fun w s => of_sum (n_loads w txt) w s.
Definition script_dir : NM path := fun w s => (Ok (n_script_dir w), s).

Definition mkdir (p : path) : NM unit :=
  fun w s => match n_mkdir w p with
             | None => (Ok tt, log_ev s (EvMkdir p))
             | Some e => (Err (Exc e), s)
             end.

(** [os.path.exists]. *)
Definition path_exists (p : path) : NM bool :=
  fun _ s => (Ok (match st_fs s p with Some _ => true | None => false end), s).

(** [open(p, 'r')] followed by [json.load(f)]; the two may fail separately. *)
Definition open_r (p : path) : NM unit :=
  fun w s => match n_open_r w p with None => (Ok tt, s) | Some e => (Err (Exc e), s) end.
Definition json_load (p : path) : NM json :=
  fun w s => match st_fs s p with
             | Some bytes => of_sum (n_load w bytes) w s
             | None => (Err (Exc FileNotFoundError), s)
             end.

Definition now_isoformat : NM string := fun w s => (Ok (n_now w), s).
Definition announce_notification : NM json := fun w s => of_sum (n_announce w) w s.

Fixpoint assoc_set (l : list (string * json)) (k : string) (v : json) : list (string * json) :=
  match l with
  | [] => [(k, v)]
  | (k', v') :: rest => if String.eqb k k' then (k, v) :: rest else (k', v') :: assoc_set rest k v
  end.

(** [d[k] = v]: only a dict supports item assignment by a string key. *)
Definition setitem (d : json) (k : string) (v : json) : NM json :=
  match d with
  | JObj l => ret (JObj (assoc_set l k v))
  | _ => raise (Exc TypeError)
  end.

(** [d.get(k)]: only a dict has [get]. *)
Definition dict_get (d : json) (k : string) : NM (option json) :=
  match d with
  | JObj l => ret (option_map snd (find (fun kv => String.eqb (fst kv) k) l))
  | _ => raise (Exc AttributeError)
  end.

(** [l.append(x)]: only a list has [append]. *)
Definition list_append (l : json) (x : json) : NM json :=
  match l with
  | JArr xs => ret (JArr (xs ++ [x]))
  | _ => raise (Exc AttributeError)
  end.

(** [open(p, 'w')]: creates or truncates the file. *)
Definition open_w (p : path) : NM unit :=
  fun w s => match n_open_w w p with
             | None => (Ok tt, set_file (log_ev s (EvOpenW p)) p (Some []))
             | Some e => (Err (Exc e), s)
             end.

Definition json_dump (p : path) (j : json) : NM unit :=
  fun w s => let '(bytes, failure) := n_dump w j in
             let s' := set_file (log_ev s (EvDump p j)) p (Some bytes) in
             match failure with None => (Ok tt, s') | Some e => (Err (Exc e), s') end.

Definition generic_message : json := JStr "Claude is waiting for your input".

Definition json_eqb_str (o : option json) (t : json) : bool :=
  match o, t with
  | Some (JStr a), JStr b => String.eqb a b
  | _, _ => false
  end.

Definition main : NM unit :=
  try_except2
    (notify <- parse_args ;;
     txt <- read_stdin ;;
     input_data <- json_loads txt ;;
     sd <- script_dir ;;
     let log_dir := path_div sd "logs" in
     mkdir log_dir ;;
     let log_file := path_div log_dir "notification.json" in
     ex <- path_exists log_file ;;
     log_data <- (if ex then
                    open_r log_file ;;
                    try_except (json_load log_file) is_value_error (ret (JArr []))
                  else ret (JArr [])) ;;
     now <- now_isoformat ;;
     input_data <- setitem input_data "timestamp" (JStr now) ;;
     input_data <- (if notify then
                      msg <- dict_get input_data "message" ;;
                      if negb (json_eqb_str msg generic_message) then
                        tts_metadata <- announce_notification ;;
                        setitem input_data "tts_metadata" tts_metadata
                      else ret input_data
                    else ret input_data) ;;
     log_data <- list_append log_data input_data ;;
     open_w log_file ;;
     json_dump log_file log_data ;;
     sys_exit 0)
    (fun e => match e with JSONDecodeError => true | _ => false end) (sys_exit 0)
    any_exception (sys_exit 0).

End Notification.

(* ------------------------------------------------------------------ *)
(** ** Concrete environments used by the witnesses and counterexamples *)

Definition env_of (l : list (string * string)) : string -> option string :=
  fun k => option_map snd (find (fun kv => String.eqb (fst kv) k) l).

Definition fs_of (l : list (path * list Z)) : fsys :=
  fun p => option_map snd (find (fun e => path_eqb (fst e) p) l).

Definition hook_tts_dir : path := [""; "home"; "dev"; ".claude"; "hooks"; "utils"; "tts"].

Definition system_voice_script : path := path_div hook_tts_dir "system_voice_tts.py".

(** The cache path of a text under the world's voice. *)
Definition current_voice (w : world) : string :=
  match w_env w "ELEVENLABS_VOICE_ID" with Some v => v | None => default_voice end.

Definition cache_dir_of (w : world) : path :=
  path_div (path_div (w_script_dir w) "cache") (current_voice w).

Definition cache_path (w : world) (text : string) : path :=
  path_div (cache_dir_of w) (get_cache_key text ++ ".mp3")%string.

(** A machine without credentials and without any audio output: every
    player and speech command is missing, the system voice script exits 1. *)
Definition w_silent : world := {|
  w_script_dir := hook_tts_dir;
  w_env := env_of [];
  w_mkdir := fun _ => None;
  w_run := fun argv _ =>
             if String.eqb (hd "" argv) "python3" then PExit 1 else PRaise FileNotFoundError;
  w_run_fs := fun _ fs => fs;
  w_post := fun _ _ _ => HRaise RequestException;
  w_open_w := fun _ => None;
  w_write := fun _ _ => None
|}.

Definition st_scripts : st := mkst (fs_of [(system_voice_script, [35])]) [].

(** [d] is (a prefix of) the audio returned by a successful ElevenLabs
    request for [text] in this environment. *)
Definition elevenlabs_output (w : world) (text : string) (d : list Z) : Prop :=
  exists key content k,
    w_env w "ELEVENLABS_API_KEY" = Some key /\ truthy (Some key) = true /\
    w_post w (elevenlabs_url (current_voice w)) key text = HResp 200 content /\
    d = firstn k content.

(** The file [q] is as in [fs0], or it is the cache file of [text] and
    holds ElevenLabs output. *)
Definition only_elevenlabs_cached (w : world) (text : string) (fs0 : fsys) (q : path) (fs : fsys)
  : Prop :=
  fs q = fs0 q \/ (q = cache_path w text /\ exists d, fs q = Some d /\ elevenlabs_output w text d).

(** Whether the script [name] exists next to [cached_tts.py]. *)
Definition has_script (w : world) (fs : fsys) (name : string) : bool :=
  match fs (path_div (w_script_dir w) name) with Some _ => true | None => false end.

(** The value [get_tts_script_path] computes on the files [fs]. *)
Definition tts_script_choice (w : world) (fs : fsys) : option path :=
  if truthy (w_env w "ELEVENLABS_API_KEY") && has_script w fs "elevenlabs_tts.py"
  then Some (path_div (w_script_dir w) "elevenlabs_tts.py")
  else if truthy (w_env w "OPENAI_API_KEY") && has_script w fs "openai_tts.py"
  then Some (path_div (w_script_dir w) "openai_tts.py")
  else if has_script w fs "system_voice_tts.py"
  then Some (path_div (w_script_dir w) "system_voice_tts.py")
  else None.

(** Network requests in a trace. *)
Definition is_post (e : event) : bool := match e with EvPost _ _ => true | _ => false end.
Definition count_posts (tr : list event) : nat := length (filter is_post tr).

(** The result of a successful cached playback. *)
Definition cache_hit_result (w : world) (text : string) : dispatch :=
  mkdispatch true (Some (path_str (cache_path w text))) (Some "cache")
             (Some (parent_name (cache_path w text))) false.

(** An MP3 file starts with an ID3 tag in these examples. *)
Definition valid_mp3 (d : list Z) : bool :=
  match d with 73 :: 68 :: 51 :: _ => true | _ => false end.

Definition audio_bytes : list Z := [73; 68; 51; 4; 0; 0].

Definition work_complete : string := "Work complete!".

(** The cache file of "Work complete!" under the default voice. *)
Definition wc_path : path :=
  path_div (path_div (path_div hook_tts_dir "cache") default_voice)
           (get_cache_key work_complete ++ ".mp3")%string.

(** Audio players fail on the cache file unless it holds valid MP3 data;
    the TTS scripts run. *)
Definition players_check_cache (argv : list string) (fs : fsys) : proc :=
  if String.eqb (hd "" argv) "python3" then PExit 0
  else match fs wc_path with
       | Some d => if valid_mp3 d then PExit 0 else PExit 1
       | None => PExit 1
       end.

(** ElevenLabs configured and answering; the cached file of
    "Work complete!" is corrupt. *)
Definition w_eleven : world := {|
  w_script_dir := hook_tts_dir;
  w_env := env_of [("ELEVENLABS_API_KEY", "sk-test")];
  w_mkdir := fun _ => None;
  w_run := players_check_cache;
  w_run_fs := fun _ fs => fs;
  w_post := fun _ _ _ => HResp 200 audio_bytes;
  w_open_w := fun _ => None;
  w_write := fun _ _ => None
|}.

Definition st_corrupt : st :=
  mkst (fs_of [(system_voice_script, [35]); (wc_path, [0])]) [].

(** ElevenLabs configured and answering, but the disk fills up after two
    bytes of every write. *)
Definition w_disk_full : world := {|
  w_script_dir := hook_tts_dir;
  w_env := env_of [("ELEVENLABS_API_KEY", "sk-test")];
  w_mkdir := fun _ => None;
  w_run := players_check_cache;
  w_run_fs := fun _ fs => fs;
  w_post := fun _ _ _ => HResp 200 audio_bytes;
  w_open_w := fun _ => None;
  w_write := fun _ _ => Some (2%nat, OSError)
|}.

(** No credentials; players work; a valid cache file exists. *)
Definition w_no_keys : world := {|
  w_script_dir := hook_tts_dir;
  w_env := env_of [];
  w_mkdir := fun _ => None;
  w_run := players_check_cache;
  w_run_fs := fun _ fs => fs;
  w_post := fun _ _ _ => HRaise RequestException;
  w_open_w := fun _ => None;
  w_write := fun _ _ => None
|}.

Definition st_warm : st :=
  mkst (fs_of [(system_voice_script, [35]); (wc_path, audio_bytes)]) [].

(** No credentials, and no [python3] on the PATH. *)
Definition w_no_python : world := {|
  w_script_dir := hook_tts_dir;
  w_env := env_of [];
  w_mkdir := fun _ => None;
  w_run := fun argv _ =>
             if String.eqb (hd "" argv) "python3" then PRaise FileNotFoundError else PExit 0;
  w_run_fs := fun _ fs => fs;
  w_post := fun _ _ _ => HRaise RequestException;
  w_open_w := fun _ => None;
  w_write := fun _ _ => None
|}.

(** Malformed JSON on standard input of the notification hook; a log file
    already exists. *)
Definition hooks_dir : path := [""; "home"; "dev"; ".claude"; "hooks"].

Definition nw_malformed : Notification.nworld := {|
  Notification.n_script_dir := hooks_dir;
  Notification.n_notify := true;
  Notification.n_stdin := inr "{not json";
  Notification.n_loads := fun _ => inl JSONDecodeError;
  Notification.n_mkdir := fun _ => None;
  Notification.n_open_r := fun _ => None;
  Notification.n_load := fun _ => inr (JArr []);
  Notification.n_now := "2026-01-01T00:00:00";
  Notification.n_announce := inr (JObj []);
  Notification.n_open_w := fun _ => None;
  Notification.n_dump := fun _ => ([], None)
|}.

Definition st_log : st :=
  mkst (fs_of [(path_div (path_div hooks_dir "logs") "notification.json", [91; 93])]) [].

(** All strings of length [n] (never computed; used to count). *)
Definition all_ascii : list ascii := map ascii_of_nat (seq 0 256).

Fixpoint all_strings (n : nat) : list string :=
  match n with
  | O => [EmptyString]
  | S k => flat_map (fun c => map (String c) (all_strings k)) all_ascii
  end.

Fixpoint a_string (n : nat) : string :=
  match n with
  | O => EmptyString
  | S k => String "a" (a_string k)
  end.

(** A cache file for [text] exists in [s] and [play_audio] plays it. *)
Definition cache_plays (w : world) (s : st) (text : string) : bool :=
  match st_fs s (cache_path w text) with
  | Some _ => match fst (play_audio (cache_path w text) w s) with Ok true => true | _ => false end
  | None => false
  end.

(** The backend name [speak_with_cache] records when it falls back and
    ElevenLabs is not configured. *)
Definition fallback_backend_name (w : world) (fs : fsys) : option string :=
  if truthy (w_env w "OPENAI_API_KEY") && has_script w fs "openai_tts.py" then Some "openai_tts"
  else if has_script w fs "system_voice_tts.py" then Some "system_voice_tts"
  else None.

(* ------------------------------------------------------------------ *)
(** ** Python string helpers: [str.strip], [int(str)] *)

(** [str.isspace] on the code points 0..255. *)
Definition py_isspace (c : ascii) : bool :=
  let n := nat_of_ascii c in
  (Nat.leb 9 n && Nat.leb n 13) || (Nat.leb 28 n && Nat.leb n 32) ||
  Nat.eqb n 133 || Nat.eqb n 160.

Fixpoint drop_space (l : list ascii) : list ascii :=
  match l with
  | c :: rest => if py_isspace c then drop_space rest else l
  | [] => []
  end.

(** [s.strip()]. *)
Definition py_strip (s : string) : string :=
  string_of_list_ascii (rev (drop_space (rev (drop_space (list_ascii_of_string s))))).

Definition digit_value (c : ascii) : option Z :=
  let n := nat_of_ascii c in
  if Nat.leb 48 n && Nat.leb n 57 then Some (Z.of_nat n - 48) else None.

(** Digits after the first one, single underscores allowed between digits. *)
Fixpoint int_digits (s : string) (acc : Z) (after_underscore : bool) : option Z :=
  match s with
  | EmptyString => if after_underscore then None else Some acc
  | String c rest =>
      match digit_value c with
      | Some d => int_digits rest (acc * 10 + d) false
      | None =>
          if Ascii.eqb c "_"%char && negb after_underscore
          then int_digits rest acc true else None
      end
  end.

Definition int_unsigned (s : string) : option Z :=
  match s with
  | String c rest => match digit_value c with Some d => int_digits rest d false | None => None end
  | EmptyString => None
  end.

(** The literal syntax accepted by [int(s)] for a [str], base 10. *)
Definition int_literal (s : string) : option Z :=
  match py_strip s with
  | String c rest =>
      if Ascii.eqb c "+"%char then int_unsigned rest
      else if Ascii.eqb c "-"%char then option_map Z.opp (int_unsigned rest)
      else int_unsigned (String c rest)
  | EmptyString => None
  end.

(** [sys.get_int_max_str_digits()]: the default limit on the number of digits
    [int(s)] converts (Python 3.11 and later). *)
Definition int_max_str_digits : nat := 4300.

(** The digits of [s]; signs, whitespace and underscores do not count. *)
Definition count_digits (s : string) : nat :=
  List.length (filter (fun c => match digit_value c with Some _ => true | None => false end)
                 (list_ascii_of_string s)).

(** [int(s)] for a [str], base 10; [None] is a [ValueError], raised for a
    string that is not an integer literal and for a literal of more than
    [int_max_str_digits] digits. *)
Definition py_int (s : string) : option Z :=
  if Nat.leb (count_digits s) int_max_str_digits then int_literal s else None.

(** [type(e).__name__]. *)
Definition exc_name (e : exc) : string :=
  match e with
  | FileNotFoundError => "FileNotFoundError" | PermissionError => "PermissionError"
  | OSError => "OSError" | CalledProcessError => "CalledProcessError"
  | TimeoutExpired => "TimeoutExpired" | SubprocessError => "SubprocessError"
  | ValueError => "ValueError" | UnicodeDecodeError => "UnicodeDecodeError"
  | JSONDecodeError => "JSONDecodeError" | TypeError => "TypeError"
  | AttributeError => "AttributeError" | RequestException => "RequestException"
  end.

(* ------------------------------------------------------------------ *)
(** ** The hook messages (utils/messages.py, and the copies of its lists in
    generate_cache.py, check_and_play_cache.py and notification.py) *)

(** The engineer's name: [os.getenv('ENGINEER_NAME', '').strip()], else
    [os.getenv('USER', '').strip()]. *)
Definition engineer_name (env : string -> option string) : string :=
  let n := py_strip (match env "ENGINEER_NAME" with Some v => v | None => "" end) in
  if String.eqb n "" then py_strip (match env "USER" with Some v => v | None => "" end) else n.

Definition generic_notification : string := "Your agent needs your input".

Definition personal_message (name : string) : string := (name ++ ", your agent needs your input")%string.

Module Messages.

Definition get_notification_messages (env : string -> option string) (include_personalized : bool)
  : list string :=
  let messages := [generic_notification] in
  if include_personalized then
    let name := engineer_name env in
    if String.eqb name "" then messages else messages ++ [personal_message name]
  else messages.

Definition get_completion_messages : list string :=
  ["Work complete!"; "All done!"; "Task finished!"; "Job complete!";
   "Ready for next task!"; "Mission accomplished!"; "Task complete!";
   "Finished successfully!"; "All set!"; "Done and dusted!"; "Wrapped up!";
   "Job well done!"; "That's a wrap!"; "Successfully completed!"; "All finished!";
   "Task accomplished!"; "Good to go!"; "Completed successfully!";
   "Everything's done!"; "Ready when you are!"].

Definition get_all_messages (env : string -> option string) : list string :=
  get_notification_messages env true ++ get_completion_messages.

End Messages.

(* ------------------------------------------------------------------ *)
(** ** utils/tts/generate_cache.py (console output is not modelled) *)

Module GenerateCache.

(** [get_all_messages]: the same list as [Messages.get_completion_messages]
    is spelled out in the file. *)
Definition get_all_messages (env : string -> option string) : list string :=
  let messages := [generic_notification] in
  let messages := messages ++ Messages.get_completion_messages in
  let name := engineer_name env in
  if String.eqb name "" then messages else messages ++ [personal_message name].

(** Truth value of the dict [speak_with_cache] returns: a dict is true
    when it is not empty. *)
Definition dict_truthy (r : dispatch) : bool :=
  match dispatch_json r with
  | JObj l => negb (Nat.eqb (length l) 0)
  | _ => true
  end.

(** The [for] loop of [main], with the counters
    [(success_count, skip_count, fail_count)]. *)
Fixpoint generate_loop (messages : list string) (success skip fail : Z) : M (Z * Z * Z) :=
  match messages with
  | [] => ret (success, skip, fail)
  | message :: rest =>
      cached_path <- get_cached_audio_path message ;;
      ex <- path_exists cached_path ;;
      if ex then generate_loop rest success (skip + 1) fail
      else
        r <- speak_with_cache message ;;
        if dict_truthy r then
          _ <- path_exists cached_path ;;
          generate_loop rest (success + 1) skip fail
        else generate_loop rest success skip (fail + 1)
  end.

Definition main : M Z :=
  messages <- (fun w s => (Ok (get_all_messages (w_env w)), s)) ;;
  counts <- generate_loop messages 0 0 0 ;;
  let '(success, skip, fail) := counts in
  _ <- get_cached_audio_path "" ;;
  ret (if Z.eqb fail 0 then 0 else 1).

End GenerateCache.

(* ------------------------------------------------------------------ *)
(** ** utils/tts/check_and_play_cache.py (console output and [time.sleep]
    are not modelled) *)

Module CheckAndPlayCache.

Definition get_all_messages (env : string -> option string) : list string :=
  let messages := [generic_notification] in
  let messages := messages ++ Messages.get_completion_messages in
  let name := engineer_name env in
  if String.eqb name "" then messages else messages ++ [personal_message name].

Fixpoint play_loop (messages : list string) : M unit :=
  match messages with
  | [] => ret tt
  | message :: rest =>
      cached_path <- get_cached_audio_path message ;;
      is_cached <- path_exists cached_path ;;
      (if is_cached then _ <- play_audio cached_path ;; ret tt else ret tt) ;;
      play_loop rest
  end.

Definition main : M unit :=
  messages <- (fun w s => (Ok (get_all_messages (w_env w)), s)) ;;
  play_loop messages.

(** The [__main__] block: any [Exception] ends the script with status 1. *)
Definition script : M unit := try_except main any_exception (sys_exit 1).

End CheckAndPlayCache.

(* ------------------------------------------------------------------ *)
(** ** utils/tts/system_voice_tts.py: [speak] *)

Module SystemVoice.

Definition speak (text : string) : M bool :=
  volume <- getenv_default "TTS_VOLUME" "0" ;;
  let volume := match py_int volume with
                | Some vol_int => decimal (Z.max (-100) (Z.min 100 vol_int))
                | None => "0"
                end in
  try_except (run_check ["say"; text] ;; ret true) is_fnf_or_subprocess
    (try_except (run_check ["spd-say"; "--volume"; volume; text] ;; ret true) is_fnf_or_subprocess
       (try_except
          (espeak_vol <- (match py_int volume with
                          | Some v => ret (decimal (Z.max 0 (Z.min 200 (v + 100))))
                          | None => raise (Exc ValueError)
                          end) ;;
           run_check ["espeak"; "-a"; espeak_vol; text] ;; ret true)
          is_fnf_or_subprocess
          (ret false))).

End SystemVoice.

(* ------------------------------------------------------------------ *)
(** ** utils/tts/elevenlabs_tts.py: [speak] *)

Module ElevenLabsTTS.

(** The process environment plus the temporary file
    [tempfile.NamedTemporaryFile(delete=False, suffix='.mp3')] hands out and
    the outcome of creating it and of [os.unlink]. *)
Record tworld := {
  t_base : world;
  t_tmp : path;
  t_create : option exc;
  t_unlink : path -> option exc
}.

Abbreviation TM := (MW tworld).

Definition lift {A} (m : M A) : TM A := fun u s => m (t_base u) s.

Definition named_temporary_file : TM path :=
  fun u s => match t_create u with
             | None => (Ok (t_tmp u), set_file (log_ev s (EvOpenW (t_tmp u))) (t_tmp u) (Some []))
             | Some e => (Err (Exc e), s)
             end.

Definition unlink (p : path) : TM unit :=
  fun u s => match t_unlink u p with
             | None => (Ok tt, set_file s p None)
             | Some e => (Err (Exc e), s)
             end.

Definition speak (text : string) : TM bool :=
  api_key <- lift (getenv "ELEVENLABS_API_KEY") ;;
  match api_key with
  | Some key =>
      if truthy api_key then
        try_except
          (let voice_id := default_voice in
           let url := elevenlabs_url voice_id in
           response <- lift (post url key text) ;;
           let '(status_code, content) := response in
           if Z.eqb status_code 200 then
             audio_file <- named_temporary_file ;;
             lift (write_bytes audio_file content) ;;
             lift (try_except (run_check ["afplay"; path_str audio_file] ;; ret tt)
                     is_fnf_or_subprocess
                     (try_except (run_check ["mpg123"; "-q"; path_str audio_file] ;; ret tt)
                        is_fnf_or_subprocess
                        (try_except
                           (run_check ["ffplay"; "-nodisp"; "-autoexit"; "-loglevel"; "quiet";
                                       path_str audio_file] ;; ret tt)
                           is_fnf_or_subprocess
                           (ret tt)))) ;;
             try_except (unlink audio_file) any_exception (ret tt) ;;
             ret true
           else ret false)
          any_exception
          (ret false)
      else ret false
  | None => ret false
  end.

End ElevenLabsTTS.

(* ------------------------------------------------------------------ *)
(** ** notification.py: [get_tts_script_path] and [announce_notification] *)

Module NotifyTTS.

(** Outcome of [subprocess.run(..., capture_output=True, text=True)]. *)
Inductive capture :=
| CDone (returncode : Z) (stdout : string)
| CRaise (e : exc).

Record aworld := {
  a_script_dir : path;                          (* Path(__file__).parent *)
  a_env : string -> option string;              (* os.getenv *)
  a_random_lt : bool;                           (* random.random() < 0.3 *)
  a_run : list string -> fsys -> capture;       (* subprocess.run *)
  a_run_fs : list string -> fsys -> fsys;       (* the files after the command's run *)
  a_loads : string -> exc + json                (* json.loads *)
}.

Abbreviation AM := (MW aworld).

Definition script_dir : AM path := fun w s => (Ok (a_script_dir w), s).
Definition getenv (k : string) : AM (option string) := fun w s => (Ok (a_env w k), s).
Definition path_exists (p : path) : AM bool :=
  fun _ s => (Ok (match st_fs s p with Some _ => true | None => false end), s).

Definition get_tts_script_path : AM (option path) :=
  sd <- script_dir ;;
  let tts_dir := path_div (path_div sd "utils") "tts" in
  let cached_tts_script := path_div tts_dir "cached_tts.py" in
  e0 <- path_exists cached_tts_script ;;
  if e0 then ret (Some cached_tts_script) else
  k <- getenv "ELEVENLABS_API_KEY" ;;
  e1 <- (if truthy k then path_exists (path_div tts_dir "elevenlabs_tts.py") else ret false) ;;
  if e1 then ret (Some (path_div tts_dir "elevenlabs_tts.py")) else
  o <- getenv "OPENAI_API_KEY" ;;
  e2 <- (if truthy o then path_exists (path_div tts_dir "openai_tts.py") else ret false) ;;
  if e2 then ret (Some (path_div tts_dir "openai_tts.py")) else
  e3 <- path_exists (path_div tts_dir "system_voice_tts.py") ;;
  if e3 then ret (Some (path_div tts_dir "system_voice_tts.py")) else ret None.

(** A Python dict with JSON keys, in insertion order. *)
Definition pydict := list (json * json).

Definition hashable (k : json) : bool :=
  match k with JArr _ | JObj _ => false | _ => true end.

(** Key equality: [True == 1] and [False == 0] as dict keys. *)
Definition key_num (k : json) : option Z :=
  match k with JBool b => Some (if b then 1 else 0) | JNum n => Some n | _ => None end.

Definition key_eqb (a b : json) : bool :=
  match a, b with
  | JNull, JNull => true
  | JStr x, JStr y => String.eqb x y
  | _, _ => match key_num a, key_num b with Some x, Some y => Z.eqb x y | _, _ => false end
  end.

(** [d[k] = v] for a hashable [k]: an equal key keeps its place. *)
Fixpoint dict_set (d : pydict) (k v : json) : pydict :=
  match d with
  | [] => [(k, v)]
  | (k', v') :: rest => if key_eqb k' k then (k', v) :: rest else (k', v') :: dict_set rest k v
  end.

Fixpoint dict_lookup (d : pydict) (k : json) : option json :=
  match d with
  | [] => None
  | (k', v') :: rest => if key_eqb k' k then Some v' else dict_lookup rest k
  end.

(** The items of [iter(j)]; [None]: not iterable. *)
Definition py_iter (j : json) : option (list json) :=
  match j with
  | JStr t => Some (map (fun c => JStr (String c EmptyString)) (list_ascii_of_string t))
  | JArr l => Some l
  | JObj l => Some (map (fun kv => JStr (fst kv)) l)
  | _ => None
  end.

(** [d.update(seq)] for a non-dict iterable: each item must be a pair with
    a hashable key.  The dict keeps the items before a failing one. *)
Fixpoint update_seq (d : pydict) (items : list json) : pydict * option exc :=
  match items with
  | [] => (d, None)
  | it :: rest =>
      match py_iter it with
      | None => (d, Some TypeError)
      | Some [k; v] => if hashable k then update_seq (dict_set d k v) rest else (d, Some TypeError)
      | Some _ => (d, Some ValueError)
      end
  end.

(** [d.update(other)]. *)
Definition dict_update (d : pydict) (other : json) : pydict * option exc :=
  match other with
  | JObj l => (fold_left (fun d kv => dict_set d (JStr (fst kv)) (snd kv)) l d, None)
  | _ => match py_iter other with
         | None => (d, Some TypeError)
         | Some items => update_seq d items
         end
  end.

Definition run_capture (argv : list string) : AM (Z * string) :=
  fun w s => let s' := mkst (a_run_fs w argv (st_fs s)) (st_trace s ++ [EvRun argv]) in
             match a_run w argv (st_fs s) with
             | CDone rc out => (Ok (rc, out), s')
             | CRaise e => (Err (Exc e), s')
             end.

Definition engineer_name_m : AM string := fun w s => (Ok (engineer_name (a_env w)), s).
Definition random_lt : AM bool := fun w s => (Ok (a_random_lt w), s).
Definition json_loads (txt : string) : AM json :=
  fun w s => match a_loads w txt with inl e => (Err (Exc e), s) | inr j => (Ok j, s) end.

(** The [except] clauses of [announce_notification], in their order. *)
Definition error_text (e : exc) : string :=
  match e with
  | TimeoutExpired => "TTS timeout"
  | FileNotFoundError => "TTS script not found: " ++ exc_name e
  | CalledProcessError | SubprocessError => "TTS subprocess error: " ++ exc_name e
  | _ => "Unexpected error: " ++ exc_name e
  end.

Definition with_error (d : pydict) (e : exc) : pydict := dict_set d (JStr "error") (JStr (error_text e)).

Definition json_truthy (j : json) : bool :=
  match j with
  | JNull => false | JBool b => b | JNum n => negb (Z.eqb n 0)
  | JStr t => negb (String.eqb t "") | JArr l => negb (Nat.eqb (length l) 0)
  | JObj l => negb (Nat.eqb (length l) 0)
  end.

Definition metadata0 : pydict :=
  [(JStr "tts_triggered", JBool false); (JStr "message", JNull); (JStr "personalized", JBool false)].

(** [announce_notification]: the dict [tts_metadata] is mutated in place,
    so an exception leaves the entries set before it. *)
Definition announce_notification : AM pydict :=
  tts_script <- get_tts_script_path ;;
  match tts_script with
  | None => ret metadata0
  | Some tts_script =>
      engineer <- engineer_name_m ;;
      personalized <- (if String.eqb engineer "" then ret (JStr engineer)
                       else r <- random_lt ;; ret (JBool r)) ;;
      let notification_message :=
        if json_truthy personalized then personal_message engineer else generic_notification in
      let md := dict_set metadata0 (JStr "message") (JStr notification_message) in
      let md := dict_set md (JStr "personalized") personalized in
      let md := dict_set md (JStr "tts_triggered") (JBool true) in
      fun w s =>
        match run_capture ["python3"; path_str tts_script; notification_message; "--json"] w s with
        | (Err (Exc e), s') => (Ok (with_error md e), s')
        | (Err e, s') => (Err e, s')
        | (Ok (rc, out), s') =>
            if Z.eqb rc 0 && negb (String.eqb (py_strip out) "") then
              match json_loads (py_strip out) w s' with
              | (Err (Exc JSONDecodeError), s'') => (Ok md, s'')
              | (Err (Exc e), s'') => (Ok (with_error md e), s'')
              | (Err e, s'') => (Err e, s'')
              | (Ok tts_details, s'') =>
                  match dict_update md tts_details with
                  | (d, None) => (Ok d, s'')
                  | (d, Some e) => (Ok (with_error d e), s'')
                  end
              end
            else (Ok md, s')
        end
  end.

End NotifyTTS.

(* ------------------------------------------------------------------ *)
(** ** Observations used by the statements about the modules above *)

(** The three player commands [play_audio] tries, in order. *)
Definition player_commands (audio_file : path) : list (list string) :=
  [["afplay"; path_str audio_file]; ["mpg123"; "-q"; path_str audio_file];
   ["ffplay"; "-nodisp"; "-autoexit"; "-loglevel"; "quiet"; path_str audio_file]].

(** A player run that fails with one of the exceptions [play_audio] catches
    ([check=True] turns a non-zero status into [CalledProcessError]). *)
Definition caught_failure (r : proc) : bool :=
  match r with
  | PExit 0 => false
  | PExit _ => true
  | PRaise e => is_fnf_or_subprocess e
  end.

Definition is_lower_hex (c : ascii) : bool :=
  let n := nat_of_ascii c in (Nat.leb 48 n && Nat.leb n 57) || (Nat.leb 97 n && Nat.leb n 102).

(** An environment value with a non-whitespace character. *)
Definition has_text (o : option string) : bool :=
  match o with
  | Some v => existsb (fun c => negb (py_isspace c)) (list_ascii_of_string v)
  | None => false
  end.

(** The volume [system_voice_tts.speak] settles on. *)
Definition tts_volume (env : string -> option string) : Z :=
  match py_int (match env "TTS_VOLUME" with Some v => v | None => "0" end) with
  | Some n => Z.max (-100) (Z.min 100 n)
  | None => 0
  end.

(** The three speech commands of [system_voice_tts.speak], in order. *)
Definition speech_commands (text : string) (v : Z) : list (list string) :=
  [["say"; text]; ["spd-say"; "--volume"; decimal v; text]; ["espeak"; "-a"; decimal (v + 100); text]].

(** A machine where the first player is not allowed to run. *)
Definition w_no_permission : world := {|
  w_script_dir := hook_tts_dir;
  w_env := env_of [];
  w_mkdir := fun _ => None;
  w_run := fun argv _ => if String.eqb (hd "" argv) "afplay" then PRaise PermissionError else PExit 0;
  w_run_fs := fun _ fs => fs;
  w_post := fun _ _ _ => HRaise RequestException;
  w_open_w := fun _ => None;
  w_write := fun _ _ => None
|}.

(** Every file exists. *)
Definition st_full : st := mkst (fun _ => Some audio_bytes) [].

Definition st_empty : st := mkst (fun _ => None) [].

(* ------------------------------------------------------------------ *)
(** ** Further observations and concrete machines *)

Definition no_slash (s : string) : bool :=
  forallb (fun c => negb (Ascii.eqb c "/"%char)) (list_ascii_of_string s).

Definition tw_eleven : ElevenLabsTTS.tworld := {|
  ElevenLabsTTS.t_base := w_eleven;
  ElevenLabsTTS.t_tmp := [""; "tmp"; "tmpk2n3j1.mp3"];
  ElevenLabsTTS.t_create := None;
  ElevenLabsTTS.t_unlink := fun _ => None
|}.

Definition tw_disk_full : ElevenLabsTTS.tworld := {|
  ElevenLabsTTS.t_base := w_disk_full;
  ElevenLabsTTS.t_tmp := [""; "tmp"; "tmpk2n3j1.mp3"];
  ElevenLabsTTS.t_create := None;
  ElevenLabsTTS.t_unlink := fun _ => None
|}.

Definition aw_empty : NotifyTTS.aworld := {|
  NotifyTTS.a_script_dir := [""; "home"; "dev"; ".claude"; "hooks"];
  NotifyTTS.a_env := env_of [("USER", "dev")];
  NotifyTTS.a_random_lt := true;
  NotifyTTS.a_run := fun _ _ => NotifyTTS.CDone 0 "";
  NotifyTTS.a_run_fs := fun _ fs => fs;
  NotifyTTS.a_loads := fun _ => inl JSONDecodeError
|}.

Definition aw_timeout : NotifyTTS.aworld := {|
  NotifyTTS.a_script_dir := [""; "home"; "dev"; ".claude"; "hooks"];
  NotifyTTS.a_env := env_of [("USER", "dev")];
  NotifyTTS.a_random_lt := true;
  NotifyTTS.a_run := fun _ _ => NotifyTTS.CRaise TimeoutExpired;
  NotifyTTS.a_run_fs := fun _ fs => fs;
  NotifyTTS.a_loads := fun _ => inl JSONDecodeError
|}.

Definition aw_failing : NotifyTTS.aworld := {|
  NotifyTTS.a_script_dir := [""; "home"; "dev"; ".claude"; "hooks"];
  NotifyTTS.a_env := env_of [];
  NotifyTTS.a_random_lt := true;
  NotifyTTS.a_run := fun _ _ => NotifyTTS.CDone 1 "";
  NotifyTTS.a_run_fs := fun _ fs => fs;
  NotifyTTS.a_loads := fun _ => inl JSONDecodeError
|}.

Definition aw_number : NotifyTTS.aworld := {|
  NotifyTTS.a_script_dir := [""; "home"; "dev"; ".claude"; "hooks"];
  NotifyTTS.a_env := env_of [("USER", "dev")];
  NotifyTTS.a_random_lt := false;
  NotifyTTS.a_run := fun _ _ => NotifyTTS.CDone 0 "42";
  NotifyTTS.a_run_fs := fun _ fs => fs;
  NotifyTTS.a_loads := fun t => if String.eqb t "42" then inr (JNum 42) else inl JSONDecodeError
|}.

Definition backend_stdout : string :=
  String.append "{" (String (ascii_of_nat 34) (String.append "tts_triggered"
    (String (ascii_of_nat 34) ": false}"))).

Definition aw_backend : NotifyTTS.aworld := {|
  NotifyTTS.a_script_dir := [""; "home"; "dev"; ".claude"; "hooks"];
  NotifyTTS.a_env := env_of [("USER", "dev")];
  NotifyTTS.a_random_lt := false;
  NotifyTTS.a_run := fun _ _ => NotifyTTS.CDone 0 backend_stdout;
  NotifyTTS.a_run_fs := fun _ fs => fs;
  NotifyTTS.a_loads := fun t => if String.eqb t backend_stdout
                                then inr (JObj [("tts_triggered", JBool false)])
                                else inl JSONDecodeError
|}.

(* ================================================================== *)
(** * Proofs *)

(** ** Test vectors *)

Example md5_empty : get_cache_key "" = "d41d8cd98f00b204e9800998ecf8427e".
Proof. vm_compute. reflexivity. Qed.
Example md5_abc : get_cache_key "abc" = "900150983cd24fb0d6963f7d28e17f72".
Proof. vm_compute. reflexivity. Qed.
Example md5_two_blocks :
  get_cache_key "11111111111111111111111111111111111111111111111111111111111111111111111111111111"
  = "7478ba1875f17511c12740431336a09e".
Proof. vm_compute. reflexivity. Qed.
Example md5_latin1 : get_cache_key (String (ascii_of_nat 233) "") = "66ddcd97cfdeabb2f6fb8a999b4bc76f".
Proof. vm_compute. reflexivity. Qed.
Example md5_work_complete : get_cache_key "Work complete!" = "fedf92ce2df196c3c133afda9aa83444".
Proof. vm_compute. reflexivity. Qed.

(** ** Paths *)

Lemma path_eqb_true p q : path_eqb p q = true <-> p = q.
Proof. unfold path_eqb. destruct (list_eq_dec string_dec p q); split; congruence. Qed.

Lemma path_eqb_refl p : path_eqb p p = true.
Proof. apply path_eqb_true. reflexivity. Qed.

Lemma fs_upd_eq fs p v : fs_upd fs p v p = v.
Proof. unfold fs_upd. now rewrite path_eqb_refl. Qed.

Lemma fs_upd_neq fs p q v : q <> p -> fs_upd fs p v q = fs q.
Proof.
  intro H. unfold fs_upd. destruct (path_eqb q p) eqn:E; [|reflexivity].
  apply path_eqb_true in E. contradiction.
Qed.

(** ** Invariants of the files on disk *)

(** [m] preserves the property [I] of the files on disk. *)
Definition keeps {W A} (w : W) (I : fsys -> Prop) (m : MW W A) : Prop :=
  forall s, I (st_fs s) -> I (st_fs (snd (m w s))).

(** [m] leaves the files on disk untouched. *)
Definition fs_same {W A} (m : MW W A) : Prop :=
  forall w s, st_fs (snd (m w s)) = st_fs s.

Section Keeps.
Context {W : Type} (w : W) (I : fsys -> Prop).

Lemma keeps_ret {A} (a : A) : keeps w I (ret a).
Proof. intros s H. exact H. Qed.

Lemma keeps_raise {A} (e : exn) : keeps w I (@raise W A e).
Proof. intros s H. exact H. Qed.

Lemma keeps_fs_same {A} (m : MW W A) : fs_same m -> keeps w I m.
Proof. intros Hm s H. now rewrite Hm. Qed.

Lemma keeps_bind {A B} (m : MW W A) (f : A -> MW W B) :
  keeps w I m -> (forall a, keeps w I (f a)) -> keeps w I (bind m f).
Proof.
  intros Hm Hf s H. unfold bind.
  specialize (Hm s H). destruct (m w s) as [[a|e] s'].
  - now apply Hf.
  - exact Hm.
Qed.

Lemma keeps_try {A} (m : MW W A) sel h :
  keeps w I m -> keeps w I h -> keeps w I (try_except m sel h).
Proof.
  intros Hm Hh s H. unfold try_except.
  specialize (Hm s H). destruct (m w s) as [[a|[e|n]] s']; simpl in *; auto.
  destruct (sel e); auto.
Qed.

Lemma keeps_try2 {A} (m : MW W A) sel1 h1 sel2 h2 :
  keeps w I m -> keeps w I h1 -> keeps w I h2 -> keeps w I (try_except2 m sel1 h1 sel2 h2).
Proof.
  intros Hm H1 H2 s H. unfold try_except2.
  specialize (Hm s H). destruct (m w s) as [[a|[e|n]] s']; simpl in *; auto.
  destruct (sel1 e); auto. destruct (sel2 e); auto.
Qed.

End Keeps.

Lemma getenv_same k : fs_same (getenv k).
Proof. intros w s. reflexivity. Qed.
Lemma getenv_default_same k d : fs_same (getenv_default k d).
Proof. intros w s. reflexivity. Qed.
Lemma script_dir_same : fs_same script_dir.
Proof. intros w s. reflexivity. Qed.
Lemma mkdir_same p : fs_same (mkdir p).
Proof. intros w s. unfold mkdir. now destruct (w_mkdir w p). Qed.
Lemma path_exists_same p : fs_same (path_exists p).
Proof. intros w s. reflexivity. Qed.
Lemma run_check_same argv : fs_same (run_check argv).
Proof. intros w s. unfold run_check. now destruct (w_run w argv (st_fs s)) as [[| |]|]. Qed.
Lemma run_keeps w (I : fsys -> Prop) argv :
  (forall fs, I fs -> I (w_run_fs w argv fs)) -> keeps w I (run argv).
Proof. intros HI s H. unfold run. destruct (w_run w argv (st_fs s)); apply HI, H. Qed.
Lemma post_same url key text : fs_same (post url key text).
Proof. intros w s. unfold post. now destruct (w_post w url key text). Qed.
Lemma print_same {W} line : fs_same (@print W line).
Proof. intros w s. reflexivity. Qed.

Create HintDb keeps.
#[export] Hint Resolve keeps_ret keeps_raise : keeps.
#[export] Hint Resolve getenv_same getenv_default_same script_dir_same mkdir_same
  path_exists_same run_check_same post_same print_same run_keeps : keeps.

(** Decompose a program into its primitive steps. *)
Ltac keeps_steps :=
  repeat match goal with
  | |- keeps _ _ (bind _ _) => apply keeps_bind; [|intro]
  | |- keeps _ _ (try_except _ _ _) => apply keeps_try
  | |- keeps _ _ (try_except2 _ _ _ _ _) => apply keeps_try2
  | |- keeps _ _ (if ?b then _ else _) => destruct b
  | |- keeps _ _ (match ?x with _ => _ end) => destruct x
  | |- keeps _ _ ?m => apply keeps_fs_same; solve [eauto with keeps]
  | |- keeps _ _ _ => solve [eauto with keeps]
  end.

Lemma play_audio_keeps w I p : keeps w I (play_audio p).
Proof. unfold play_audio. keeps_steps. Qed.

Lemma get_cached_audio_path_keeps w I text : keeps w I (get_cached_audio_path text).
Proof. unfold get_cached_audio_path, get_cache_dir. keeps_steps. Qed.

Lemma get_tts_script_path_keeps w I : keeps w I get_tts_script_path.
Proof. unfold get_tts_script_path. keeps_steps. Qed.

Lemma speak_fallback_keeps w I text r :
  (forall argv fs, I fs -> I (w_run_fs w argv fs)) -> keeps w I (speak_fallback text r).
Proof. intro HI. unfold speak_fallback. keeps_steps; auto using get_tts_script_path_keeps. Qed.

#[export] Hint Resolve play_audio_keeps get_cached_audio_path_keeps
  get_tts_script_path_keeps speak_fallback_keeps : keeps.

Lemma get_cached_audio_path_eq w s text :
  get_cached_audio_path text w s =
  match w_mkdir w (cache_dir_of w) with
  | None => (Ok (cache_path w text), log_ev s (EvMkdir (cache_dir_of w)))
  | Some e => (Err (Exc e), s)
  end.
Proof.
  unfold get_cached_audio_path, get_cache_dir, cache_path, cache_dir_of, current_voice,
    bind, script_dir, getenv_default, mkdir, ret.
  simpl. destruct (w_mkdir w _); reflexivity.
Qed.

Lemma keeps_bind_cached {B} w I text (f : path -> M B) :
  keeps w I (f (cache_path w text)) -> keeps w I (bind (get_cached_audio_path text) f).
Proof.
  intros Hf s H. unfold bind. rewrite get_cached_audio_path_eq.
  destruct (w_mkdir w (cache_dir_of w)); [exact H|]. now apply Hf.
Qed.

(** ** Only ElevenLabs audio reaches the cache *)

Lemma only_elevenlabs_cached_upd w text fs0 q fs d :
  only_elevenlabs_cached w text fs0 q fs -> elevenlabs_output w text d ->
  only_elevenlabs_cached w text fs0 q (fs_upd fs (cache_path w text) (Some d)).
Proof.
  intros H Hd. unfold only_elevenlabs_cached, fs_upd. destruct (path_eqb q (cache_path w text)) eqn:E.
  - apply path_eqb_true in E. subst. right. eauto.
  - apply H.
Qed.

Lemma generate_and_cache_audio_keeps w text fs0 q :
  keeps w (only_elevenlabs_cached w text fs0 q)
    (generate_and_cache_audio text (cache_path w text)).
Proof.
  intros s H. unfold generate_and_cache_audio, bind, getenv, try_except, getenv_default,
    post, open_wb, write_bytes, ret, any_exception. simpl.
  destruct (w_env w "ELEVENLABS_API_KEY") as [key|] eqn:Ek; simpl; [|exact H].
  destruct (truthy (Some key)) eqn:Et; simpl; [|exact H].
  fold (current_voice w).
  destruct (w_post w (elevenlabs_url (current_voice w)) key text) as [sc c|e] eqn:Ep;
    simpl; [|exact H].
  destruct (Z.eqb sc 200) eqn:Es; simpl; [|exact H].
  apply Z.eqb_eq in Es. subst sc.
  destruct (w_open_w w (cache_path w text)); simpl; [exact H|].
  destruct (w_write w (cache_path w text) c) as [[k e]|]; simpl;
    (apply only_elevenlabs_cached_upd;
     [apply only_elevenlabs_cached_upd; [exact H|] |]).
  - exists key, c, 0%nat. auto.
  - exists key, c, k. auto.
  - exists key, c, 0%nat. auto.
  - exists key, c, (length c). rewrite firstn_all. auto.
Qed.

#[export] Hint Resolve generate_and_cache_audio_keeps : keeps.

Lemma speak_with_cache_keeps w text fs0 q :
  (forall argv fs, w_run_fs w argv fs q = fs q) ->
  keeps w (only_elevenlabs_cached w text fs0 q) (speak_with_cache text).
Proof.
  intro Hq.
  assert (HI : forall argv fs, only_elevenlabs_cached w text fs0 q fs ->
                               only_elevenlabs_cached w text fs0 q (w_run_fs w argv fs)).
  { intros argv fs. unfold only_elevenlabs_cached. now rewrite Hq. }
  unfold speak_with_cache. apply keeps_bind_cached.
  unfold speak_regenerate. keeps_steps.
Qed.

(** ** The helpers of [speak_with_cache] *)

Lemma fs_same_of_keeps {A} (m : M A) : (forall w I, keeps w I m) -> fs_same m.
Proof. intros H w s. apply (H w (fun fs => fs = st_fs s)). reflexivity. Qed.

Lemma play_audio_same p : fs_same (play_audio p).
Proof. apply fs_same_of_keeps. intros. apply play_audio_keeps. Qed.

(** Playback depends on the files on disk only. *)
Lemma play_audio_fst p w s s' :
  st_fs s = st_fs s' -> fst (play_audio p w s) = fst (play_audio p w s').
Proof.
  destruct s as [fs tr], s' as [fs' tr']. simpl. intros <-.
  unfold play_audio, try_except, bind, run_check, ret. simpl.
  repeat (match goal with |- context [w_run ?w ?a ?f] => destruct (w_run w a f) as [[|?|?]|?] end;
          simpl; try reflexivity;
          try (match goal with |- context [is_fnf_or_subprocess ?e] =>
                 destruct (is_fnf_or_subprocess e) end; simpl; try reflexivity)).
Qed.

Lemma get_tts_script_path_eq w s :
  get_tts_script_path w s = (Ok (tts_script_choice w (st_fs s)), s).
Proof.
  unfold get_tts_script_path, tts_script_choice, has_script, bind, script_dir, getenv,
    path_exists, ret.
  simpl.
  repeat (match goal with
          | |- context [truthy (w_env w ?k)] => destruct (truthy (w_env w k)) eqn:?
          | |- context [st_fs s ?p] => destruct (st_fs s p) eqn:?
          end; simpl);
  first [reflexivity | congruence].
Qed.

Lemma speak_fallback_eq text r w s :
  speak_fallback text r w s =
  match tts_script_choice w (st_fs s) with
  | Some sc =>
      let r' := set_tts_backend (set_fallback_used r true) (Some (stem sc)) in
      let argv := ["python3"; path_str sc; text] in
      let s' := mkst (w_run_fs w argv (st_fs s)) (st_trace s ++ [EvRun argv]) in
      match w_run w argv (st_fs s) with
      | PExit _ => (Ok r', s')
      | PRaise e => if is_subprocess_error e then (Ok r', s') else (Err (Exc e), s')
      end
  | None => (Ok (set_fallback_used r true), s)
  end.
Proof.
  unfold speak_fallback, bind at 1. rewrite get_tts_script_path_eq.
  destruct (tts_script_choice w (st_fs s)) as [sc|]; [|reflexivity].
  unfold try_except, bind, run, ret. simpl.
  destruct (w_run w _ (st_fs s)); [reflexivity|].
  destruct (is_subprocess_error e); reflexivity.
Qed.

Lemma speak_regenerate_no_key text p r w s :
  truthy (w_env w "ELEVENLABS_API_KEY") = false ->
  speak_regenerate text p r w s = speak_fallback text r w s.
Proof. intro H. unfold speak_regenerate, bind, getenv. simpl. now rewrite H. Qed.

Lemma stem_openai sd : stem (path_div sd "openai_tts.py") = "openai_tts".
Proof.
  change (path_div sd "openai_tts.py") with (sd ++ ["openai_tts.py"]).
  unfold stem, path_name. now rewrite last_last.
Qed.

Lemma stem_system_voice sd : stem (path_div sd "system_voice_tts.py") = "system_voice_tts".
Proof.
  change (path_div sd "system_voice_tts.py") with (sd ++ ["system_voice_tts.py"]).
  unfold stem, path_name. now rewrite last_last.
Qed.

Lemma stem_elevenlabs sd : stem (path_div sd "elevenlabs_tts.py") = "elevenlabs_tts".
Proof.
  change (path_div sd "elevenlabs_tts.py") with (sd ++ ["elevenlabs_tts.py"]).
  unfold stem, path_name. now rewrite last_last.
Qed.

Example wc_path_is_cache_path : wc_path = cache_path w_eleven work_complete.
Proof. vm_compute. reflexivity. Qed.

Lemma speak_fallback_no_key_backend text r w s r' s' :
  truthy (w_env w "ELEVENLABS_API_KEY") = false ->
  speak_fallback text r w s = (Ok r', s') ->
  tts_backend r' = match fallback_backend_name w (st_fs s) with
                   | Some b => Some b
                   | None => tts_backend r
                   end.
Proof.
  intros Hk H. rewrite speak_fallback_eq in H.
  unfold tts_script_choice, fallback_backend_name in *. rewrite Hk in H. cbn [andb] in H.
  destruct (truthy (w_env w "OPENAI_API_KEY") && has_script w (st_fs s) "openai_tts.py");
  [|destruct (has_script w (st_fs s) "system_voice_tts.py")].
  - rewrite stem_openai in H.
    destruct (w_run _ _ _); [|destruct (is_subprocess_error e)]; inversion H; reflexivity.
  - rewrite stem_system_voice in H.
    destruct (w_run _ _ _); [|destruct (is_subprocess_error e)]; inversion H; reflexivity.
  - inversion H. reflexivity.
Qed.

(** The first steps of [speak_with_cache]: the cache path and its lookup. *)
Lemma speak_with_cache_eq text w s :
  speak_with_cache text w s =
  match w_mkdir w (cache_dir_of w) with
  | Some e => (Err (Exc e), s)
  | None =>
      let p := cache_path w text in
      let s1 := log_ev s (EvMkdir (cache_dir_of w)) in
      let r0 := mkdispatch false (Some (path_str p)) None None false in
      match st_fs s p with
      | Some _ =>
          match play_audio p w s1 with
          | (Ok true, s2) => (Ok (cache_hit_result w text), s2)
          | (Ok false, s2) => speak_regenerate text p (cache_hit_result w text) w s2
          | (Err e, s2) => (Err e, s2)
          end
      | None => speak_regenerate text p r0 w s1
      end
  end.
Proof.
  unfold speak_with_cache. unfold bind at 1. rewrite get_cached_audio_path_eq.
  destruct (w_mkdir w (cache_dir_of w)); [reflexivity|].
  unfold bind, path_exists. simpl.
  destruct (st_fs s (cache_path w text)); [|reflexivity].
  destruct (play_audio (cache_path w text) w (log_ev s (EvMkdir (cache_dir_of w))))
    as [[[|]|e] s2]; reflexivity.
Qed.

(** ** General helpers for the remaining claims *)

Lemma pair_of_fst {A B} (p : outcome A * B) (a : A) : fst p = Ok a -> p = (Ok a, snd p).
Proof. destruct p as [o s]. simpl. intros ->. reflexivity. Qed.

Lemma count_posts_log s e :
  is_post e = false -> count_posts (st_trace (log_ev s e)) = count_posts (st_trace s).
Proof.
  intro H. unfold count_posts, log_ev. simpl. rewrite filter_app. simpl. rewrite H.
  rewrite app_nil_r. reflexivity.
Qed.

(** Playback makes no network request. *)
Lemma play_audio_no_post p w s :
  count_posts (st_trace (snd (play_audio p w s))) = count_posts (st_trace s).
Proof.
  destruct s as [fs tr].
  unfold play_audio, try_except, bind, run_check, ret. simpl.
  repeat (match goal with |- context [w_run ?w ?a ?f] => destruct (w_run w a f) as [[|?|?]|?] end;
          simpl;
          try (match goal with |- context [is_fnf_or_subprocess ?e] =>
                 destruct (is_fnf_or_subprocess e) end; simpl));
  unfold count_posts; repeat rewrite filter_app; simpl; repeat rewrite app_nil_r; reflexivity.
Qed.

(** One call of [speak_with_cache] on a playable cache entry. *)
Lemma speak_warm_once w s text :
  w_mkdir w (cache_dir_of w) = None ->
  st_fs s (cache_path w text) <> None ->
  fst (play_audio (cache_path w text) w s) = Ok true ->
  fst (speak_with_cache text w s) = Ok (cache_hit_result w text) /\
  st_fs (snd (speak_with_cache text w s)) = st_fs s /\
  count_posts (st_trace (snd (speak_with_cache text w s))) = count_posts (st_trace s).
Proof.
  intros Hm Hc Hp. rewrite speak_with_cache_eq, Hm. cbv zeta.
  destruct (st_fs s (cache_path w text)) eqn:Ec; [|contradiction].
  pose proof (play_audio_fst (cache_path w text) w (log_ev s (EvMkdir (cache_dir_of w))) s
                eq_refl) as Hf.
  pose proof (play_audio_same (cache_path w text) w (log_ev s (EvMkdir (cache_dir_of w)))) as Hs.
  pose proof (play_audio_no_post (cache_path w text) w (log_ev s (EvMkdir (cache_dir_of w)))) as Hn.
  rewrite count_posts_log in Hn by reflexivity.
  destruct (play_audio (cache_path w text) w (log_ev s (EvMkdir (cache_dir_of w)))) as [o s2].
  simpl in Hf, Hs, Hn. rewrite Hp in Hf. subst o.
  split; [reflexivity|]. split; assumption.
Qed.

(** ** MD5 keys have 32 characters *)

Lemma hexdigest_length bs : String.length (MD5.hexdigest bs) = (2 * length bs)%nat.
Proof. induction bs as [|b bs IH]; simpl; [reflexivity|]. rewrite IH. lia. Qed.

Lemma digest_length msg : length (MD5.digest msg) = 16%nat.
Proof.
  unfold MD5.digest. cbv zeta.
  destruct (fold_left MD5.compress _ MD5.init) as [a b c d]. reflexivity.
Qed.

Lemma get_cache_key_length t : String.length (get_cache_key t) = 32%nat.
Proof. unfold get_cache_key. rewrite hexdigest_length, digest_length. reflexivity. Qed.

Lemma all_ascii_complete c : In c all_ascii.
Proof.
  unfold all_ascii. rewrite <- (ascii_nat_embedding c). apply in_map.
  apply in_seq. pose proof (nat_ascii_bounded c). lia.
Qed.

Lemma all_strings_complete s : In s (all_strings (String.length s)).
Proof.
  induction s as [|c s IH]; [left; reflexivity|].
  change (In (String c s) (flat_map (fun c => map (String c) (all_strings (String.length s)))
                                    all_ascii)).
  apply in_flat_map. exists c. split; [apply all_ascii_complete|]. apply in_map. exact IH.
Qed.

Lemma a_string_length n : String.length (a_string n) = n.
Proof. induction n as [|n IH]; simpl; congruence. Qed.

(** ** The notification hook always ends in [sys.exit(0)] *)

Definition ends0 {A} (o : outcome A) : Prop :=
  match o with Ok _ => False | Err (SystemExit n) => n = 0 | Err (Exc _) => True end.
Definition no_exit {A} (o : outcome A) : Prop :=
  match o with Err (SystemExit _) => False | _ => True end.

(** [m] ends in [sys.exit(0)] or an [Exception]; [m] never calls [sys.exit]. *)
Definition prog_ends0 {A} (m : Notification.NM A) : Prop := forall w s, ends0 (fst (m w s)).
Definition prog_no_exit {A} (m : Notification.NM A) : Prop := forall w s, no_exit (fst (m w s)).

Lemma ends0_bind {A B} (m : Notification.NM A) (f : A -> Notification.NM B) :
  prog_no_exit m -> (forall a, prog_ends0 (f a)) -> prog_ends0 (bind m f).
Proof.
  intros Hm Hf w s. specialize (Hm w s). unfold bind.
  destruct (m w s) as [[a|[e|n]] s']; simpl in *; [apply Hf|exact I|contradiction].
Qed.

Lemma no_exit_bind {A B} (m : Notification.NM A) (f : A -> Notification.NM B) :
  prog_no_exit m -> (forall a, prog_no_exit (f a)) -> prog_no_exit (bind m f).
Proof.
  intros Hm Hf w s. specialize (Hm w s). unfold bind.
  destruct (m w s) as [[a|[e|n]] s']; simpl in *; [apply Hf|exact I|contradiction].
Qed.

Lemma no_exit_try {A} (m : Notification.NM A) sel h :
  prog_no_exit m -> prog_no_exit h -> prog_no_exit (try_except m sel h).
Proof.
  intros Hm Hh w s. specialize (Hm w s). unfold try_except.
  destruct (m w s) as [[a|[e|n]] s']; simpl in *; [exact I| |contradiction].
  destruct (sel e); [apply Hh|exact I].
Qed.

Lemma ends0_exit0 {A} : prog_ends0 (@sys_exit Notification.nworld A 0).
Proof. intros w s. reflexivity. Qed.

Lemma no_exit_ret {A} (a : A) : prog_no_exit (@ret Notification.nworld A a).
Proof. intros w s. exact I. Qed.

Lemma no_exit_raise_exc {A} e : prog_no_exit (@raise Notification.nworld A (Exc e)).
Proof. intros w s. exact I. Qed.

Lemma no_exit_of_sum {A} (r : exc + A) : prog_no_exit (Notification.of_sum r).
Proof. intros w s. unfold Notification.of_sum. destruct r; exact I. Qed.

Lemma no_exit_parse_args : prog_no_exit Notification.parse_args.
Proof. intros w s. exact I. Qed.
Lemma no_exit_read_stdin : prog_no_exit Notification.read_stdin.
Proof. intros w s. apply no_exit_of_sum. Qed.
Lemma no_exit_json_loads txt : prog_no_exit (Notification.json_loads txt).
Proof. intros w s. apply no_exit_of_sum. Qed.
Lemma no_exit_script_dir : prog_no_exit Notification.script_dir.
Proof. intros w s. exact I. Qed.
Lemma no_exit_mkdir p : prog_no_exit (Notification.mkdir p).
Proof. intros w s. unfold Notification.mkdir. destruct (Notification.n_mkdir w p); exact I. Qed.
Lemma no_exit_path_exists p : prog_no_exit (Notification.path_exists p).
Proof. intros w s. exact I. Qed.
Lemma no_exit_open_r p : prog_no_exit (Notification.open_r p).
Proof. intros w s. unfold Notification.open_r. destruct (Notification.n_open_r w p); exact I. Qed.
Lemma no_exit_json_load p : prog_no_exit (Notification.json_load p).
Proof.
  intros w s. unfold Notification.json_load. destruct (st_fs s p); [apply no_exit_of_sum|exact I].
Qed.
Lemma no_exit_now_isoformat : prog_no_exit Notification.now_isoformat.
Proof. intros w s. exact I. Qed.
Lemma no_exit_announce_notification : prog_no_exit Notification.announce_notification.
Proof. intros w s. apply no_exit_of_sum. Qed.
Lemma no_exit_setitem d k v : prog_no_exit (Notification.setitem d k v).
Proof. intros w s. unfold Notification.setitem. destruct d; exact I. Qed.
Lemma no_exit_dict_get d k : prog_no_exit (Notification.dict_get d k).
Proof. intros w s. unfold Notification.dict_get. destruct d; exact I. Qed.
Lemma no_exit_list_append l x : prog_no_exit (Notification.list_append l x).
Proof. intros w s. unfold Notification.list_append. destruct l; exact I. Qed.
Lemma no_exit_open_w p : prog_no_exit (Notification.open_w p).
Proof. intros w s. unfold Notification.open_w. destruct (Notification.n_open_w w p); exact I. Qed.
Lemma no_exit_json_dump p j : prog_no_exit (Notification.json_dump p j).
Proof.
  intros w s. unfold Notification.json_dump. destruct (Notification.n_dump w j) as [b [e|]]; exact I.
Qed.

Create HintDb noexit.
#[export] Hint Resolve no_exit_ret no_exit_raise_exc no_exit_parse_args no_exit_read_stdin
  no_exit_json_loads no_exit_script_dir no_exit_mkdir no_exit_path_exists no_exit_open_r
  no_exit_json_load no_exit_now_isoformat no_exit_announce_notification no_exit_setitem
  no_exit_dict_get no_exit_list_append no_exit_open_w no_exit_json_dump ends0_exit0 : noexit.

Ltac exit_steps :=
  repeat match goal with
  | |- prog_ends0 (bind _ _) => apply ends0_bind; [|intro]
  | |- prog_no_exit (bind _ _) => apply no_exit_bind; [|intro]
  | |- prog_no_exit (try_except _ _ _) => apply no_exit_try
  | |- prog_ends0 (if ?b then _ else _) => destruct b
  | |- prog_no_exit (if ?b then _ else _) => destruct b
  | |- _ => solve [eauto with noexit]
  end.

Lemma try_except2_exit0 {A} (m : Notification.NM A) sel1 w s :
  prog_ends0 m ->
  fst (try_except2 m sel1 (sys_exit 0) any_exception (sys_exit 0) w s) = Err (SystemExit 0).
Proof.
  intro H. specialize (H w s). unfold try_except2.
  destruct (m w s) as [[a|[e|n]] s']; simpl in *; [contradiction| |subst; reflexivity].
  destruct (sel1 e); reflexivity.
Qed.

Lemma notification_main_exit0 w s : fst (Notification.main w s) = Err (SystemExit 0).
Proof.
  unfold Notification.main. apply try_except2_exit0. cbv zeta. exit_steps.
Qed.

(** ** C8 *)

(** C8: across every execution of [speak_with_cache], a file that the TTS
    script launched by the fallback does not write (such as the cache
    tree) changes only if it is the cache file of the text, and what it
    then holds is (a prefix of) the audio of a successful ElevenLabs
    request for that text: the code of [speak_with_cache] never writes the
    output of the OpenAI or system-voice backends to the cache. *)
Theorem speak_with_cache_caches_only_elevenlabs w s text q :
  (forall argv fs, w_run_fs w argv fs q = fs q) ->
  let fs' := st_fs (snd (speak_with_cache text w s)) in
  fs' q = st_fs s q \/
  (q = cache_path w text /\ exists d, fs' q = Some d /\ elevenlabs_output w text d).
Proof.
  intro Hq. apply (speak_with_cache_keeps w text (st_fs s) q Hq s). left. reflexivity.
Qed.

Lemma speak_with_cache_caches_only_elevenlabs_witness :
  (forall argv fs, w_run_fs w_eleven argv fs (cache_path w_eleven work_complete)
                   = fs (cache_path w_eleven work_complete)) /\
  let fs' := st_fs (snd (speak_with_cache work_complete w_eleven st_scripts)) in
  fs' (cache_path w_eleven work_complete) = st_fs st_scripts (cache_path w_eleven work_complete) \/
  (cache_path w_eleven work_complete = cache_path w_eleven work_complete /\
   exists d, fs' (cache_path w_eleven work_complete) = Some d /\
             elevenlabs_output w_eleven work_complete d).
Proof.
  split; [intros; reflexivity|].
  apply speak_with_cache_caches_only_elevenlabs. intros; reflexivity.
Defined.

(** ** C4 *)

(** C4 (counterexample): with no credentials, no cache entry and no audio
    output at all (every player and speech command missing, the system
    voice script exiting 1), [speak_with_cache] still reports
    [tts_backend = "system_voice_tts"], not [None]. *)
Lemma speak_silent_reports_system_voice :
  ~ (forall w s text r s',
       truthy (w_env w "ELEVENLABS_API_KEY") = false ->
       truthy (w_env w "OPENAI_API_KEY") = false ->
       st_fs s (cache_path w text) = None ->
       (forall argv fs, w_run w argv fs <> PExit 0) ->
       speak_with_cache text w s = (Ok r, s') ->
       tts_backend r = None).
Proof.
  intro H.
  assert (Hr : tts_backend (match fst (speak_with_cache work_complete w_silent st_scripts) with
                            | Ok r => r | Err _ => cache_hit_result w_silent "" end)
               = Some "system_voice_tts") by (vm_compute; reflexivity).
  rewrite (H w_silent st_scripts work_complete
             (match fst (speak_with_cache work_complete w_silent st_scripts) with
              | Ok r => r | Err _ => cache_hit_result w_silent "" end)
             (snd (speak_with_cache work_complete w_silent st_scripts)))
    in Hr; [discriminate| reflexivity | reflexivity | vm_compute; reflexivity | |].
  - intros argv fs. simpl. destruct (String.eqb (hd "" argv) "python3"); discriminate.
  - vm_compute. reflexivity.
Qed.

(** C4 (amended): with neither ElevenLabs nor OpenAI credentials and no
    cache entry, [speak_with_cache] makes no network request and launches
    only the system voice script (when present); the recorded backend is
    the script that was launched, ["system_voice_tts"], whatever its exit
    status, and [None] only when no script is available. *)
Theorem speak_no_credentials_only_system_voice w s text :
  truthy (w_env w "ELEVENLABS_API_KEY") = false ->
  truthy (w_env w "OPENAI_API_KEY") = false ->
  w_mkdir w (cache_dir_of w) = None ->
  st_fs s (cache_path w text) = None ->
  let sv := path_div (w_script_dir w) "system_voice_tts.py" in
  let s1 := log_ev s (EvMkdir (cache_dir_of w)) in
  let argv := ["python3"; path_str sv; text] in
  let s2 := mkst (w_run_fs w argv (st_fs s)) (st_trace s1 ++ [EvRun argv]) in
  let r := mkdispatch false (Some (path_str (cache_path w text))) (Some "system_voice_tts") None true in
  speak_with_cache text w s =
  if has_script w (st_fs s) "system_voice_tts.py" then
    match w_run w argv (st_fs s) with
    | PExit _ => (Ok r, s2)
    | PRaise e => if is_subprocess_error e then (Ok r, s2) else (Err (Exc e), s2)
    end
  else (Ok (mkdispatch false (Some (path_str (cache_path w text))) None None true), s1).
Proof.
  intros Hk Ho Hm Hc. cbv zeta.
  rewrite speak_with_cache_eq, Hm. cbv zeta. rewrite Hc.
  rewrite speak_regenerate_no_key by exact Hk. rewrite speak_fallback_eq.
  unfold tts_script_choice. cbn [st_fs log_ev]. rewrite Hk, Ho. cbn [andb].
  destruct (has_script w (st_fs s) "system_voice_tts.py"); [|reflexivity].
  rewrite stem_system_voice. reflexivity.
Qed.

Lemma speak_no_credentials_only_system_voice_witness :
  speak_with_cache work_complete w_silent st_scripts =
  (Ok (mkdispatch false (Some (path_str (cache_path w_silent work_complete)))
                  (Some "system_voice_tts") None true),
   log_ev (log_ev st_scripts (EvMkdir (cache_dir_of w_silent)))
          (EvRun ["python3"; path_str system_voice_script; work_complete])).
Proof.
  rewrite (speak_no_credentials_only_system_voice w_silent st_scripts work_complete);
    [| reflexivity | reflexivity | reflexivity | vm_compute; reflexivity].
  reflexivity.
Defined.

(** ** C7 *)

(** C7 (counterexample): without ElevenLabs credentials but with a playable
    cache entry and the system voice script present, [speak_with_cache]
    reports ["cache"], not the highest-priority available backend. *)
Lemma speak_warm_cache_reports_cache :
  ~ (forall w s text r s',
       truthy (w_env w "ELEVENLABS_API_KEY") = false ->
       speak_with_cache text w s = (Ok r, s') ->
       tts_backend r = fallback_backend_name w (st_fs s)).
Proof.
  intro H.
  assert (E : fst (speak_with_cache work_complete w_no_keys st_warm)
              = Ok (cache_hit_result w_no_keys work_complete)) by (vm_compute; reflexivity).
  destruct (speak_with_cache work_complete w_no_keys st_warm) as [o s'] eqn:Hsp.
  simpl in E. subst o.
  pose proof (H w_no_keys st_warm work_complete (cache_hit_result w_no_keys work_complete) s'
                eq_refl Hsp) as H2.
  assert (Hn : fallback_backend_name w_no_keys (st_fs st_warm) = Some "system_voice_tts")
    by (vm_compute; reflexivity).
  assert (Hc : tts_backend (cache_hit_result w_no_keys work_complete) = Some "cache")
    by reflexivity.
  pose proof (eq_trans (eq_sym Hc) (eq_trans H2 Hn)) as H3.
  discriminate H3.
Qed.

(** C7 (amended): without ElevenLabs credentials [speak_with_cache] never
    reports an ElevenLabs backend.  It reports ["cache"] when a cache file
    for the text exists and plays; otherwise the first available script in
    the order OpenAI (credential and script present) > system voice (script
    present); when neither is available, ["cache"] if a cache file existed
    (and failed to play), [None] otherwise. *)
Theorem speak_without_elevenlabs_backend w s text r s' :
  truthy (w_env w "ELEVENLABS_API_KEY") = false ->
  speak_with_cache text w s = (Ok r, s') ->
  tts_backend r <> Some "elevenlabs" /\ tts_backend r <> Some "elevenlabs_tts" /\
  tts_backend r =
    if cache_plays w s text then Some "cache"
    else match fallback_backend_name w (st_fs s) with
         | Some b => Some b
         | None => match st_fs s (cache_path w text) with Some _ => Some "cache" | None => None end
         end.
Proof.
  intros Hk Hs.
  assert (Hb : tts_backend r =
    if cache_plays w s text then Some "cache"
    else match fallback_backend_name w (st_fs s) with
         | Some b => Some b
         | None => match st_fs s (cache_path w text) with Some _ => Some "cache" | None => None end
         end).
  { unfold cache_plays. rewrite speak_with_cache_eq in Hs.
    destruct (w_mkdir w (cache_dir_of w)); [discriminate|]. cbv zeta in Hs.
    destruct (st_fs s (cache_path w text)) eqn:Ec.
    - pose proof (play_audio_same (cache_path w text) w (log_ev s (EvMkdir (cache_dir_of w)))) as Hf.
      pose proof (play_audio_fst (cache_path w text) w s (log_ev s (EvMkdir (cache_dir_of w)))
                    eq_refl) as Hp.
      rewrite Hp.
      destruct (play_audio (cache_path w text) w (log_ev s (EvMkdir (cache_dir_of w))))
        as [[[|]|e] s2]; simpl in Hf; cbn [fst].
      + inversion Hs. reflexivity.
      + rewrite speak_regenerate_no_key in Hs by exact Hk.
        apply speak_fallback_no_key_backend in Hs; [|exact Hk].
        rewrite Hf in Hs. simpl in Hs. exact Hs.
      + discriminate.
    - rewrite speak_regenerate_no_key in Hs by exact Hk.
      apply speak_fallback_no_key_backend in Hs; [|exact Hk]. simpl in Hs. exact Hs. }
  assert (Hn : forall b, fallback_backend_name w (st_fs s) = Some b ->
                         b <> "elevenlabs" /\ b <> "elevenlabs_tts").
  { unfold fallback_backend_name. intros b Hb'.
    destruct (_ && _); [|destruct (has_script _ _ _)]; inversion Hb'; split; discriminate. }
  split; [|split]; [| |exact Hb]; rewrite Hb;
    destruct (cache_plays w s text); try discriminate;
    destruct (fallback_backend_name w (st_fs s)) as [b|] eqn:E;
    try (destruct (st_fs s (cache_path w text)); discriminate);
    destruct (Hn b eq_refl); congruence.
Qed.

Lemma speak_without_elevenlabs_backend_witness :
  truthy (w_env w_no_keys "ELEVENLABS_API_KEY") = false /\
  speak_with_cache work_complete w_no_keys st_warm =
    (Ok (cache_hit_result w_no_keys work_complete),
     snd (speak_with_cache work_complete w_no_keys st_warm)) /\
  tts_backend (cache_hit_result w_no_keys work_complete) <> Some "elevenlabs" /\
  tts_backend (cache_hit_result w_no_keys work_complete) <> Some "elevenlabs_tts" /\
  tts_backend (cache_hit_result w_no_keys work_complete) =
    if cache_plays w_no_keys st_warm work_complete then Some "cache"
    else match fallback_backend_name w_no_keys (st_fs st_warm) with
         | Some b => Some b
         | None => match st_fs st_warm (cache_path w_no_keys work_complete) with
                   | Some _ => Some "cache" | None => None end
         end.
Proof.
  assert (Hk : truthy (w_env w_no_keys "ELEVENLABS_API_KEY") = false) by reflexivity.
  assert (Hs : speak_with_cache work_complete w_no_keys st_warm =
                 (Ok (cache_hit_result w_no_keys work_complete),
                  snd (speak_with_cache work_complete w_no_keys st_warm))).
  { assert (E : fst (speak_with_cache work_complete w_no_keys st_warm)
                = Ok (cache_hit_result w_no_keys work_complete)) by (vm_compute; reflexivity).
    destruct (speak_with_cache work_complete w_no_keys st_warm) as [o s'] eqn:Hsp.
    simpl in E. subst o. reflexivity. }
  split; [exact Hk|]. split; [exact Hs|].
  exact (speak_without_elevenlabs_backend w_no_keys st_warm work_complete _ _ Hk Hs).
Defined.

(** ** C1 *)

(** C1 (counterexample): a write of the cache file that fails part way
    (the disk fills up after two bytes) makes [generate_and_cache_audio]
    return [False] but leaves a file at the cache path, which the
    existence check of the next [speak_with_cache] reports as a cache
    entry. *)
Lemma partial_write_leaves_cache_entry :
  ~ (forall w s text,
       st_fs s (cache_path w text) = None ->
       fst (generate_and_cache_audio text (cache_path w text) w s) = Ok false ->
       fst (path_exists (cache_path w text) w
              (snd (generate_and_cache_audio text (cache_path w text) w s))) = Ok false).
Proof.
  intro H.
  pose proof (H w_disk_full st_scripts work_complete) as H1.
  assert (A1 : st_fs st_scripts (cache_path w_disk_full work_complete) = None)
    by (vm_compute; reflexivity).
  assert (A2 : fst (generate_and_cache_audio work_complete (cache_path w_disk_full work_complete)
                      w_disk_full st_scripts) = Ok false) by (vm_compute; reflexivity).
  assert (A3 : fst (path_exists (cache_path w_disk_full work_complete) w_disk_full
                      (snd (generate_and_cache_audio work_complete
                              (cache_path w_disk_full work_complete) w_disk_full st_scripts)))
               = Ok true) by (vm_compute; reflexivity).
  pose proof (eq_trans (eq_sym A3) (H1 A1 A2)) as E. discriminate E.
Qed.

(** C1 (amended): the cache write is not atomic.  [generate_and_cache_audio]
    opens the destination path itself for writing and writes the response
    body there, with no temporary file and no rename; when the write fails
    after [k] bytes the function returns [False], the destination holds
    exactly the first [k] bytes, no other file changes, and the existence
    check reports the destination as present. *)
Theorem generate_and_cache_audio_partial_write w s text p key content k e :
  w_env w "ELEVENLABS_API_KEY" = Some key ->
  truthy (Some key) = true ->
  w_post w (elevenlabs_url (current_voice w)) key text = HResp 200 content ->
  w_open_w w p = None ->
  w_write w p content = Some (k, e) ->
  fst (generate_and_cache_audio text p w s) = Ok false /\
  st_fs (snd (generate_and_cache_audio text p w s)) p = Some (firstn k content) /\
  (forall q, q <> p -> st_fs (snd (generate_and_cache_audio text p w s)) q = st_fs s q) /\
  fst (path_exists p w (snd (generate_and_cache_audio text p w s))) = Ok true.
Proof.
  intros Hk Ht Hp Ho Hw.
  assert (G : generate_and_cache_audio text p w s =
              (Ok false,
               set_file (log_ev (set_file (log_ev (log_ev s (EvPost (elevenlabs_url (current_voice w)) text))
                                                   (EvOpenW p)) p (Some []))
                                (EvWrite p (firstn k content))) p (Some (firstn k content)))).
  { unfold generate_and_cache_audio, bind, getenv, try_except, getenv_default, post, open_wb,
      write_bytes, ret, any_exception. simpl.
    rewrite Hk. rewrite Ht. fold (current_voice w). rewrite Hp. simpl. rewrite Ho, Hw.
    reflexivity. }
  rewrite G. simpl. split; [reflexivity|]. split; [|split].
  - apply fs_upd_eq.
  - intros q Hq. rewrite !fs_upd_neq by exact Hq. reflexivity.
  - unfold path_exists. simpl. rewrite fs_upd_eq. reflexivity.
Qed.

Lemma generate_and_cache_audio_partial_write_witness :
  fst (generate_and_cache_audio work_complete wc_path w_disk_full st_scripts) = Ok false /\
  st_fs (snd (generate_and_cache_audio work_complete wc_path w_disk_full st_scripts)) wc_path
    = Some (firstn 2 audio_bytes) /\
  (forall q, q <> wc_path ->
     st_fs (snd (generate_and_cache_audio work_complete wc_path w_disk_full st_scripts)) q
     = st_fs st_scripts q) /\
  fst (path_exists wc_path w_disk_full
         (snd (generate_and_cache_audio work_complete wc_path w_disk_full st_scripts))) = Ok true.
Proof.
  exact (generate_and_cache_audio_partial_write w_disk_full st_scripts work_complete wc_path
           "sk-test" audio_bytes 2 OSError eq_refl eq_refl eq_refl eq_refl eq_refl).
Defined.

(** ** C2 *)

(** C2 (code bug): with no credentials, no cache entry, the system voice
    script present and no [python3] on the PATH, the fallback
    [subprocess.run] raises [FileNotFoundError], which the fallback's
    [except (TimeoutExpired, SubprocessError)] does not catch: the
    exception propagates out of [speak_with_cache]. *)
Theorem speak_without_python_raises :
  fst (speak_with_cache work_complete w_no_python st_scripts) = Err (Exc FileNotFoundError).
Proof. vm_compute. reflexivity. Qed.

(** ** C3 *)

(** C3 (code bug): with a corrupt cache file (every player fails on it)
    and ElevenLabs answering, [speak_with_cache] keeps going, regenerates
    and overwrites the file and plays it, but returns [cache_hit = True]
    together with [tts_backend = "elevenlabs"]: the regeneration branch
    never resets [cache_hit]. *)
Theorem speak_corrupt_cache_reports_cache_hit :
  fst (speak_with_cache work_complete w_eleven st_corrupt) =
    Ok (mkdispatch true (Some (path_str wc_path)) (Some "elevenlabs") (Some default_voice) false) /\
  st_fs (snd (speak_with_cache work_complete w_eleven st_corrupt)) wc_path = Some audio_bytes.
Proof. split; vm_compute; reflexivity. Qed.

(** ** C5 *)

(** C5 (counterexample): [get_cache_key] is not injective.  Its values
    are strings of 32 characters, so the [256^32 + 1] texts
    ["", "a", "aa", ...] cannot all have different keys. *)
Lemma get_cache_key_not_injective :
  ~ (forall t1 t2, t1 <> t2 -> get_cache_key t1 <> get_cache_key t2).
Proof.
  intro H.
  assert (Hinj : Finite.Injective (fun n => get_cache_key (a_string n))).
  { intros n m E. destruct (Nat.eq_dec n m) as [|Hne]; [assumption|].
    exfalso. apply (H (a_string n) (a_string m)); [|exact E].
    intro Ea. apply Hne. rewrite <- (a_string_length n), <- (a_string_length m), Ea.
    reflexivity. }
  assert (Hnd : NoDup (map (fun n => get_cache_key (a_string n))
                           (seq 0 (S (length (all_strings 32)))))).
  { apply Finite.Injective_map_NoDup; [exact Hinj|apply seq_NoDup]. }
  assert (Hincl : incl (map (fun n => get_cache_key (a_string n))
                            (seq 0 (S (length (all_strings 32))))) (all_strings 32)).
  { intros x Hx. apply in_map_iff in Hx. destruct Hx as [n [Hn _]]. subst x.
    pose proof (all_strings_complete (get_cache_key (a_string n))) as Hc.
    rewrite get_cache_key_length in Hc. exact Hc. }
  pose proof (NoDup_incl_length Hnd Hincl) as Hle.
  rewrite length_map, length_seq in Hle. lia.
Qed.

(** C5 (amended): the key is the MD5 hex digest of the UTF-8 bytes of the
    text, taken verbatim: always 32 characters (so collisions exist but
    are improbable), with no case or whitespace normalisation. *)
Theorem get_cache_key_md5_verbatim :
  (forall t, String.length (get_cache_key t) = 32%nat) /\
  get_cache_key "Work complete!" = "fedf92ce2df196c3c133afda9aa83444" /\
  get_cache_key "work complete!" = "70b5ea172129149a1fc3f2d789a043e8" /\
  get_cache_key "Work complete! " = "5a58ff139465ab668d240c5050147ca0".
Proof.
  split; [exact get_cache_key_length|]. split; [|split]; vm_compute; reflexivity.
Qed.

(** ** C6 *)

(** C6 (counterexample): a cache entry that exists but cannot be played
    (corrupt file) sends the first call to ElevenLabs: two calls make one
    network request. *)
Lemma speak_twice_corrupt_cache_posts :
  ~ (forall w s text r1 s1 r2 s2,
       st_fs s (cache_path w text) <> None ->
       speak_with_cache text w s = (Ok r1, s1) ->
       speak_with_cache text w s1 = (Ok r2, s2) ->
       cache_hit r1 = true /\ cache_hit r2 = true /\
       count_posts (st_trace s2) = count_posts (st_trace s)).
Proof.
  intro H.
  assert (E1 : fst (speak_with_cache work_complete w_eleven st_corrupt) =
               Ok (mkdispatch true (Some (path_str wc_path)) (Some "elevenlabs")
                              (Some default_voice) false)) by (vm_compute; reflexivity).
  assert (E2 : fst (speak_with_cache work_complete w_eleven
                      (snd (speak_with_cache work_complete w_eleven st_corrupt))) =
               Ok (cache_hit_result w_eleven work_complete)) by (vm_compute; reflexivity).
  assert (Ec : st_fs st_corrupt (cache_path w_eleven work_complete) = Some [0])
    by (vm_compute; reflexivity).
  assert (Ep : count_posts (st_trace (snd (speak_with_cache work_complete w_eleven
                 (snd (speak_with_cache work_complete w_eleven st_corrupt))))) = 1%nat)
    by (vm_compute; reflexivity).
  destruct (H w_eleven st_corrupt work_complete _ _ _ _
              ltac:(intro X; pose proof (eq_trans (eq_sym Ec) X) as Y; discriminate Y)
              (pair_of_fst _ _ E1) (pair_of_fst _ _ E2)) as [_ [_ Hn]].
  pose proof (eq_trans (eq_sym Ep) Hn) as X. discriminate X.
Qed.

(** C6 (amended): when the cache directory can be created, a cache file
    for the text exists and playing it succeeds, [speak_with_cache] takes
    the cached-playback path and changes no file; a second call then takes
    it again: both return [cache_hit = True] with backend ["cache"], the
    files are unchanged and no network request is made. *)
Theorem speak_warm_cache_idempotent w s text :
  w_mkdir w (cache_dir_of w) = None ->
  st_fs s (cache_path w text) <> None ->
  fst (play_audio (cache_path w text) w s) = Ok true ->
  fst (speak_with_cache text w s) = Ok (cache_hit_result w text) /\
  fst (speak_with_cache text w (snd (speak_with_cache text w s))) = Ok (cache_hit_result w text) /\
  st_fs (snd (speak_with_cache text w (snd (speak_with_cache text w s)))) = st_fs s /\
  count_posts (st_trace (snd (speak_with_cache text w (snd (speak_with_cache text w s)))))
    = count_posts (st_trace s).
Proof.
  intros Hm Hc Hp.
  destruct (speak_warm_once w s text Hm Hc Hp) as [R1 [F1 P1]].
  assert (Hc' : st_fs (snd (speak_with_cache text w s)) (cache_path w text) <> None)
    by (rewrite F1; exact Hc).
  assert (Hp' : fst (play_audio (cache_path w text) w (snd (speak_with_cache text w s))) = Ok true)
    by (rewrite (play_audio_fst _ _ _ s F1); exact Hp).
  destruct (speak_warm_once w (snd (speak_with_cache text w s)) text Hm Hc' Hp') as [R2 [F2 P2]].
  split; [exact R1|]. split; [exact R2|]. split; congruence.
Qed.

Lemma speak_warm_cache_idempotent_witness :
  fst (speak_with_cache work_complete w_no_keys st_warm) = Ok (cache_hit_result w_no_keys work_complete) /\
  fst (speak_with_cache work_complete w_no_keys (snd (speak_with_cache work_complete w_no_keys st_warm)))
    = Ok (cache_hit_result w_no_keys work_complete) /\
  st_fs (snd (speak_with_cache work_complete w_no_keys
                (snd (speak_with_cache work_complete w_no_keys st_warm)))) = st_fs st_warm /\
  count_posts (st_trace (snd (speak_with_cache work_complete w_no_keys
                (snd (speak_with_cache work_complete w_no_keys st_warm)))))
    = count_posts (st_trace st_warm).
Proof.
  assert (Ec : st_fs st_warm (cache_path w_no_keys work_complete) = Some audio_bytes)
    by (vm_compute; reflexivity).
  apply (speak_warm_cache_idempotent w_no_keys st_warm work_complete).
  - reflexivity.
  - intro X. pose proof (eq_trans (eq_sym Ec) X) as Y. discriminate Y.
  - vm_compute. reflexivity.
Defined.

(** ** C9 *)

(** C9: whatever arrives on standard input and whatever fails inside,
    the notification hook exits with status 0; when [json.loads] rejects
    standard input it exits before touching any file, leaving the files
    and the event trace as they were. *)
Theorem notification_main_always_exit0 w s :
  exit_status (fst (Notification.main w s)) = 0 /\
  (forall txt, Notification.n_stdin w = inr txt ->
               Notification.n_loads w txt = inl JSONDecodeError ->
               snd (Notification.main w s) = s).
Proof.
  split.
  - rewrite notification_main_exit0. reflexivity.
  - intros txt Hi Hl.
    unfold Notification.main, try_except2, bind, Notification.parse_args,
      Notification.read_stdin, Notification.json_loads, Notification.of_sum.
    rewrite Hi, Hl. reflexivity.
Qed.

Lemma notification_main_always_exit0_witness :
  exit_status (fst (Notification.main nw_malformed st_log)) = 0 /\
  snd (Notification.main nw_malformed st_log) = st_log.
Proof.
  destruct (notification_main_always_exit0 nw_malformed st_log) as [H1 H2].
  split; [exact H1|]. apply (H2 "{not json"); reflexivity.
Defined.

(** ** C10 *)

(** C10 (code bug): [cached_tts.py --json] has no message, but the
    argument count is tested before [--json] is removed: the tool speaks
    the empty string through the system voice script, prints the metadata
    and exits with status 0, not 1. *)
Theorem cached_tts_main_json_only_speaks :
  fst (cached_tts_main ["cached_tts.py"; "--json"] w_silent st_scripts) = Err (SystemExit 0) /\
  st_trace (snd (cached_tts_main ["cached_tts.py"; "--json"] w_silent st_scripts)) =
    [EvMkdir (cache_dir_of w_silent);
     EvRun ["python3"; path_str system_voice_script; ""];
     EvPrint (json_dumps (dispatch_json
                (mkdispatch false (Some (path_str (cache_path w_silent ""))) (Some "system_voice_tts")
                            None true)))].
Proof. split; vm_compute; reflexivity. Qed.


(* ================================================================== *)
(** * Further properties of the code *)

(** ** [str.strip] and [int(str)] *)

Lemma digit_value_digit n :
  0 <= n < 10 -> digit_value (ascii_of_nat (Z.to_nat (48 + n))) = Some n.
Proof.
  intro H. unfold digit_value. rewrite nat_ascii_embedding by lia.
  replace (Nat.leb 48 (Z.to_nat (48 + n)) && Nat.leb (Z.to_nat (48 + n)) 57) with true.
  - f_equal. lia.
  - symmetry. apply andb_true_iff. split; apply Nat.leb_le; lia.
Qed.

Lemma decimal_aux_S f n acc :
  decimal_aux (S f) n acc =
  if Z.ltb n 10 then String (ascii_of_nat (Z.to_nat (48 + n mod 10))) acc
  else decimal_aux f (n / 10) (String (ascii_of_nat (Z.to_nat (48 + n mod 10))) acc).
Proof. reflexivity. Qed.

Lemma int_unsigned_decimal_aux f n s :
  0 <= n < 10 ^ Z.of_nat (S f) ->
  int_unsigned (decimal_aux (S f) n s) = int_digits s n false.
Proof.
  revert n s. induction f as [|f IH]; intros n s Hn.
  - simpl in Hn. rewrite decimal_aux_S. replace (Z.ltb n 10) with true by (symmetry; apply Z.ltb_lt; lia).
    unfold int_unsigned. rewrite Z.mod_small by lia. rewrite digit_value_digit by lia. reflexivity.
  - rewrite decimal_aux_S. destruct (Z.ltb n 10) eqn:E.
    + apply Z.ltb_lt in E. unfold int_unsigned. rewrite Z.mod_small by lia.
      rewrite digit_value_digit by lia. reflexivity.
    + apply Z.ltb_ge in E. rewrite IH.
      * cbn [int_digits]. rewrite digit_value_digit by (pose proof (Z.mod_pos_bound n 10); lia).
        f_equal. pose proof (Z.div_mod n 10). lia.
      * split; [apply Z.div_pos; lia|]. apply Z.div_lt_upper_bound; [lia|].
        rewrite Nat2Z.inj_succ, Z.pow_succ_r in Hn by lia. lia.
Qed.

Lemma decimal_aux_digits fuel n s :
  0 <= n ->
  Forall (fun c => is_lower_hex c = true /\ Nat.leb (nat_of_ascii c) 57 = true)
         (list_ascii_of_string s) ->
  Forall (fun c => is_lower_hex c = true /\ Nat.leb (nat_of_ascii c) 57 = true)
         (list_ascii_of_string (decimal_aux fuel n s)).
Proof.
  revert n s. induction fuel as [|f IH]; intros n s Hn Hs; [exact Hs|].
  rewrite decimal_aux_S. pose proof (Z.mod_pos_bound n 10).
  assert (Hc : Forall (fun c => is_lower_hex c = true /\ Nat.leb (nat_of_ascii c) 57 = true)
                 (list_ascii_of_string (String (ascii_of_nat (Z.to_nat (48 + n mod 10))) s))).
  { cbn [list_ascii_of_string]. constructor; [|exact Hs]. unfold is_lower_hex.
    rewrite nat_ascii_embedding by lia.
    split; [apply orb_true_iff; left; apply andb_true_iff; split|]; apply Nat.leb_le; lia. }
  destruct (Z.ltb n 10); [exact Hc|]. apply IH; [apply Z.div_pos; lia|exact Hc].
Qed.

Lemma drop_space_id l : Forall (fun c => py_isspace c = false) l -> drop_space l = l.
Proof. intro H. destruct l as [|c l]; [reflexivity|]. inversion H; subst. simpl. now rewrite H2. Qed.

Lemma py_strip_id s :
  Forall (fun c => py_isspace c = false) (list_ascii_of_string s) -> py_strip s = s.
Proof.
  intro H. unfold py_strip. rewrite (drop_space_id (list_ascii_of_string s) H).
  rewrite (drop_space_id (rev (list_ascii_of_string s))) by (apply Forall_rev; exact H).
  rewrite rev_involutive. apply string_of_list_ascii_of_string.
Qed.

Lemma digit_not_space c :
  is_lower_hex c = true /\ Nat.leb (nat_of_ascii c) 57 = true -> py_isspace c = false.
Proof.
  intros [H1 H2]. apply Nat.leb_le in H2. unfold is_lower_hex in H1.
  assert (H3 : (48 <= nat_of_ascii c)%nat).
  { apply orb_true_iff in H1.
    destruct H1 as [H1|H1]; apply andb_true_iff in H1; destruct H1 as [H1 _];
      apply Nat.leb_le in H1; lia. }
  unfold py_isspace. clear H1. set (n := nat_of_ascii c) in *.
  repeat match goal with
  | |- context [Nat.leb ?a ?b] =>
      let E := fresh in destruct (Nat.leb a b) eqn:E;
      [apply Nat.leb_le in E | apply Nat.leb_gt in E]; try lia
  | |- context [Nat.eqb ?a ?b] =>
      let E := fresh in destruct (Nat.eqb a b) eqn:E;
      [apply Nat.eqb_eq in E | apply Nat.eqb_neq in E]; try lia
  end; reflexivity.
Qed.

Lemma decimal_aux_fuel n :
  0 <= n -> 0 <= n < 10 ^ Z.of_nat (S (Z.to_nat (Z.log2 n))).
Proof.
  intro Hn. split; [exact Hn|]. rewrite Nat2Z.inj_succ, Z2Nat.id by apply Z.log2_nonneg.
  destruct (Z.eq_dec n 0) as [->|Hn0]; [simpl; lia|].
  apply Z.lt_le_trans with (2 ^ Z.succ (Z.log2 n)).
  - apply Z.log2_spec. lia.
  - apply Z.pow_le_mono_l. split; [lia|lia].
Qed.

(** Reading back a decimal: [int(str(n)) == n], as far as the syntax goes. *)
Lemma int_literal_nonneg n :
  0 <= n -> int_literal (decimal_aux (Z.to_nat (Z.log2 n) + 1) n "") = Some n.
Proof.
  intro Hn. rewrite Nat.add_1_r.
  pose proof (int_unsigned_decimal_aux (Z.to_nat (Z.log2 n)) n "" (decimal_aux_fuel n Hn)) as Hu.
  pose proof (decimal_aux_digits (S (Z.to_nat (Z.log2 n))) n "" Hn (Forall_nil _)) as Hd.
  remember (decimal_aux (S (Z.to_nat (Z.log2 n))) n "") as d eqn:Ed. clear Ed.
  unfold int_literal. rewrite py_strip_id by (eapply Forall_impl; [apply digit_not_space|exact Hd]).
  destruct d as [|c rest]; [discriminate Hu|].
  inversion Hd as [|? ? Hc _]; subst. destruct Hc as [Hc1 Hc2].
  unfold is_lower_hex in Hc1. apply Nat.leb_le in Hc2.
  assert (Hp : Ascii.eqb c "+"%char = false).
  { destruct (Ascii.eqb c "+"%char) eqn:E; [|reflexivity]. apply Ascii.eqb_eq in E. subst.
    discriminate Hc1. }
  assert (Hm : Ascii.eqb c "-"%char = false).
  { destruct (Ascii.eqb c "-"%char) eqn:E; [|reflexivity]. apply Ascii.eqb_eq in E. subst.
    discriminate Hc1. }
  rewrite Hp, Hm. rewrite Hu. reflexivity.
Qed.

Lemma count_digits_le s : (count_digits s <= String.length s)%nat.
Proof.
  unfold count_digits. induction s as [|c s IH]; [simpl; lia|].
  change (list_ascii_of_string (String c s)) with (c :: list_ascii_of_string s).
  cbn [filter String.length]. destruct (digit_value c); cbn [List.length]; lia.
Qed.

Lemma decimal_aux_length f n acc :
  (String.length (decimal_aux f n acc) <= f + String.length acc)%nat.
Proof.
  revert n acc. induction f as [|f IH]; intros n acc; cbn [decimal_aux]; [lia|].
  destruct (Z.ltb n 10); [cbn [String.length]; lia|].
  specialize (IH (n / 10) (String (ascii_of_nat (Z.to_nat (48 + n mod 10))) acc)).
  cbn [String.length] in IH. lia.
Qed.

Lemma decimal_short n : Z.abs n <= 1000 -> Nat.leb (count_digits (decimal n)) int_max_str_digits = true.
Proof.
  intro Hb. apply Nat.leb_le. eapply Nat.le_trans; [apply count_digits_le|].
  assert (Hl : forall m, 0 <= m <= 1000 -> (Z.to_nat (Z.log2 m) <= 9)%nat).
  { intros m Hm. assert (Z.log2 m <= Z.log2 1000) by (apply Z.log2_le_mono; lia).
    change (Z.log2 1000) with 9 in H. lia. }
  unfold decimal, int_max_str_digits. destruct (Z.ltb n 0) eqn:E.
  - apply Z.ltb_lt in E. cbn [String.append String.length].
    pose proof (decimal_aux_length (Z.to_nat (Z.log2 (- n)) + 1) (- n) "").
    pose proof (Hl (- n) ltac:(lia)). cbn [String.length] in *. lia.
  - apply Z.ltb_ge in E.
    pose proof (decimal_aux_length (Z.to_nat (Z.log2 n) + 1) n "").
    pose proof (Hl n ltac:(lia)). cbn [String.length] in *. lia.
Qed.

Lemma py_int_decimal n : Z.abs n <= 1000 -> py_int (decimal n) = Some n.
Proof.
  intro Hb. unfold py_int. rewrite (decimal_short n Hb).
  unfold decimal. destruct (Z.ltb n 0) eqn:E.
  - apply Z.ltb_lt in E.
    pose proof (int_unsigned_decimal_aux (Z.to_nat (Z.log2 (- n))) (- n) ""
                  (decimal_aux_fuel (- n) ltac:(lia))) as Hu.
    pose proof (decimal_aux_digits (S (Z.to_nat (Z.log2 (- n)))) (- n) "" ltac:(lia)
                  (Forall_nil _)) as Hd.
    rewrite Nat.add_1_r.
    remember (decimal_aux (S (Z.to_nat (Z.log2 (- n)))) (- n) "") as d eqn:Ed. clear Ed.
    unfold int_literal. rewrite py_strip_id.
    + simpl. rewrite Hu. simpl. f_equal. lia.
    + simpl. constructor; [reflexivity|]. eapply Forall_impl; [apply digit_not_space|exact Hd].
  - apply Z.ltb_ge in E. apply int_literal_nonneg. exact E.
Qed.

Lemma drop_space_nil l : drop_space l = [] <-> forallb py_isspace l = true.
Proof.
  induction l as [|c l IH]; simpl; [tauto|].
  destruct (py_isspace c); simpl; [exact IH|split; discriminate].
Qed.

Lemma drop_space_idem l : drop_space (drop_space l) = drop_space l.
Proof.
  induction l as [|c l IH]; simpl; [reflexivity|].
  destruct (py_isspace c) eqn:E; [exact IH|simpl; now rewrite E].
Qed.

(** [s.strip()] is empty exactly when [s] is all whitespace. *)
Lemma py_strip_empty s :
  py_strip s = "" <-> forallb py_isspace (list_ascii_of_string s) = true.
Proof.
  unfold py_strip. rewrite <- drop_space_nil.
  split.
  - intro H. destruct (rev (drop_space (rev (drop_space (list_ascii_of_string s))))) as [|c r]
      eqn:E; [|discriminate H].
    apply (f_equal (@rev ascii)) in E. rewrite rev_involutive in E. simpl in E.
    apply drop_space_nil in E. rewrite forallb_forall in E.
    assert (E2 : forallb py_isspace (drop_space (list_ascii_of_string s)) = true).
    { apply forallb_forall. intros x Hx. apply E. apply in_rev. rewrite rev_involutive. exact Hx. }
    apply drop_space_nil in E2. rewrite drop_space_idem in E2. exact E2.
  - intro H. rewrite H. reflexivity.
Qed.

Lemma string_app_nil_r s : (s ++ "")%string = s.
Proof. induction s as [|c s IH]; simpl; congruence. Qed.

Lemma string_app_assoc a b c : (a ++ (b ++ c))%string = ((a ++ b) ++ c)%string.
Proof. induction a as [|x a IH]; simpl; congruence. Qed.

Lemma split_slash_no_slash cur s :
  no_slash s = true -> split_slash cur s = [(cur ++ s)%string].
Proof.
  revert cur. induction s as [|c s IH]; intros cur H; simpl.
  - now rewrite string_app_nil_r.
  - unfold no_slash in H. simpl in H. apply andb_true_iff in H. destruct H as [H1 H2].
    apply negb_true_iff in H1. rewrite H1. rewrite IH by exact H2.
    rewrite <- string_app_assoc. reflexivity.
Qed.

Lemma path_div_single p s :
  no_slash s = true -> s <> "" -> s <> "." -> path_div p s = p ++ [s].
Proof.
  intros H H1 H2. apply String.eqb_neq in H1. apply String.eqb_neq in H2.
  assert (Hs : components s = [s]).
  { unfold components. rewrite split_slash_no_slash by exact H.
    change ("" ++ s)%string with s. cbn [filter]. rewrite H1, H2. reflexivity. }
  unfold path_div. destruct s as [|c r]; [discriminate H1|]. rewrite Hs.
  unfold no_slash in H. simpl in H. apply andb_true_iff in H. destruct H as [Hc _].
  apply negb_true_iff in Hc. rewrite Hc. reflexivity.
Qed.

Lemma land255_range x : 0 <= Z.land x 255 < 256.
Proof.
  change 255 with (Z.ones 8). rewrite Z.land_ones by lia.
  apply Z.mod_pos_bound. lia.
Qed.

Lemma hex_char_hex n : 0 <= n < 16 -> is_lower_hex (MD5.hex_char n) = true.
Proof.
  intro H. unfold MD5.hex_char, is_lower_hex.
  destruct (Z.ltb n 10) eqn:E; [apply Z.ltb_lt in E|apply Z.ltb_ge in E];
    rewrite nat_ascii_embedding by lia; apply orb_true_iff;
    [left|right]; apply andb_true_iff; split; apply Nat.leb_le; lia.
Qed.

Lemma hexdigest_hex bs :
  Forall (fun b => 0 <= b < 256) bs ->
  forallb is_lower_hex (list_ascii_of_string (MD5.hexdigest bs)) = true.
Proof.
  induction bs as [|b bs IH]; intro H; [reflexivity|].
  inversion H as [|? ? Hb Hbs]; subst. simpl.
  rewrite !hex_char_hex, IH by (try exact Hbs;
    first [ split; [apply Z.shiftr_nonneg; lia|];
            rewrite Z.shiftr_div_pow2 by lia; apply Z.div_lt_upper_bound; simpl; lia
          | change 15 with (Z.ones 4); rewrite Z.land_ones by lia; apply Z.mod_pos_bound; lia ]).
  reflexivity.
Qed.

Lemma digest_bytes msg : Forall (fun b => 0 <= b < 256) (MD5.digest msg).
Proof.
  unfold MD5.digest. cbv zeta.
  destruct (fold_left MD5.compress _ MD5.init) as [a b c d].
  unfold MD5.word_bytes. cbn [app].
  repeat constructor; apply land255_range.
Qed.

Lemma get_cache_key_hex_chars t :
  forallb is_lower_hex (list_ascii_of_string (get_cache_key t)) = true.
Proof. apply hexdigest_hex, digest_bytes. Qed.

Lemma list_ascii_of_string_app a b :
  list_ascii_of_string (a ++ b)%string = list_ascii_of_string a ++ list_ascii_of_string b.
Proof. induction a as [|y a IH]; simpl; [reflexivity|now rewrite IH]. Qed.

Lemma hex_no_slash s : forallb is_lower_hex (list_ascii_of_string s) = true -> no_slash s = true.
Proof.
  unfold no_slash. rewrite !forallb_forall. intros H x Hx. specialize (H x Hx).
  destruct (Ascii.eqb x "/"%char) eqn:E; [|reflexivity].
  apply Ascii.eqb_eq in E. subst. discriminate H.
Qed.

Lemma cache_file_name_ok t :
  no_slash (String.append (get_cache_key t) ".mp3") = true /\ (String.append (get_cache_key t) ".mp3") <> "" /\
  (String.append (get_cache_key t) ".mp3") <> ".".
Proof.
  pose proof (hex_no_slash _ (get_cache_key_hex_chars t)) as H. pose proof (get_cache_key_length t) as L.
  split.
  - unfold no_slash in *. rewrite list_ascii_of_string_app, forallb_app, H. reflexivity.
  - destruct (get_cache_key t) as [|c [|d r]]; simpl in L; try discriminate L.
    split; discriminate.
Qed.

Lemma cache_path_app w text : cache_path w text = cache_dir_of w ++ [String.append (get_cache_key text) ".mp3"].
Proof.
  destruct (cache_file_name_ok text) as [H1 [H2 H3]].
  unfold cache_path. apply path_div_single; assumption.
Qed.

(** X1: [play_audio] returns [False] exactly when each of the three players (afplay, mpg123, ffplay) fails with an exception it catches: [FileNotFoundError] or a [SubprocessError], a non-zero exit included. *)
Theorem play_audio_false_iff p w s :
  fst (play_audio p w s) = Ok false <->
  forallb (fun argv => caught_failure (w_run w argv (st_fs s))) (player_commands p) = true.
Proof.
  destruct s as [fs tr].
  unfold play_audio, player_commands, try_except, bind, run_check, ret. simpl.
  repeat (match goal with |- context [w_run ?w ?a ?f] => destruct (w_run w a f) as [[|?|?]|?] end;
          simpl;
          try (match goal with |- context [is_fnf_or_subprocess ?e] =>
                 destruct (is_fnf_or_subprocess e) end; simpl));
  split; intro H; first [reflexivity | discriminate H].
Qed.

(** X2: an exception of the first player that is neither [FileNotFoundError] nor a [SubprocessError] (e.g. [PermissionError]) is not caught: [play_audio] raises it after running afplay only. *)
Theorem play_audio_propagates p w s e :
  w_run w ["afplay"; path_str p] (st_fs s) = PRaise e ->
  is_fnf_or_subprocess e = false ->
  play_audio p w s = (Err (Exc e), log_ev s (EvRun ["afplay"; path_str p])).
Proof.
  intros H1 H2. unfold play_audio, try_except, bind, run_check. rewrite H1. simpl.
  rewrite H2. reflexivity.
Qed.

Lemma play_audio_propagates_witness :
  w_run w_no_permission ["afplay"; path_str wc_path] (st_fs st_warm) = PRaise PermissionError /\
  is_fnf_or_subprocess PermissionError = false /\
  play_audio wc_path w_no_permission st_warm =
    (Err (Exc PermissionError), log_ev st_warm (EvRun ["afplay"; path_str wc_path])).
Proof.
  split; [reflexivity|]. split; [reflexivity|].
  apply play_audio_propagates; reflexivity.
Defined.

(** X3: [get_tts_script_path] of cached_tts.py changes nothing; it returns only an existing script among elevenlabs_tts.py, openai_tts.py and system_voice_tts.py of its directory, and [None] only when system_voice_tts.py is missing. *)
Theorem get_tts_script_path_existing w s :
  match get_tts_script_path w s with
  | (Ok (Some p), s') =>
      s' = s /\ st_fs s p <> None /\
      In p (map (path_div (w_script_dir w)) ["elevenlabs_tts.py"; "openai_tts.py"; "system_voice_tts.py"])
  | (Ok None, s') => s' = s /\ st_fs s (path_div (w_script_dir w) "system_voice_tts.py") = None
  | (Err _, _) => False
  end.
Proof.
  rewrite get_tts_script_path_eq. unfold tts_script_choice, has_script.
  destruct (truthy (w_env w "ELEVENLABS_API_KEY"));
  destruct (st_fs s (path_div (w_script_dir w) "elevenlabs_tts.py")) eqn:F1;
  destruct (truthy (w_env w "OPENAI_API_KEY"));
  destruct (st_fs s (path_div (w_script_dir w) "openai_tts.py")) eqn:F2;
  destruct (st_fs s (path_div (w_script_dir w) "system_voice_tts.py")) eqn:F3;
  cbn [andb];
  first [ split; [reflexivity|split; [congruence|cbn [In map]; auto]]
        | split; [reflexivity|first [exact F3 | reflexivity]] ].
Qed.

(** X4: every cache key is 32 lowercase hexadecimal characters. *)
Theorem get_cache_key_lower_hex t :
  String.length (get_cache_key t) = 32%nat /\
  forallb is_lower_hex (list_ascii_of_string (get_cache_key t)) = true.
Proof. split; [apply get_cache_key_length|apply get_cache_key_hex_chars]. Qed.

(** X5: when the voice directory can be created, [get_cached_audio_path] creates it and returns the file [<key>.mp3] directly inside it. *)
Theorem get_cached_audio_path_in_cache_dir w s text :
  w_mkdir w (cache_dir_of w) = None ->
  get_cached_audio_path text w s =
  (Ok (cache_dir_of w ++ [String.append (get_cache_key text) ".mp3"]),
   log_ev s (EvMkdir (cache_dir_of w))).
Proof. intro H. rewrite get_cached_audio_path_eq, H, cache_path_app. reflexivity. Qed.

Lemma get_cached_audio_path_in_cache_dir_witness :
  w_mkdir w_eleven (cache_dir_of w_eleven) = None /\
  get_cached_audio_path work_complete w_eleven st_corrupt =
  (Ok (cache_dir_of w_eleven ++ [String.append (get_cache_key work_complete) ".mp3"]),
   log_ev st_corrupt (EvMkdir (cache_dir_of w_eleven))).
Proof. split; [reflexivity|]. apply get_cached_audio_path_in_cache_dir. reflexivity. Defined.

(** X6: without a non-empty ELEVENLABS_API_KEY, [generate_and_cache_audio] returns [False] and does nothing else. *)
Theorem generate_and_cache_audio_no_key text p w s :
  truthy (w_env w "ELEVENLABS_API_KEY") = false ->
  generate_and_cache_audio text p w s = (Ok false, s).
Proof.
  intro H. unfold generate_and_cache_audio, bind, getenv.
  destruct (w_env w "ELEVENLABS_API_KEY") as [k|]; [|reflexivity]. rewrite H. reflexivity.
Qed.

Lemma generate_and_cache_audio_no_key_witness :
  truthy (w_env w_no_keys "ELEVENLABS_API_KEY") = false /\
  generate_and_cache_audio work_complete wc_path w_no_keys st_warm = (Ok false, st_warm).
Proof. split; [reflexivity|]. apply generate_and_cache_audio_no_key. reflexivity. Defined.

(** X7: a response status other than 200 makes [generate_and_cache_audio] return [False] after exactly one request, with no file written. *)
Theorem generate_and_cache_audio_bad_status text p w s key sc c :
  w_env w "ELEVENLABS_API_KEY" = Some key -> key <> "" ->
  w_post w (elevenlabs_url (current_voice w)) key text = HResp sc c -> sc <> 200 ->
  generate_and_cache_audio text p w s =
  (Ok false, log_ev s (EvPost (elevenlabs_url (current_voice w)) text)).
Proof.
  intros Hk Hne Hp Hs. unfold generate_and_cache_audio, bind, getenv. rewrite Hk.
  replace (truthy (Some key)) with true
    by (unfold truthy; symmetry; apply negb_true_iff, String.eqb_neq; exact Hne).
  unfold try_except, getenv_default, post. simpl. fold (current_voice w). rewrite Hp. simpl.
  apply Z.eqb_neq in Hs. rewrite Hs. reflexivity.
Qed.

Lemma generate_and_cache_audio_bad_status_witness :
  let w := {| w_script_dir := hook_tts_dir; w_env := env_of [("ELEVENLABS_API_KEY", "sk-test")];
              w_mkdir := fun _ => None; w_run := players_check_cache;
              w_run_fs := fun _ fs => fs;
              w_post := fun _ _ _ => HResp 401 []; w_open_w := fun _ => None;
              w_write := fun _ _ => None |} in
  w_env w "ELEVENLABS_API_KEY" = Some "sk-test" /\ "sk-test" <> "" /\
  w_post w (elevenlabs_url (current_voice w)) "sk-test" work_complete = HResp 401 [] /\ 401 <> 200 /\
  generate_and_cache_audio work_complete wc_path w st_empty =
  (Ok false, log_ev st_empty (EvPost (elevenlabs_url (current_voice w)) work_complete)).
Proof.
  intro w. split; [reflexivity|]. split; [discriminate|]. split; [reflexivity|].
  split; [discriminate|].
  apply (generate_and_cache_audio_bad_status work_complete wc_path w st_empty "sk-test" 401 []);
    first [reflexivity | discriminate].
Defined.

(** X8: with status 200 and a successful open and write, [generate_and_cache_audio] returns [True]; the target file holds exactly the response content, no other file changes, and one request is posted. *)
Theorem generate_and_cache_audio_writes text p w s key c :
  w_env w "ELEVENLABS_API_KEY" = Some key -> key <> "" ->
  w_post w (elevenlabs_url (current_voice w)) key text = HResp 200 c ->
  w_open_w w p = None -> w_write w p c = None ->
  fst (generate_and_cache_audio text p w s) = Ok true /\
  st_fs (snd (generate_and_cache_audio text p w s)) p = Some c /\
  (forall q, q <> p -> st_fs (snd (generate_and_cache_audio text p w s)) q = st_fs s q) /\
  count_posts (st_trace (snd (generate_and_cache_audio text p w s))) = S (count_posts (st_trace s)).
Proof.
  intros Hk Hne Hp Ho Hw. unfold generate_and_cache_audio, bind, getenv. rewrite Hk.
  replace (truthy (Some key)) with true
    by (unfold truthy; symmetry; apply negb_true_iff, String.eqb_neq; exact Hne).
  unfold try_except, getenv_default, post, open_wb, write_bytes, ret. simpl.
  fold (current_voice w). rewrite Hp. simpl. rewrite Ho, Hw. simpl.
  split; [reflexivity|]. split; [apply fs_upd_eq|]. split.
  - intros q Hq. rewrite !fs_upd_neq by exact Hq. reflexivity.
  - unfold count_posts. simpl. rewrite !filter_app. simpl. rewrite !app_nil_r.
    rewrite length_app. simpl. lia.
Qed.

Lemma generate_and_cache_audio_writes_witness :
  w_env w_eleven "ELEVENLABS_API_KEY" = Some "sk-test" /\ "sk-test" <> "" /\
  w_post w_eleven (elevenlabs_url (current_voice w_eleven)) "sk-test" work_complete =
    HResp 200 audio_bytes /\
  w_open_w w_eleven wc_path = None /\ w_write w_eleven wc_path audio_bytes = None /\
  fst (generate_and_cache_audio work_complete wc_path w_eleven st_empty) = Ok true /\
  st_fs (snd (generate_and_cache_audio work_complete wc_path w_eleven st_empty)) wc_path =
    Some audio_bytes /\
  (forall q, q <> wc_path ->
     st_fs (snd (generate_and_cache_audio work_complete wc_path w_eleven st_empty)) q =
     st_fs st_empty q) /\
  count_posts (st_trace (snd (generate_and_cache_audio work_complete wc_path w_eleven st_empty))) =
    S (count_posts (st_trace st_empty)).
Proof.
  split; [reflexivity|]. split; [discriminate|]. split; [reflexivity|].
  split; [reflexivity|]. split; [reflexivity|].
  apply (generate_and_cache_audio_writes work_complete wc_path w_eleven st_empty "sk-test");
    first [reflexivity | discriminate].
Defined.

(** X9: [generate_and_cache_audio] never raises. *)
Theorem generate_and_cache_audio_never_raises text p w s :
  exists b, fst (generate_and_cache_audio text p w s) = Ok b.
Proof.
  unfold generate_and_cache_audio, bind, getenv.
  destruct (w_env w "ELEVENLABS_API_KEY") as [key|]; [|eauto].
  destruct (truthy (Some key)); [|eauto].
  unfold try_except, getenv_default, post, open_wb, write_bytes, ret, any_exception. simpl.
  destruct (w_post w _ key text) as [sc c|e]; simpl; [|eauto].
  destruct (Z.eqb sc 200); simpl; [|eauto].
  destruct (w_open_w w p); simpl; [eauto|].
  destruct (w_write w p c) as [[k e]|]; simpl; eauto.
  all: exists false; reflexivity.
Qed.

Lemma speak_fallback_fields text r w s r' s' :
  speak_fallback text r w s = (Ok r', s') ->
  cache_hit r' = cache_hit r /\ cache_file r' = cache_file r /\ voice_id r' = voice_id r /\
  fallback_used r' = true.
Proof.
  rewrite speak_fallback_eq. destruct (tts_script_choice w (st_fs s)) as [sc|].
  - cbv zeta. destruct (w_run w _ (st_fs s)) as [c|e]; [|destruct (is_subprocess_error e)];
      intro H; inversion H; subst; simpl; auto.
  - intro H. inversion H; subst; simpl; auto.
Qed.

Lemma speak_regenerate_fields text p r w s r' s' :
  speak_regenerate text p r w s = (Ok r', s') ->
  cache_hit r' = cache_hit r /\ cache_file r' = cache_file r /\
  ((fallback_used r' = true /\ (voice_id r' = voice_id r \/ voice_id r' = Some (current_voice w))) \/
   (fallback_used r' = fallback_used r /\ tts_backend r' = Some "elevenlabs" /\
    voice_id r' = Some (current_voice w))).
Proof.
  unfold speak_regenerate, bind at 1, getenv.
  destruct (truthy (w_env w "ELEVENLABS_API_KEY")).
  - unfold bind at 1, getenv_default. fold (current_voice w).
    unfold bind at 1.
    destruct (generate_and_cache_audio text p w s) as [[[|]|e] s1].
    + unfold bind. destruct (play_audio p w s1) as [[[|]|e] s2].
      * intro H. inversion H; subst. simpl. split; [reflexivity|split; [reflexivity|right; auto]].
      * intro H. apply speak_fallback_fields in H. simpl in H. destruct H as [H1 [H2 [H3 H4]]].
        rewrite H1, H2. tauto.
      * intro H. discriminate H.
    + intro H. apply speak_fallback_fields in H. simpl in H. destruct H as [H1 [H2 [H3 H4]]].
      rewrite H1, H2. tauto.
    + intro H. discriminate H.
  - intro H. apply speak_fallback_fields in H. destruct H as [H1 [H2 [H3 H4]]].
    rewrite H1, H2. tauto.
Qed.

Lemma parent_name_cache_path w text :
  no_slash (current_voice w) = true -> current_voice w <> "" -> current_voice w <> "." ->
  parent_name (cache_path w text) = current_voice w.
Proof.
  intros H1 H2 H3. rewrite cache_path_app. unfold parent_name, path_name.
  rewrite removelast_last. unfold cache_dir_of. rewrite path_div_single by assumption.
  apply last_last.
Qed.

(** X10: whenever [speak_with_cache] reports a cache hit, the reported voice id is the configured voice (a single path component). *)
Theorem speak_with_cache_hit_voice w s text r :
  no_slash (current_voice w) = true -> current_voice w <> "" -> current_voice w <> "." ->
  fst (speak_with_cache text w s) = Ok r -> cache_hit r = true ->
  voice_id r = Some (current_voice w).
Proof.
  intros H1 H2 H3 H Hc. apply pair_of_fst in H. rewrite speak_with_cache_eq in H.
  destruct (w_mkdir w (cache_dir_of w)); [discriminate H|]. cbv zeta in H.
  destruct (st_fs s (cache_path w text)).
  - destruct (play_audio (cache_path w text) w _) as [[[|]|e] s2].
    + inversion H; subst. simpl. now rewrite parent_name_cache_path.
    + apply speak_regenerate_fields in H. simpl in H.
      destruct H as [_ [_ [[_ [Hv|Hv]]|[_ [_ Hv]]]]]; rewrite Hv; try reflexivity.
      now rewrite parent_name_cache_path.
    + discriminate H.
  - apply speak_regenerate_fields in H. simpl in H. destruct H as [Hc' _]. congruence.
Qed.

Lemma speak_with_cache_hit_voice_witness :
  no_slash (current_voice w_no_keys) = true /\ current_voice w_no_keys <> "" /\
  current_voice w_no_keys <> "." /\
  fst (speak_with_cache work_complete w_no_keys st_warm) = Ok (cache_hit_result w_no_keys work_complete) /\
  cache_hit (cache_hit_result w_no_keys work_complete) = true /\
  voice_id (cache_hit_result w_no_keys work_complete) = Some (current_voice w_no_keys).
Proof.
  assert (E : fst (speak_with_cache work_complete w_no_keys st_warm) =
              Ok (cache_hit_result w_no_keys work_complete)) by (vm_compute; reflexivity).
  split; [reflexivity|]. split; [discriminate|]. split; [discriminate|]. split; [exact E|].
  split; [reflexivity|].
  apply (speak_with_cache_hit_voice w_no_keys st_warm work_complete); first [reflexivity | discriminate | exact E].
Defined.

(** X11: every result of [speak_with_cache] names the cache file of the text, and a result without fallback reports backend cache or elevenlabs. *)
Theorem speak_with_cache_result_fields w s text r :
  fst (speak_with_cache text w s) = Ok r ->
  cache_file r = Some (path_str (cache_path w text)) /\
  (fallback_used r = false -> tts_backend r = Some "cache" \/ tts_backend r = Some "elevenlabs").
Proof.
  intro H. apply pair_of_fst in H. rewrite speak_with_cache_eq in H.
  destruct (w_mkdir w (cache_dir_of w)); [discriminate H|]. cbv zeta in H.
  destruct (st_fs s (cache_path w text)).
  - destruct (play_audio (cache_path w text) w _) as [[[|]|e] s2].
    + inversion H; subst. simpl. auto.
    + apply speak_regenerate_fields in H. simpl in H.
      destruct H as [_ [Hf [[Hu _]|[Hu [Hb _]]]]]; split; auto; congruence.
    + discriminate H.
  - apply speak_regenerate_fields in H. simpl in H.
    destruct H as [_ [Hf [[Hu _]|[Hu [Hb _]]]]]; split; auto; congruence.
Qed.

Lemma speak_with_cache_result_fields_witness :
  fst (speak_with_cache work_complete w_silent st_scripts) =
    Ok (mkdispatch false (Some (path_str (cache_path w_silent work_complete)))
                   (Some "system_voice_tts") None true) /\
  cache_file (mkdispatch false (Some (path_str (cache_path w_silent work_complete)))
                   (Some "system_voice_tts") None true) =
    Some (path_str (cache_path w_silent work_complete)) /\
  (fallback_used (mkdispatch false (Some (path_str (cache_path w_silent work_complete)))
                   (Some "system_voice_tts") None true) = false ->
   tts_backend (mkdispatch false (Some (path_str (cache_path w_silent work_complete)))
                   (Some "system_voice_tts") None true) = Some "cache" \/
   tts_backend (mkdispatch false (Some (path_str (cache_path w_silent work_complete)))
                   (Some "system_voice_tts") None true) = Some "elevenlabs").
Proof.
  assert (E : fst (speak_with_cache work_complete w_silent st_scripts) =
    Ok (mkdispatch false (Some (path_str (cache_path w_silent work_complete)))
                   (Some "system_voice_tts") None true)) by (vm_compute; reflexivity).
  split; [exact E|]. apply (speak_with_cache_result_fields w_silent st_scripts work_complete). exact E.
Defined.

Lemma generate_and_cache_audio_success_eq text p w s key c :
  w_env w "ELEVENLABS_API_KEY" = Some key -> key <> "" ->
  w_post w (elevenlabs_url (current_voice w)) key text = HResp 200 c ->
  w_open_w w p = None -> w_write w p c = None ->
  generate_and_cache_audio text p w s =
  (Ok true, set_file (log_ev (set_file (log_ev (log_ev s (EvPost (elevenlabs_url (current_voice w)) text))
                                               (EvOpenW p)) p (Some [])) (EvWrite p c)) p (Some c)).
Proof.
  intros Hk Hne Hp Ho Hw. unfold generate_and_cache_audio, bind, getenv. rewrite Hk.
  replace (truthy (Some key)) with true
    by (unfold truthy; symmetry; apply negb_true_iff, String.eqb_neq; exact Hne).
  unfold try_except, getenv_default, post, open_wb, write_bytes, ret. simpl.
  fold (current_voice w). rewrite Hp. simpl. rewrite Ho, Hw. reflexivity.
Qed.

Lemma speak_miss_generates_eq w s text key c :
  w_mkdir w (cache_dir_of w) = None ->
  st_fs s (cache_path w text) = None ->
  w_env w "ELEVENLABS_API_KEY" = Some key -> key <> "" ->
  w_post w (elevenlabs_url (current_voice w)) key text = HResp 200 c ->
  w_open_w w (cache_path w text) = None -> w_write w (cache_path w text) c = None ->
  (forall fs, fs (cache_path w text) = Some c ->
              w_run w ["afplay"; path_str (cache_path w text)] fs = PExit 0) ->
  speak_with_cache text w s =
  (Ok (mkdispatch false (Some (path_str (cache_path w text))) (Some "elevenlabs")
                  (Some (current_voice w)) false),
   log_ev (set_file (log_ev (set_file (log_ev (log_ev (log_ev s (EvMkdir (cache_dir_of w)))
                                                      (EvPost (elevenlabs_url (current_voice w)) text))
                                              (EvOpenW (cache_path w text)))
                                     (cache_path w text) (Some []))
                            (EvWrite (cache_path w text) c))
                   (cache_path w text) (Some c))
          (EvRun ["afplay"; path_str (cache_path w text)])).
Proof.
  intros Hm Hf Hk Hne Hp Ho Hw Hplay.
  rewrite speak_with_cache_eq, Hm. cbv zeta. rewrite Hf.
  unfold speak_regenerate, bind at 1, getenv. cbn [w_env].
  rewrite Hk. replace (truthy (Some key)) with true
    by (unfold truthy; symmetry; apply negb_true_iff, String.eqb_neq; exact Hne).
  unfold bind at 1, getenv_default. fold (current_voice w). unfold bind at 1.
  rewrite (generate_and_cache_audio_success_eq text (cache_path w text) w _ key c Hk Hne Hp Ho Hw).
  unfold bind, play_audio, try_except, bind, run_check, ret. simpl.
  rewrite Hplay by apply fs_upd_eq. reflexivity.
Qed.

(** X12: on a cache miss with working ElevenLabs synthesis and afplay, [speak_with_cache] reports backend elevenlabs without cache hit, writes only the cache file of the text with the audio, and posts one request. *)
Theorem speak_with_cache_miss_generates w s text key c :
  w_mkdir w (cache_dir_of w) = None ->
  st_fs s (cache_path w text) = None ->
  w_env w "ELEVENLABS_API_KEY" = Some key -> key <> "" ->
  w_post w (elevenlabs_url (current_voice w)) key text = HResp 200 c ->
  w_open_w w (cache_path w text) = None -> w_write w (cache_path w text) c = None ->
  (forall fs, fs (cache_path w text) = Some c ->
              w_run w ["afplay"; path_str (cache_path w text)] fs = PExit 0) ->
  fst (speak_with_cache text w s) =
    Ok (mkdispatch false (Some (path_str (cache_path w text))) (Some "elevenlabs")
                   (Some (current_voice w)) false) /\
  st_fs (snd (speak_with_cache text w s)) (cache_path w text) = Some c /\
  (forall q, q <> cache_path w text -> st_fs (snd (speak_with_cache text w s)) q = st_fs s q) /\
  count_posts (st_trace (snd (speak_with_cache text w s))) = S (count_posts (st_trace s)).
Proof.
  intros Hm Hf Hk Hne Hp Ho Hw Hplay.
  rewrite (speak_miss_generates_eq w s text key c Hm Hf Hk Hne Hp Ho Hw Hplay). simpl.
  split; [reflexivity|]. split; [apply fs_upd_eq|]. split.
  - intros q Hq. rewrite !fs_upd_neq by exact Hq. reflexivity.
  - unfold count_posts. simpl. rewrite !filter_app. simpl. rewrite !app_nil_r, length_app. simpl. lia.
Qed.

Lemma w_eleven_afplay fs :
  fs (cache_path w_eleven work_complete) = Some audio_bytes ->
  w_run w_eleven ["afplay"; path_str (cache_path w_eleven work_complete)] fs = PExit 0.
Proof.
  intro H. change (w_run w_eleven) with players_check_cache. unfold players_check_cache.
  cbn [hd]. change (String.eqb "afplay" "python3") with false. cbv iota.
  rewrite wc_path_is_cache_path, H. reflexivity.
Qed.

Lemma st_scripts_no_wc : st_fs st_scripts (cache_path w_eleven work_complete) = None.
Proof. vm_compute. reflexivity. Qed.

Lemma speak_with_cache_miss_generates_witness :
  w_mkdir w_eleven (cache_dir_of w_eleven) = None /\
  st_fs st_scripts (cache_path w_eleven work_complete) = None /\
  w_env w_eleven "ELEVENLABS_API_KEY" = Some "sk-test" /\ "sk-test" <> "" /\
  w_post w_eleven (elevenlabs_url (current_voice w_eleven)) "sk-test" work_complete =
    HResp 200 audio_bytes /\
  w_open_w w_eleven (cache_path w_eleven work_complete) = None /\
  w_write w_eleven (cache_path w_eleven work_complete) audio_bytes = None /\
  (forall fs, fs (cache_path w_eleven work_complete) = Some audio_bytes ->
     w_run w_eleven ["afplay"; path_str (cache_path w_eleven work_complete)] fs = PExit 0) /\
  fst (speak_with_cache work_complete w_eleven st_scripts) =
    Ok (mkdispatch false (Some (path_str (cache_path w_eleven work_complete))) (Some "elevenlabs")
                   (Some (current_voice w_eleven)) false) /\
  st_fs (snd (speak_with_cache work_complete w_eleven st_scripts)) (cache_path w_eleven work_complete) =
    Some audio_bytes /\
  (forall q, q <> cache_path w_eleven work_complete ->
     st_fs (snd (speak_with_cache work_complete w_eleven st_scripts)) q = st_fs st_scripts q) /\
  count_posts (st_trace (snd (speak_with_cache work_complete w_eleven st_scripts))) =
    S (count_posts (st_trace st_scripts)).
Proof.
  split; [reflexivity|]. split; [exact st_scripts_no_wc|]. split; [reflexivity|].
  split; [discriminate|]. split; [reflexivity|]. split; [reflexivity|]. split; [reflexivity|].
  split; [exact w_eleven_afplay|].
  apply (speak_with_cache_miss_generates w_eleven st_scripts work_complete "sk-test" audio_bytes);
    first [reflexivity | discriminate | exact st_scripts_no_wc | exact w_eleven_afplay].
Defined.

(** X13: after such a miss, a second call for the same text is a cache hit that changes no file and posts no request. *)
Theorem speak_with_cache_next_call_hits w s text key c :
  w_mkdir w (cache_dir_of w) = None ->
  st_fs s (cache_path w text) = None ->
  w_env w "ELEVENLABS_API_KEY" = Some key -> key <> "" ->
  w_post w (elevenlabs_url (current_voice w)) key text = HResp 200 c ->
  w_open_w w (cache_path w text) = None -> w_write w (cache_path w text) c = None ->
  (forall fs, fs (cache_path w text) = Some c ->
              w_run w ["afplay"; path_str (cache_path w text)] fs = PExit 0) ->
  fst (speak_with_cache text w (snd (speak_with_cache text w s))) = Ok (cache_hit_result w text) /\
  st_fs (snd (speak_with_cache text w (snd (speak_with_cache text w s)))) =
    st_fs (snd (speak_with_cache text w s)) /\
  count_posts (st_trace (snd (speak_with_cache text w (snd (speak_with_cache text w s))))) =
    count_posts (st_trace (snd (speak_with_cache text w s))).
Proof.
  intros Hm Hf Hk Hne Hp Ho Hw Hplay.
  rewrite (speak_miss_generates_eq w s text key c Hm Hf Hk Hne Hp Ho Hw Hplay). cbn [snd].
  apply speak_warm_once; [exact Hm| |].
  - simpl. rewrite fs_upd_eq. discriminate.
  - unfold play_audio, try_except, bind, run_check, ret. simpl.
    rewrite Hplay by apply fs_upd_eq. reflexivity.
Qed.

Lemma speak_with_cache_next_call_hits_witness :
  w_mkdir w_eleven (cache_dir_of w_eleven) = None /\
  st_fs st_scripts (cache_path w_eleven work_complete) = None /\
  w_env w_eleven "ELEVENLABS_API_KEY" = Some "sk-test" /\ "sk-test" <> "" /\
  w_post w_eleven (elevenlabs_url (current_voice w_eleven)) "sk-test" work_complete =
    HResp 200 audio_bytes /\
  w_open_w w_eleven (cache_path w_eleven work_complete) = None /\
  w_write w_eleven (cache_path w_eleven work_complete) audio_bytes = None /\
  (forall fs, fs (cache_path w_eleven work_complete) = Some audio_bytes ->
     w_run w_eleven ["afplay"; path_str (cache_path w_eleven work_complete)] fs = PExit 0) /\
  fst (speak_with_cache work_complete w_eleven (snd (speak_with_cache work_complete w_eleven st_scripts))) =
    Ok (cache_hit_result w_eleven work_complete) /\
  st_fs (snd (speak_with_cache work_complete w_eleven
                (snd (speak_with_cache work_complete w_eleven st_scripts)))) =
    st_fs (snd (speak_with_cache work_complete w_eleven st_scripts)) /\
  count_posts (st_trace (snd (speak_with_cache work_complete w_eleven
                (snd (speak_with_cache work_complete w_eleven st_scripts))))) =
    count_posts (st_trace (snd (speak_with_cache work_complete w_eleven st_scripts))).
Proof.
  split; [reflexivity|]. split; [exact st_scripts_no_wc|]. split; [reflexivity|].
  split; [discriminate|]. split; [reflexivity|]. split; [reflexivity|]. split; [reflexivity|].
  split; [exact w_eleven_afplay|].
  apply (speak_with_cache_next_call_hits w_eleven st_scripts work_complete "sk-test" audio_bytes);
    first [reflexivity | discriminate | exact st_scripts_no_wc | exact w_eleven_afplay].
Defined.

Lemma dict_truthy_true r : GenerateCache.dict_truthy r = true.
Proof. reflexivity. Qed.

Lemma generate_loop_fail msgs success skip fail w s a b f s' :
  GenerateCache.generate_loop msgs success skip fail w s = (Ok (a, b, f), s') -> f = fail.
Proof.
  revert success skip s. induction msgs as [|m msgs IH]; intros success skip s H.
  - simpl in H. inversion H. reflexivity.
  - cbn [GenerateCache.generate_loop] in H. unfold bind at 1 in H.
    rewrite get_cached_audio_path_eq in H. destruct (w_mkdir w (cache_dir_of w)); [discriminate H|].
    unfold bind at 1, path_exists in H.
    destruct (st_fs _ (cache_path w m)).
    + apply IH in H. exact H.
    + unfold bind at 1 in H. destruct (speak_with_cache m w _) as [[r|e] s2]; [|discriminate H].
      rewrite dict_truthy_true in H. unfold bind, path_exists in H. apply IH in H. exact H.
Qed.

(** X14: [main] of generate_cache.py returns 0 whenever it returns: [speak_with_cache] always gives a non-empty dict, so [fail_count] stays 0. *)
Theorem generate_cache_main_returns_zero w s n :
  fst (GenerateCache.main w s) = Ok n -> n = 0.
Proof.
  intro H. apply pair_of_fst in H. unfold GenerateCache.main, bind at 1 in H.
  unfold bind at 1 in H.
  destruct (GenerateCache.generate_loop _ 0 0 0 w s) as [[[[a b] f]|e] s1] eqn:E; [|discriminate H].
  apply generate_loop_fail in E. subst f.
  unfold bind in H. destruct (get_cached_audio_path "" w s1) as [[p|e] s2]; [|discriminate H].
  unfold ret in H. inversion H. reflexivity.
Qed.

Lemma generate_cache_main_returns_zero_witness :
  fst (GenerateCache.main w_silent st_scripts) = Ok 0 /\ 0 = 0.
Proof.
  assert (E : fst (GenerateCache.main w_silent st_scripts) = Ok 0) by (vm_compute; reflexivity).
  split; [exact E|]. exact (generate_cache_main_returns_zero w_silent st_scripts 0 E).
Defined.

Lemma generate_loop_all_cached msgs success skip fail w s :
  w_mkdir w (cache_dir_of w) = None ->
  (forall m, In m msgs -> st_fs s (cache_path w m) <> None) ->
  exists s', GenerateCache.generate_loop msgs success skip fail w s =
               (Ok (success, skip + Z.of_nat (length msgs), fail), s') /\
             st_fs s' = st_fs s /\ count_posts (st_trace s') = count_posts (st_trace s).
Proof.
  intro Hm. revert skip s. induction msgs as [|m msgs IH]; intros skip s Hc.
  - exists s. simpl. rewrite Z.add_0_r. auto.
  - cbn [GenerateCache.generate_loop]. unfold bind at 1.
    rewrite get_cached_audio_path_eq, Hm. unfold bind at 1, path_exists. cbn [st_fs log_ev].
    destruct (st_fs s (cache_path w m)) eqn:E; [|exfalso; apply (Hc m); [left; reflexivity|exact E]].
    destruct (IH (skip + 1) (log_ev s (EvMkdir (cache_dir_of w)))) as [s' [H1 [H2 H3]]].
    + intros m' Hm'. apply Hc. right. exact Hm'.
    + exists s'. rewrite H1.
      replace (skip + Z.of_nat (length (m :: msgs))) with (skip + 1 + Z.of_nat (length msgs))
        by (cbn [length]; rewrite Nat2Z.inj_succ; lia).
      split; [reflexivity|].
      rewrite H2, H3. split; [reflexivity|]. apply count_posts_log. reflexivity.
Qed.

(** X15: when every message already has its cache file, [main] of generate_cache.py returns 0, changes no file and posts no request. *)
Theorem generate_cache_main_all_cached w s :
  w_mkdir w (cache_dir_of w) = None ->
  (forall m, In m (GenerateCache.get_all_messages (w_env w)) -> st_fs s (cache_path w m) <> None) ->
  fst (GenerateCache.main w s) = Ok 0 /\
  st_fs (snd (GenerateCache.main w s)) = st_fs s /\
  count_posts (st_trace (snd (GenerateCache.main w s))) = count_posts (st_trace s).
Proof.
  intros Hm Hc.
  destruct (generate_loop_all_cached (GenerateCache.get_all_messages (w_env w)) 0 0 0 w s Hm Hc)
    as [s1 [H1 [H2 H3]]].
  assert (E : GenerateCache.main w s = (Ok 0, log_ev s1 (EvMkdir (cache_dir_of w)))).
  { unfold GenerateCache.main, bind at 1. unfold bind at 1. rewrite H1.
    unfold bind. rewrite get_cached_audio_path_eq, Hm. reflexivity. }
  rewrite E. cbn [fst snd]. split; [reflexivity|]. split; [exact H2|].
  rewrite count_posts_log by reflexivity. exact H3.
Qed.

Lemma generate_cache_main_all_cached_witness :
  w_mkdir w_no_keys (cache_dir_of w_no_keys) = None /\
  (forall m, In m (GenerateCache.get_all_messages (w_env w_no_keys)) ->
     st_fs st_full (cache_path w_no_keys m) <> None) /\
  fst (GenerateCache.main w_no_keys st_full) = Ok 0 /\
  st_fs (snd (GenerateCache.main w_no_keys st_full)) = st_fs st_full /\
  count_posts (st_trace (snd (GenerateCache.main w_no_keys st_full))) = count_posts (st_trace st_full).
Proof.
  assert (Hc : forall m, In m (GenerateCache.get_all_messages (w_env w_no_keys)) ->
                 st_fs st_full (cache_path w_no_keys m) <> None) by (intros m _; discriminate).
  split; [reflexivity|]. split; [exact Hc|].
  apply generate_cache_main_all_cached; [reflexivity|exact Hc].
Defined.

(** X16: check_and_play_cache.py and generate_cache.py list the same messages, a permutation of [messages.get_all_messages]. *)
Theorem hook_message_lists_agree env :
  CheckAndPlayCache.get_all_messages env = GenerateCache.get_all_messages env /\
  Permutation (GenerateCache.get_all_messages env) (Messages.get_all_messages env).
Proof.
  split; [reflexivity|].
  unfold GenerateCache.get_all_messages, Messages.get_all_messages, Messages.get_notification_messages.
  destruct (String.eqb (engineer_name env) "").
  - simpl. reflexivity.
  - simpl. apply perm_skip. apply Permutation_sym, Permutation_cons_append.
Qed.

Lemma strip_env_empty o :
  py_strip (match o with Some v => v | None => "" end) = "" <-> has_text o = false.
Proof.
  destruct o as [v|]; simpl; [|split; reflexivity].
  rewrite py_strip_empty. induction (list_ascii_of_string v) as [|c l IH]; simpl; [tauto|].
  destruct (py_isspace c); simpl; [exact IH|split; discriminate].
Qed.

Lemma engineer_name_empty env :
  engineer_name env = "" <-> has_text (env "ENGINEER_NAME") = false /\ has_text (env "USER") = false.
Proof.
  unfold engineer_name.
  destruct (String.eqb (py_strip (match env "ENGINEER_NAME" with Some v => v | None => "" end)) "")
    eqn:E.
  - apply String.eqb_eq, strip_env_empty in E. rewrite strip_env_empty. tauto.
  - apply String.eqb_neq in E. split; [intro H; contradiction|].
    intros [H _]. apply strip_env_empty in H. contradiction.
Qed.

(** X17: [get_notification_messages(True)] holds only the generic message exactly when neither ENGINEER_NAME nor USER has a non-whitespace character. *)
Theorem notification_messages_personalized env :
  Messages.get_notification_messages env true = [generic_notification] <->
  has_text (env "ENGINEER_NAME") = false /\ has_text (env "USER") = false.
Proof.
  rewrite <- engineer_name_empty. unfold Messages.get_notification_messages.
  destruct (String.eqb (engineer_name env) "") eqn:E.
  - apply String.eqb_eq in E. tauto.
  - apply String.eqb_neq in E. split; [intro H; discriminate H|intro H; contradiction].
Qed.

Lemma play_loop_quiet msgs w s :
  st_fs (snd (CheckAndPlayCache.play_loop msgs w s)) = st_fs s /\
  count_posts (st_trace (snd (CheckAndPlayCache.play_loop msgs w s))) = count_posts (st_trace s).
Proof.
  revert s. induction msgs as [|m msgs IH]; intro s; [split; reflexivity|].
  set (s1 := log_ev s (EvMkdir (cache_dir_of w))).
  assert (H1 : st_fs s1 = st_fs s /\ count_posts (st_trace s1) = count_posts (st_trace s)).
  { split; [reflexivity|]. apply count_posts_log. reflexivity. }
  destruct (CheckAndPlayCache.play_loop (m :: msgs) w s) as [o s'] eqn:HR.  cbn [snd].
  cbn [CheckAndPlayCache.play_loop] in HR. unfold bind at 1 in HR.
  rewrite get_cached_audio_path_eq in HR. destruct (w_mkdir w (cache_dir_of w)).
  { inversion HR; subst. split; reflexivity. }
  unfold bind at 1, path_exists in HR. fold s1 in HR. cbn [st_fs log_ev] in HR.
  change (st_fs s1) with (st_fs s) in HR.
  unfold bind at 1 in HR.
  destruct (st_fs s (cache_path w m)).
  - unfold bind at 1 in HR.
    pose proof (play_audio_same (cache_path w m) w s1) as Hs.
    pose proof (play_audio_no_post (cache_path w m) w s1) as Hn.
    destruct (play_audio (cache_path w m) w s1) as [[b|e] s2]; simpl in Hs, Hn; unfold ret in HR; cbv beta iota in HR.
    + destruct (IH s2) as [H2 H3]. rewrite HR in H2, H3. simpl in H2, H3.
      rewrite H2, H3, Hs, Hn. exact H1.
    + inversion HR; subst. simpl. rewrite Hs, Hn. exact H1.
  - unfold ret in HR. cbv beta iota in HR. destruct (IH s1) as [H2 H3]. rewrite HR in H2, H3.
    simpl in H2, H3. rewrite H2, H3. exact H1.
Qed.

(** X18: running check_and_play_cache.py, its exception handler included, changes no file and posts no request. *)
Theorem check_and_play_cache_read_only w s :
  st_fs (snd (CheckAndPlayCache.script w s)) = st_fs s /\
  count_posts (st_trace (snd (CheckAndPlayCache.script w s))) = count_posts (st_trace s).
Proof.
  pose proof (play_loop_quiet (CheckAndPlayCache.get_all_messages (w_env w)) w s) as [H1 H2].
  destruct (CheckAndPlayCache.script w s) as [o s'] eqn:HR. cbn [snd].
  unfold CheckAndPlayCache.script, CheckAndPlayCache.main, try_except, bind in HR.
  cbv beta iota in HR.
  destruct (CheckAndPlayCache.play_loop _ w s) as [[u|[e|n]] s1]; simpl in H1, H2;
    unfold any_exception, sys_exit, raise in HR; cbv beta iota in HR;
    inversion HR; subst; auto.
Qed.

Lemma tts_volume_range env : -100 <= tts_volume env <= 100.
Proof. unfold tts_volume. destruct (py_int _); lia. Qed.

(** [speak] tries the three commands of [speech_commands] in turn. *)
Lemma system_voice_speak_eq text w s :
  SystemVoice.speak text w s =
  let v := tts_volume (w_env w) in
  try_except (run_check ["say"; text] ;; ret true) is_fnf_or_subprocess
    (try_except (run_check ["spd-say"; "--volume"; decimal v; text] ;; ret true) is_fnf_or_subprocess
       (try_except (run_check ["espeak"; "-a"; decimal (v + 100); text] ;; ret true)
          is_fnf_or_subprocess (ret false))) w s.
Proof.
  unfold SystemVoice.speak, bind at 1, getenv_default. cbv beta zeta.
  assert (Hv : match py_int (match w_env w "TTS_VOLUME" with Some v => v | None => "0" end) with
               | Some vol_int => decimal (Z.max (-100) (Z.min 100 vol_int))
               | None => "0"
               end = decimal (tts_volume (w_env w))).
  { unfold tts_volume. destruct (py_int _); reflexivity. }
  pose proof (tts_volume_range (w_env w)).
  rewrite Hv, py_int_decimal by lia.
  replace (Z.max 0 (Z.min 200 (tts_volume (w_env w) + 100))) with (tts_volume (w_env w) + 100)
    by lia.
  reflexivity.
Qed.

(** X19: [speak] of system_voice_tts.py clamps the volume to [-100, 100] (0 when [int()] rejects TTS_VOLUME, also for more than 4300 digits), changes no file, and runs a prefix of say, spd-say with the volume, espeak with the volume plus 100, in this order. *)
Theorem system_voice_speak_commands text w s :
  -100 <= tts_volume (w_env w) <= 100 /\
  st_fs (snd (SystemVoice.speak text w s)) = st_fs s /\
  exists k, st_trace (snd (SystemVoice.speak text w s)) =
            st_trace s ++ map EvRun (firstn k (speech_commands text (tts_volume (w_env w)))).
Proof.
  split; [apply tts_volume_range|].
  rewrite system_voice_speak_eq. cbv zeta. destruct s as [fs tr].
  unfold speech_commands, try_except, bind, run_check, ret. simpl.
  repeat (match goal with |- context [w_run ?w ?a ?f] => destruct (w_run w a f) as [[|?|?]|?] end;
          simpl;
          try (match goal with |- context [is_fnf_or_subprocess ?e] =>
                 destruct (is_fnf_or_subprocess e) end; simpl));
  (split; [reflexivity|]);
  first [ exists 1%nat; reflexivity
        | exists 2%nat; simpl; rewrite <- app_assoc; reflexivity
        | exists 3%nat; simpl; rewrite <- !app_assoc; reflexivity ].
Qed.

(** X20: [speak] of system_voice_tts.py returns [False] exactly when the three commands all fail with exceptions it catches. *)
Theorem system_voice_speak_false_iff text w s :
  fst (SystemVoice.speak text w s) = Ok false <->
  forallb (fun argv => caught_failure (w_run w argv (st_fs s)))
          (speech_commands text (tts_volume (w_env w))) = true.
Proof.
  rewrite system_voice_speak_eq. cbv zeta. destruct s as [fs tr].
  unfold speech_commands, try_except, bind, run_check, ret. simpl.
  repeat (match goal with |- context [w_run ?w ?a ?f] => destruct (w_run w a f) as [[|?|?]|?] end;
          simpl;
          try (match goal with |- context [is_fnf_or_subprocess ?e] =>
                 destruct (is_fnf_or_subprocess e) end; simpl));
  split; intro H; first [reflexivity | discriminate H].
Qed.

Ltac eleven_cases :=
  repeat (cbn beta iota;
    match goal with
    | H : ElevenLabsTTS.t_unlink ?u ?p = None |- context [ElevenLabsTTS.t_unlink ?u ?p] => rewrite H
    | |- context [ElevenLabsTTS.t_create ?u] => destruct (ElevenLabsTTS.t_create u)
    | |- context [ElevenLabsTTS.t_unlink ?u ?p] => destruct (ElevenLabsTTS.t_unlink u p)
    | |- context [w_post ?w ?a ?b ?c] => destruct (w_post w a b c)
    | |- context [w_write ?w ?p ?d] => destruct (w_write w p d) as [[? ?]|]
    | |- context [w_run ?w ?a ?f] => destruct (w_run w a f) as [[|?|?]|?]
    | |- context [is_fnf_or_subprocess ?e] => destruct (is_fnf_or_subprocess e)
    | |- context [Z.eqb ?a ?b] => destruct (Z.eqb a b)
    | |- context [truthy ?o] => destruct (truthy o)
    | |- context [w_env ?w ?k] => destruct (w_env w k)
    end).

Lemma eleven_speak_shape text u s :
  match ElevenLabsTTS.speak text u s with
  | (Ok _, s') => exists l, st_trace s' = st_trace s ++ l /\
                  (filter is_post l = [] \/ filter is_post l = [EvPost (elevenlabs_url default_voice) text])
  | (Err _, _) => False
  end.
Proof.
  destruct s as [fs tr].
  unfold ElevenLabsTTS.speak, ElevenLabsTTS.lift, ElevenLabsTTS.named_temporary_file,
    ElevenLabsTTS.unlink, bind, getenv, try_except, post, write_bytes, run_check, ret,
    any_exception, log_ev, set_file.
  eleven_cases.
  all: first [ exists []; split; [cbn [st_trace]; symmetry; apply app_nil_r | cbn; auto]
             | eexists; split; [cbn [st_trace]; rewrite <- ?app_assoc; reflexivity | cbn; auto] ].
Qed.

(** X21: [speak] of elevenlabs_tts.py never raises and posts at most one request, always for the fixed default voice. *)
Theorem elevenlabs_speak_one_request text u s :
  (exists b, fst (ElevenLabsTTS.speak text u s) = Ok b) /\
  exists l, st_trace (snd (ElevenLabsTTS.speak text u s)) = st_trace s ++ l /\
            (filter is_post l = [] \/ filter is_post l = [EvPost (elevenlabs_url default_voice) text]).
Proof.
  pose proof (eleven_speak_shape text u s) as H.
  destruct (ElevenLabsTTS.speak text u s) as [[b|e] s']; [|contradiction].
  split; [exists b; reflexivity|exact H].
Qed.

Lemma eleven_speak_tmp text u s :
  ElevenLabsTTS.t_unlink u (ElevenLabsTTS.t_tmp u) = None ->
  match ElevenLabsTTS.speak text u s with
  | (Ok true, s') =>
      st_fs s' (ElevenLabsTTS.t_tmp u) = None /\
      (forall q, q <> ElevenLabsTTS.t_tmp u -> st_fs s' q = st_fs s q)
  | _ => True
  end.
Proof.
  intro Hu. destruct s as [fs tr].
  unfold ElevenLabsTTS.speak, ElevenLabsTTS.lift, ElevenLabsTTS.named_temporary_file,
    ElevenLabsTTS.unlink, bind, getenv, try_except, post, write_bytes, run_check, ret,
    any_exception, log_ev, set_file.
  eleven_cases.
  all: first [ exact I
             | cbn [st_fs]; split;
               [apply fs_upd_eq | intros q Hq; rewrite !fs_upd_neq by exact Hq; reflexivity] ].
Qed.

(** X22: when [speak] of elevenlabs_tts.py returns [True] and the unlink succeeds, its temporary file is gone and no other file changed. *)
Theorem elevenlabs_speak_removes_tmp text u s :
  fst (ElevenLabsTTS.speak text u s) = Ok true ->
  ElevenLabsTTS.t_unlink u (ElevenLabsTTS.t_tmp u) = None ->
  st_fs (snd (ElevenLabsTTS.speak text u s)) (ElevenLabsTTS.t_tmp u) = None /\
  (forall q, q <> ElevenLabsTTS.t_tmp u -> st_fs (snd (ElevenLabsTTS.speak text u s)) q = st_fs s q).
Proof.
  intros H1 H2. pose proof (eleven_speak_tmp text u s H2) as H.
  destruct (ElevenLabsTTS.speak text u s) as [o s']. simpl in H1. subst o. exact H.
Qed.

Lemma elevenlabs_speak_removes_tmp_witness :
  fst (ElevenLabsTTS.speak work_complete tw_eleven st_empty) = Ok true /\
  ElevenLabsTTS.t_unlink tw_eleven (ElevenLabsTTS.t_tmp tw_eleven) = None /\
  st_fs (snd (ElevenLabsTTS.speak work_complete tw_eleven st_empty)) (ElevenLabsTTS.t_tmp tw_eleven) = None /\
  (forall q, q <> ElevenLabsTTS.t_tmp tw_eleven ->
     st_fs (snd (ElevenLabsTTS.speak work_complete tw_eleven st_empty)) q = st_fs st_empty q).
Proof.
  assert (E : fst (ElevenLabsTTS.speak work_complete tw_eleven st_empty) = Ok true)
    by (vm_compute; reflexivity).
  split; [exact E|]. split; [reflexivity|].
  apply elevenlabs_speak_removes_tmp; [exact E|reflexivity].
Defined.

(** X23: when writing the response to the temporary file fails after k bytes, [speak] of elevenlabs_tts.py returns [False] and leaves the temporary file with those k bytes. *)
Theorem elevenlabs_speak_write_failure_keeps_tmp text u s key c k e :
  w_env (ElevenLabsTTS.t_base u) "ELEVENLABS_API_KEY" = Some key -> key <> "" ->
  w_post (ElevenLabsTTS.t_base u) (elevenlabs_url default_voice) key text = HResp 200 c ->
  ElevenLabsTTS.t_create u = None ->
  w_write (ElevenLabsTTS.t_base u) (ElevenLabsTTS.t_tmp u) c = Some (k, e) ->
  fst (ElevenLabsTTS.speak text u s) = Ok false /\
  st_fs (snd (ElevenLabsTTS.speak text u s)) (ElevenLabsTTS.t_tmp u) = Some (firstn k c).
Proof.
  intros Hk Hne Hp Hc Hw.
  assert (E : ElevenLabsTTS.speak text u s =
    (Ok false,
     set_file (log_ev (set_file (log_ev (log_ev s (EvPost (elevenlabs_url default_voice) text))
                                        (EvOpenW (ElevenLabsTTS.t_tmp u)))
                               (ElevenLabsTTS.t_tmp u) (Some []))
                      (EvWrite (ElevenLabsTTS.t_tmp u) (firstn k c)))
              (ElevenLabsTTS.t_tmp u) (Some (firstn k c)))).
  { unfold ElevenLabsTTS.speak, ElevenLabsTTS.lift, bind at 1, getenv. rewrite Hk.
    replace (truthy (Some key)) with true
      by (unfold truthy; symmetry; apply negb_true_iff, String.eqb_neq; exact Hne).
    unfold try_except, bind at 1, post. rewrite Hp.
    unfold bind at 1. cbv beta iota. rewrite Z.eqb_refl.
    unfold bind at 1, ElevenLabsTTS.named_temporary_file. rewrite Hc.
    unfold bind at 1, write_bytes. rewrite Hw. reflexivity. }
  rewrite E. split; [reflexivity|apply fs_upd_eq].
Qed.

Lemma elevenlabs_speak_write_failure_keeps_tmp_witness :
  w_env (ElevenLabsTTS.t_base tw_disk_full) "ELEVENLABS_API_KEY" = Some "sk-test" /\ "sk-test" <> "" /\
  w_post (ElevenLabsTTS.t_base tw_disk_full) (elevenlabs_url default_voice) "sk-test" work_complete =
    HResp 200 audio_bytes /\
  ElevenLabsTTS.t_create tw_disk_full = None /\
  w_write (ElevenLabsTTS.t_base tw_disk_full) (ElevenLabsTTS.t_tmp tw_disk_full) audio_bytes =
    Some (2%nat, OSError) /\
  fst (ElevenLabsTTS.speak work_complete tw_disk_full st_empty) = Ok false /\
  st_fs (snd (ElevenLabsTTS.speak work_complete tw_disk_full st_empty)) (ElevenLabsTTS.t_tmp tw_disk_full) =
    Some (firstn 2 audio_bytes).
Proof.
  split; [reflexivity|]. split; [discriminate|]. split; [reflexivity|]. split; [reflexivity|].
  split; [reflexivity|].
  apply (elevenlabs_speak_write_failure_keeps_tmp work_complete tw_disk_full st_empty "sk-test"
           audio_bytes 2 OSError); first [reflexivity | discriminate].
Defined.

Lemma notify_get_tts_script_path_pure w s :
  exists r, NotifyTTS.get_tts_script_path w s = (Ok r, s).
Proof.
  unfold NotifyTTS.get_tts_script_path, bind, NotifyTTS.script_dir, NotifyTTS.path_exists,
    NotifyTTS.getenv, ret.
  repeat (cbv beta iota; match goal with
    | |- context [match st_fs ?s ?p with Some _ => _ | None => _ end] => destruct (st_fs s p)
    | |- context [truthy ?o] => destruct (truthy o)
    end); eexists; reflexivity.
Qed.

Lemma notify_generic_cached env :
  In generic_notification (GenerateCache.get_all_messages env).
Proof. unfold GenerateCache.get_all_messages. destruct (String.eqb _ _); left; reflexivity. Qed.

Lemma notify_personal_cached env :
  String.eqb (engineer_name env) "" = false ->
  In (personal_message (engineer_name env)) (GenerateCache.get_all_messages env).
Proof.
  intro H. unfold GenerateCache.get_all_messages. cbv zeta. rewrite H.
  apply in_app_iff. right. left. reflexivity.
Qed.

Ltac notify_cases :=
  repeat (cbv beta iota zeta delta [andb negb];
    match goal with
    | |- context [NotifyTTS.a_run ?w ?a ?f] => destruct (NotifyTTS.a_run w a f)
    | |- context [Z.eqb ?a ?b] => destruct (Z.eqb a b)
    | |- context [String.eqb (py_strip ?o) ""] => destruct (String.eqb (py_strip o) "")
    | |- context [NotifyTTS.a_loads ?w ?t] => destruct (NotifyTTS.a_loads w t)
    | |- context [match ?e with FileNotFoundError => _ | _ => _ end] => destruct e
    | |- context [NotifyTTS.dict_update ?d ?j] => destruct (NotifyTTS.dict_update d j) as [? [?|]]
    end).

Lemma notify_shape w s :
  match NotifyTTS.announce_notification w s with
  | (Ok _, s') =>
      s' = s \/
      exists p m, fst (NotifyTTS.get_tts_script_path w s) = Ok (Some p) /\
        (let argv := ["python3"; path_str p; m; "--json"] in
         s' = mkst (NotifyTTS.a_run_fs w argv (st_fs s)) (st_trace s ++ [EvRun argv])) /\
        In m (GenerateCache.get_all_messages (NotifyTTS.a_env w))
  | (Err _, _) => False
  end.
Proof.
  destruct (notify_get_tts_script_path_pure w s) as [r Hr].
  pose proof (notify_generic_cached (NotifyTTS.a_env w)) as Hg.
  unfold NotifyTTS.announce_notification, bind at 1. rewrite Hr. cbv beta iota.
  destruct r as [p|]; [|left; reflexivity].
  unfold bind, NotifyTTS.engineer_name_m, NotifyTTS.random_lt, ret, NotifyTTS.run_capture,
    NotifyTTS.json_loads, NotifyTTS.json_truthy, log_ev.
  cbv beta iota zeta.
  destruct (String.eqb (engineer_name (NotifyTTS.a_env w)) "") eqn:Ee;
    [|destruct (NotifyTTS.a_random_lt w)];
  cbv beta iota zeta; rewrite ?Ee; notify_cases;
  right; do 2 eexists;
    (split; [reflexivity|split; [reflexivity|first [exact Hg | exact (notify_personal_cached _ Ee)]]]).
Qed.

(** X24: [announce_notification] never raises; it either leaves the state as it is, or runs exactly one command [python3 <script> <message> --json], with the script found by [get_tts_script_path] and a message that generate_cache.py caches, and then the files are those that command leaves. *)
Theorem announce_notification_runs_once w s :
  exists d, fst (NotifyTTS.announce_notification w s) = Ok d /\
  (snd (NotifyTTS.announce_notification w s) = s \/
   exists p m, fst (NotifyTTS.get_tts_script_path w s) = Ok (Some p) /\
     (let argv := ["python3"; path_str p; m; "--json"] in
      snd (NotifyTTS.announce_notification w s) =
        mkst (NotifyTTS.a_run_fs w argv (st_fs s)) (st_trace s ++ [EvRun argv])) /\
     In m (GenerateCache.get_all_messages (NotifyTTS.a_env w))).
Proof.
  pose proof (notify_shape w s) as H.
  destruct (NotifyTTS.announce_notification w s) as [[d|e] s']; [|contradiction].
  exists d. split; [reflexivity|exact H].
Qed.

Lemma notify_script_path_eq w s p :
  fst (NotifyTTS.get_tts_script_path w s) = Ok (Some p) ->
  NotifyTTS.get_tts_script_path w s = (Ok (Some p), s).
Proof.
  intro H. destruct (notify_get_tts_script_path_pure w s) as [r Hr].
  rewrite Hr in *. simpl in H. congruence.
Qed.

(** X25: when no TTS script is found, [announce_notification] returns the initial metadata and does nothing else. *)
Theorem announce_notification_no_script w s :
  fst (NotifyTTS.get_tts_script_path w s) = Ok None ->
  NotifyTTS.announce_notification w s = (Ok NotifyTTS.metadata0, s).
Proof.
  intro H. destruct (notify_get_tts_script_path_pure w s) as [r Hr].
  rewrite Hr in H. simpl in H. injection H as ->.
  unfold NotifyTTS.announce_notification, bind at 1. rewrite Hr. reflexivity.
Qed.

Lemma announce_notification_no_script_witness :
  fst (NotifyTTS.get_tts_script_path aw_empty st_empty) = Ok None /\
  NotifyTTS.announce_notification aw_empty st_empty = (Ok NotifyTTS.metadata0, st_empty).
Proof.
  assert (H : fst (NotifyTTS.get_tts_script_path aw_empty st_empty) = Ok None) by reflexivity.
  split; [exact H|apply announce_notification_no_script; exact H].
Defined.

Ltac notify_unfold Hs :=
  unfold NotifyTTS.announce_notification, bind at 1; rewrite Hs; cbv beta iota;
  unfold bind, NotifyTTS.engineer_name_m, NotifyTTS.random_lt, ret, NotifyTTS.run_capture,
    NotifyTTS.json_loads, NotifyTTS.json_truthy, log_ev;
  cbv beta iota zeta.

(** X26: when running the script raises [e], the metadata has [tts_triggered] true and [error] set to the text of the [except] clause that catches [e]. *)
Theorem announce_notification_run_raises w s p e :
  fst (NotifyTTS.get_tts_script_path w s) = Ok (Some p) ->
  (forall argv fs, NotifyTTS.a_run w argv fs = NotifyTTS.CRaise e) ->
  exists d, fst (NotifyTTS.announce_notification w s) = Ok d /\
    NotifyTTS.dict_lookup d (JStr "error") = Some (JStr (NotifyTTS.error_text e)) /\
    NotifyTTS.dict_lookup d (JStr "tts_triggered") = Some (JBool true).
Proof.
  intros Hs Hrun. apply notify_script_path_eq in Hs. notify_unfold Hs.
  destruct (String.eqb (engineer_name (NotifyTTS.a_env w)) "") eqn:Ee;
    [|destruct (NotifyTTS.a_random_lt w)]; cbv beta iota zeta; rewrite ?Ee, Hrun;
    cbv beta iota zeta; (eexists; split; [reflexivity|split; reflexivity]).
Qed.

Lemma announce_notification_run_raises_witness :
  fst (NotifyTTS.get_tts_script_path aw_timeout st_full) =
    Ok (Some [""; "home"; "dev"; ".claude"; "hooks"; "utils"; "tts"; "cached_tts.py"]) /\
  (forall argv fs, NotifyTTS.a_run aw_timeout argv fs = NotifyTTS.CRaise TimeoutExpired) /\
  exists d, fst (NotifyTTS.announce_notification aw_timeout st_full) = Ok d /\
    NotifyTTS.dict_lookup d (JStr "error") = Some (JStr "TTS timeout") /\
    NotifyTTS.dict_lookup d (JStr "tts_triggered") = Some (JBool true).
Proof.
  split; [reflexivity|]. split; [reflexivity|].
  exact (announce_notification_run_raises aw_timeout st_full
           [""; "home"; "dev"; ".claude"; "hooks"; "utils"; "tts"; "cached_tts.py"]
           TimeoutExpired eq_refl (fun _ _ => eq_refl)).
Defined.

(** X27: with no engineer name, a script exiting non-zero or printing only whitespace gives exactly the metadata tts_triggered true, the generic message, and personalized the empty string; the one command run is the script on the generic message, and the files are those it leaves. *)
Theorem announce_notification_quiet_backend w s p rc out :
  fst (NotifyTTS.get_tts_script_path w s) = Ok (Some p) ->
  engineer_name (NotifyTTS.a_env w) = "" ->
  (forall argv fs, NotifyTTS.a_run w argv fs = NotifyTTS.CDone rc out) ->
  rc <> 0 \/ py_strip out = "" ->
  NotifyTTS.announce_notification w s =
    (Ok [(JStr "tts_triggered", JBool true); (JStr "message", JStr generic_notification);
         (JStr "personalized", JStr "")],
     let argv := ["python3"; path_str p; generic_notification; "--json"] in
     mkst (NotifyTTS.a_run_fs w argv (st_fs s)) (st_trace s ++ [EvRun argv])).
Proof.
  intros Hs Hn Hrun Hc. apply notify_script_path_eq in Hs. notify_unfold Hs.
  destruct (String.eqb (engineer_name (NotifyTTS.a_env w)) "") eqn:Ee;
    [|rewrite Hn in Ee; discriminate Ee].
  cbv beta iota zeta. rewrite Ee, Hrun, Hn. cbv beta iota zeta.
  replace (Z.eqb rc 0 && negb (String.eqb (py_strip out) "")) with false.
  - reflexivity.
  - destruct Hc as [Hc|Hc].
    + apply Z.eqb_neq in Hc. rewrite Hc. reflexivity.
    + rewrite Hc. rewrite andb_false_r. reflexivity.
Qed.

Lemma announce_notification_quiet_backend_witness :
  fst (NotifyTTS.get_tts_script_path aw_failing st_full) =
    Ok (Some [""; "home"; "dev"; ".claude"; "hooks"; "utils"; "tts"; "cached_tts.py"]) /\
  engineer_name (NotifyTTS.a_env aw_failing) = "" /\
  (forall argv fs, NotifyTTS.a_run aw_failing argv fs = NotifyTTS.CDone 1 "") /\
  (1 <> 0 \/ py_strip "" = "") /\
  NotifyTTS.announce_notification aw_failing st_full =
    (Ok [(JStr "tts_triggered", JBool true); (JStr "message", JStr generic_notification);
         (JStr "personalized", JStr "")],
     log_ev st_full (EvRun ["python3";
       path_str [""; "home"; "dev"; ".claude"; "hooks"; "utils"; "tts"; "cached_tts.py"];
       generic_notification; "--json"])).
Proof.
  split; [reflexivity|]. split; [reflexivity|]. split; [reflexivity|].
  split; [left; lia|].
  apply (announce_notification_quiet_backend aw_failing st_full _ 1 ""); [reflexivity|reflexivity|reflexivity|left; lia].
Defined.

(** X28: a script exiting 0 and printing a JSON number, boolean or null makes [update] raise [TypeError]: the metadata gets the error Unexpected error: TypeError with [tts_triggered] true. *)
Theorem announce_notification_not_iterable w s p out j :
  fst (NotifyTTS.get_tts_script_path w s) = Ok (Some p) ->
  (forall argv fs, NotifyTTS.a_run w argv fs = NotifyTTS.CDone 0 out) ->
  py_strip out <> "" ->
  NotifyTTS.a_loads w (py_strip out) = inr j ->
  NotifyTTS.py_iter j = None ->
  exists d, fst (NotifyTTS.announce_notification w s) = Ok d /\
    NotifyTTS.dict_lookup d (JStr "error") = Some (JStr "Unexpected error: TypeError") /\
    NotifyTTS.dict_lookup d (JStr "tts_triggered") = Some (JBool true).
Proof.
  intros Hs Hrun Ho Hl Hj. apply notify_script_path_eq in Hs.
  assert (Hu : forall d, NotifyTTS.dict_update d j = (d, Some TypeError)).
  { intro d. destruct j; try discriminate Hj; reflexivity. }
  apply String.eqb_neq in Ho.
  notify_unfold Hs.
  destruct (String.eqb (engineer_name (NotifyTTS.a_env w)) "") eqn:Ee;
    [|destruct (NotifyTTS.a_random_lt w)]; cbv beta iota zeta; rewrite ?Ee, Hrun;
    cbv beta iota zeta; rewrite Ho, Z.eqb_refl; cbv beta iota zeta;
    rewrite Hl; cbv beta iota zeta; rewrite Hu;
    (eexists; split; [reflexivity|split; reflexivity]).
Qed.

Lemma announce_notification_not_iterable_witness :
  fst (NotifyTTS.get_tts_script_path aw_number st_full) =
    Ok (Some [""; "home"; "dev"; ".claude"; "hooks"; "utils"; "tts"; "cached_tts.py"]) /\
  (forall argv fs, NotifyTTS.a_run aw_number argv fs = NotifyTTS.CDone 0 "42") /\
  py_strip "42" <> "" /\
  NotifyTTS.a_loads aw_number (py_strip "42") = inr (JNum 42) /\
  NotifyTTS.py_iter (JNum 42) = None /\
  exists d, fst (NotifyTTS.announce_notification aw_number st_full) = Ok d /\
    NotifyTTS.dict_lookup d (JStr "error") = Some (JStr "Unexpected error: TypeError") /\
    NotifyTTS.dict_lookup d (JStr "tts_triggered") = Some (JBool true).
Proof.
  split; [reflexivity|]. split; [reflexivity|]. split; [vm_compute; discriminate|].
  split; [vm_compute; reflexivity|]. split; [reflexivity|].
  apply (announce_notification_not_iterable aw_number st_full
           [""; "home"; "dev"; ".claude"; "hooks"; "utils"; "tts"; "cached_tts.py"] "42" (JNum 42));
    [reflexivity|reflexivity|vm_compute; discriminate|vm_compute; reflexivity|reflexivity].
Defined.

Lemma dict_lookup_set_str d x y v :
  NotifyTTS.dict_lookup (NotifyTTS.dict_set d (JStr x) v) (JStr y) =
  if String.eqb x y then Some v else NotifyTTS.dict_lookup d (JStr y).
Proof.
  induction d as [|[k' v'] d IH]; [reflexivity|].
  destruct k' as [| | |z| |]; cbn [NotifyTTS.dict_set NotifyTTS.dict_lookup NotifyTTS.key_eqb];
    try exact IH.
  destruct (String.eqb z x) eqn:E1.
  - apply String.eqb_eq in E1. subst z. cbn [NotifyTTS.dict_lookup NotifyTTS.key_eqb].
    destruct (String.eqb x y); reflexivity.
  - cbn [NotifyTTS.dict_lookup NotifyTTS.key_eqb]. rewrite IH.
    destruct (String.eqb z y) eqn:E2; [|reflexivity].
    destruct (String.eqb x y) eqn:E3; [|reflexivity].
    apply String.eqb_eq in E2, E3. subst. rewrite String.eqb_refl in E1. discriminate E1.
Qed.

Lemma dict_lookup_fold_absent l d y :
  ~ In y (map fst l) ->
  NotifyTTS.dict_lookup (fold_left (fun d kv => NotifyTTS.dict_set d (JStr (fst kv)) (snd kv)) l d)
    (JStr y) = NotifyTTS.dict_lookup d (JStr y).
Proof.
  revert d. induction l as [|[k u] l IH]; intros d H; [reflexivity|].
  cbn [fold_left fst snd]. rewrite IH by (intro; apply H; right; assumption).
  rewrite dict_lookup_set_str. destruct (String.eqb k y) eqn:E; [|reflexivity].
  apply String.eqb_eq in E. subst. exfalso. apply H. left. reflexivity.
Qed.

Lemma dict_lookup_fold_in l d y v :
  NoDup (map fst l) -> In (y, v) l ->
  NotifyTTS.dict_lookup (fold_left (fun d kv => NotifyTTS.dict_set d (JStr (fst kv)) (snd kv)) l d)
    (JStr y) = Some v.
Proof.
  revert d. induction l as [|[k u] l IH]; intros d Hn Hi; [destruct Hi|].
  cbn [map fst] in Hn. inversion Hn as [|? ? Hk Hn']; subst.
  cbn [fold_left fst snd]. destruct Hi as [Hi|Hi].
  - injection Hi as -> ->. rewrite dict_lookup_fold_absent by exact Hk.
    rewrite dict_lookup_set_str, String.eqb_refl. reflexivity.
  - apply IH; assumption.
Qed.

(** X29: a script exiting 0 and printing a JSON object with distinct keys overrides the metadata with each of its fields. *)
Theorem announce_notification_backend_fields w s p out l k v :
  fst (NotifyTTS.get_tts_script_path w s) = Ok (Some p) ->
  (forall argv fs, NotifyTTS.a_run w argv fs = NotifyTTS.CDone 0 out) ->
  py_strip out <> "" ->
  NotifyTTS.a_loads w (py_strip out) = inr (JObj l) ->
  NoDup (map fst l) -> In (k, v) l ->
  exists d, fst (NotifyTTS.announce_notification w s) = Ok d /\
    NotifyTTS.dict_lookup d (JStr k) = Some v.
Proof.
  intros Hs Hrun Ho Hl Hn Hi. apply notify_script_path_eq in Hs.
  apply String.eqb_neq in Ho.
  notify_unfold Hs.
  destruct (String.eqb (engineer_name (NotifyTTS.a_env w)) "") eqn:Ee;
    [|destruct (NotifyTTS.a_random_lt w)]; cbv beta iota zeta; rewrite ?Ee, Hrun;
    cbv beta iota zeta; rewrite Ho, Z.eqb_refl; cbv beta iota zeta;
    rewrite Hl; unfold NotifyTTS.dict_update; cbv beta iota zeta;
    (eexists; split; [reflexivity|apply dict_lookup_fold_in; assumption]).
Qed.

Lemma announce_notification_backend_fields_witness :
  fst (NotifyTTS.get_tts_script_path aw_backend st_full) =
    Ok (Some [""; "home"; "dev"; ".claude"; "hooks"; "utils"; "tts"; "cached_tts.py"]) /\
  (forall argv fs, NotifyTTS.a_run aw_backend argv fs = NotifyTTS.CDone 0 backend_stdout) /\
  py_strip backend_stdout <> "" /\
  NotifyTTS.a_loads aw_backend (py_strip backend_stdout) = inr (JObj [("tts_triggered", JBool false)]) /\
  NoDup (map fst [("tts_triggered", JBool false)]) /\
  In ("tts_triggered", JBool false) [("tts_triggered", JBool false)] /\
  exists d, fst (NotifyTTS.announce_notification aw_backend st_full) = Ok d /\
    NotifyTTS.dict_lookup d (JStr "tts_triggered") = Some (JBool false).
Proof.
  assert (H1 : py_strip backend_stdout <> "") by (vm_compute; discriminate).
  assert (H2 : NotifyTTS.a_loads aw_backend (py_strip backend_stdout) =
               inr (JObj [("tts_triggered", JBool false)])) by (vm_compute; reflexivity).
  assert (H3 : NoDup (map fst [("tts_triggered", JBool false)]))
    by (constructor; [intros []|constructor]).
  split; [reflexivity|]. split; [reflexivity|]. split; [exact H1|]. split; [exact H2|].
  split; [exact H3|]. split; [left; reflexivity|].
  exact (announce_notification_backend_fields aw_backend st_full
           [""; "home"; "dev"; ".claude"; "hooks"; "utils"; "tts"; "cached_tts.py"]
           backend_stdout [("tts_triggered", JBool false)] "tts_triggered" (JBool false)
           eq_refl (fun _ _ => eq_refl) H1 H2 H3 (or_introl eq_refl)).
Defined.
